(** * SunSpec proxy: a shallow embedding of [sunspec_proxy.cpp]

    The component polls Hoymiles inverters through a DTU over Modbus RTU,
    keeps one SunSpec register image and serves it over Modbus TCP.  This
    file embeds the register image construction, the aggregation, the TCP
    request handler, the power-limit forwarding and the RTU poller, and
    states the properties of the specification over that embedding.

    Conventions.  Fixed-width integers are [Z] with the wrap-around written
    out ([u8], [u16], [u32], [s16], [s32]).  [float] is IEEE-754 binary32,
    computed with the parametric operations of [SpecFloat] at precision 24
    and maximal exponent 128.  Effects (socket sends, UART writes, flushes,
    delays) are recorded in order in the [trace] field of the state; the
    clock [millis()] is an argument of the functions that read it. *)

From Stdlib Require Import ZArith List Bool Lia String Ascii.
From Stdlib Require Import Floats.SpecFloat.
From stdpp Require Import base list.

Import ListNotations.
Local Open Scope Z_scope.

(** ** Fixed-width integers *)

Definition u8 (z : Z) : Z := z mod 256.
Definition u16 (z : Z) : Z := z mod 65536.
Definition u32 (z : Z) : Z := z mod 4294967296.

(** [(int16_t)] and [(int)] read the low bits in two's complement. *)
Definition s16 (z : Z) : Z :=
  let w := u16 z in if w <? 32768 then w else w - 65536.
Definition s32 (z : Z) : Z :=
  let w := u32 z in if w <? 2147483648 then w else w - 4294967296.

Definition is_u8 (z : Z) : Prop := 0 <= z < 256.
Definition is_u16 (z : Z) : Prop := 0 <= z < 65536.

Definition is_u16b (z : Z) : bool := (0 <=? z) && (z <? 65536).

(** ** Byte helpers of the source *)

(** [be16(p)] reads [p[0]], [p[1]]; here [p] is the buffer and [i] the
    position of [p[0]] in it. *)
Definition be16 (p : list Z) (i : nat) : Z :=
  u16 (Z.lor (Z.shiftl (nth i p 0) 8) (nth (S i) p 0)).

Definition put_be16 (v : Z) : list Z :=
  [u8 (Z.shiftr v 8); u8 (Z.land v 255)].

(** ** CRC-16/Modbus *)

Definition crc16_shift (crc : Z) : Z :=
  if Z.land crc 1 =? 1 then Z.lxor (Z.shiftr crc 1) 40961 (* 0xA001 *)
  else Z.shiftr crc 1.

Definition crc16_byte (crc b : Z) : Z :=
  Nat.iter 8 crc16_shift (Z.lxor crc b).

Definition calc_crc16_ (data : list Z) (len : nat) : Z :=
  fold_left crc16_byte (take len data) 65535.

(** ** binary32 arithmetic *)

Module F32.

Definition prec : Z := 24.
Definition emax : Z := 128.

Definition float : Type := spec_float.

Definition zero : float := S754_zero false.
Definition nan : float := S754_nan.

(** Conversion of an integer, [(float)z]: rounds to nearest even. *)
Definition of_Z (z : Z) : float := binary_normalize prec emax z 0 false.

Definition one : float := Eval vm_compute in of_Z 1.
Definition three : float := Eval vm_compute in of_Z 3.
Definition ten : float := Eval vm_compute in of_Z 10.
Definition hundred : float := Eval vm_compute in of_Z 100.
Definition thousand : float := Eval vm_compute in of_Z 1000.
Definition two : float := Eval vm_compute in of_Z 2.

Definition add : float -> float -> float := SFadd prec emax.
Definition mul : float -> float -> float := SFmul prec emax.
Definition div : float -> float -> float := SFdiv prec emax.
Definition sqrtf : float -> float := SFsqrt prec emax.

Definition ltb (x y : float) : bool := SFltb x y.
(** [x > y] *)
Definition gtb (x y : float) : bool := SFltb y x.
Definition leb (x y : float) : bool := SFleb x y.

Definition isnan (x : float) : bool :=
  match x with S754_nan => true | _ => false end.

Definition is_finite (x : float) : bool :=
  match x with S754_zero _ | S754_finite _ _ _ => true | _ => false end.

(** Truncation toward zero, the value part of a C conversion from
    [float] to an integer type.  C leaves the conversion of a NaN or an
    infinity undefined; the model takes 0 there. *)
Definition trunc (x : float) : Z :=
  match x with
  | S754_finite s m e =>
      let a := match e with
               | Zneg p => Z.pos m / 2 ^ Z.pos p
               | _ => Z.pos m * 2 ^ e
               end in
      if s then - a else a
  | _ => 0
  end.

(** The C conversions used by the source.  A value outside the range of
    the target type is undefined in C; the model keeps the low bits. *)
Definition to_int (x : float) : Z := s32 (trunc x).
Definition to_u16 (x : float) : Z := u16 (trunc x).
Definition to_u32 (x : float) : Z := u32 (trunc x).

(** Rounding to the nearest integer, halves away from zero (C's
    [roundf]); used only to state rounding properties. *)
Definition round_half_away (x : float) : Z :=
  match x with
  | S754_finite s m e =>
      let a := match e with
               | Zneg p => (2 * Z.pos m + 2 ^ Z.pos p) / (2 * 2 ^ Z.pos p)
               | _ => Z.pos m * 2 ^ e
               end in
      if s then - a else a
  | _ => 0
  end.

(** [powf(10.0f, (float)sf)] for an integer [sf].  [powf] is the C
    library's: it is taken as the correctly rounded power of ten, and
    [powf(10, 0) = 1] as the C standard requires. *)
Definition powf10 (sf : Z) : float :=
  match sf with
  | Z0 => one
  | Zpos p => of_Z (10 ^ Z.pos p)
  | Zneg p => div (S754_finite false 1 0) (S754_finite false (10 ^ p)%positive 0)
  end.

End F32.

(** ** Constants of [sunspec_proxy.h] *)

Definition SUNSPEC_BASE : Z := 40000.

Definition HM_DATA_BASE : Z := 4096.      (* 0x1000 *)
Definition HM_PORT_STRIDE : Z := 40.      (* 0x28 *)
Definition HM_SN_START : nat := 1.
Definition HM_PV_VOLTAGE : nat := 8.
Definition HM_PV_CURRENT : nat := 9.
Definition HM_GRID_VOLTAGE : nat := 10.
Definition HM_GRID_FREQ : nat := 11.
Definition HM_PV_POWER : nat := 12.
Definition HM_TODAY_PROD_H : nat := 13.
Definition HM_TODAY_PROD_L : nat := 14.
Definition HM_TOTAL_PROD_H : nat := 15.
Definition HM_TOTAL_PROD_L : nat := 16.
Definition HM_TEMPERATURE : nat := 17.
Definition HM_OPERATING_STATUS : nat := 30.
Definition HM_ALARM_CODE : nat := 31.
Definition HM_LINK_STATUS : nat := 32.
Definition HM_PORT_REGS : Z := 40.

Definition MODEL_1_SIZE : nat := 66.
Definition MODEL_103_SIZE : nat := 50.
Definition MODEL_120_SIZE : nat := 26.
Definition MODEL_123_SIZE : nat := 24.

Definition INV_A : nat := 0.
Definition INV_AphA : nat := 1.
Definition INV_AphB : nat := 2.
Definition INV_AphC : nat := 3.
Definition INV_A_SF : nat := 4.
Definition INV_PPVphAB : nat := 5.
Definition INV_PPVphBC : nat := 6.
Definition INV_PPVphCA : nat := 7.
Definition INV_PhVphA : nat := 8.
Definition INV_PhVphB : nat := 9.
Definition INV_PhVphC : nat := 10.
Definition INV_V_SF : nat := 11.
Definition INV_W : nat := 12.
Definition INV_W_SF : nat := 13.
Definition INV_Hz : nat := 14.
Definition INV_Hz_SF : nat := 15.
Definition INV_VA : nat := 16.
Definition INV_VA_SF : nat := 17.
Definition INV_VAr : nat := 18.
Definition INV_VAr_SF : nat := 19.
Definition INV_PF : nat := 20.
Definition INV_PF_SF : nat := 21.
Definition INV_WH : nat := 22.
Definition INV_WH_SF : nat := 24.
Definition INV_DCA_SF : nat := 26.
Definition INV_DCV_SF : nat := 28.
Definition INV_DCW : nat := 29.
Definition INV_DCW_SF : nat := 30.
Definition INV_TmpCab : nat := 31.
Definition INV_Tmp_SF : nat := 35.
Definition INV_St : nat := 36.
Definition INV_Evt1 : nat := 38.
Definition INV_Evt2 : nat := 40.
Definition INV_EvtVnd1 : nat := 42.
Definition INV_EvtVnd2 : nat := 44.
Definition INV_EvtVnd3 : nat := 46.
Definition INV_EvtVnd4 : nat := 48.

Definition MAX_RTU_SOURCES : nat := 8.

Definition OFF_SUNS : nat := 0.
Definition OFF_MODEL1 : nat := 2.
Definition OFF_INV : nat := 70.
Definition OFF_M120 : nat := 122.
Definition OFF_M123 : nat := 150.
Definition OFF_END : nat := 176.
Definition TOTAL_REGS : nat := 178.

(** ** C strings

    A [char] array holds the codes of its characters up to the first NUL. *)

Fixpoint cstr (s : string) : list Z :=
  match s with
  | EmptyString => []
  | String c s' =>
      if (nat_of_ascii c =? 0)%nat then [] else Z.of_nat (nat_of_ascii c) :: cstr s'
  end.

Fixpoint of_cstr (l : list Z) : string :=
  match l with
  | [] => EmptyString
  | c :: l' =>
      if c =? 0 then EmptyString
      else String (ascii_of_nat (Z.to_nat c)) (of_cstr l')
  end.

(** [s[0] == 0] *)
Definition str_empty (s : string) : bool :=
  match cstr s with [] => true | _ => false end.

(** [strncpy(dst, src, n)] into a zeroed buffer that is longer than [n]. *)
Definition strncpy (src : string) (n : nat) : string :=
  of_cstr (take n (cstr src)).

(** ** Data model *)

(** [struct RtuSource] *)
Record RtuSource := {
  port_number : Z;
  phases : Z;
  connected_phase : Z;
  rated_power_w : Z;
  mppt_inputs : Z;
  name : string;
  model : string;
  serial_number : string;
  serial_from_dtu : string;
  raw_regs : list Z;
  data_valid : bool;
  last_poll_ms : Z;
  initial_model1_read : bool;
  poll_success_count : Z;
  poll_fail_count : Z;
  poll_timeout_count : Z;
  crc_error_count : Z;
  power_w : F32.float;
  current_a : F32.float;
  voltage_v : F32.float;
  frequency_hz : F32.float;
  energy_kwh : F32.float;
  today_energy_wh : F32.float;
  temperature_c : F32.float;
  pv_voltage_v : F32.float;
  pv_current_a : F32.float;
  pv_power_w : F32.float;
  alarm_code : Z;
  alarm_count : Z;
  link_status : Z;
  operating_status : Z;
  producing : bool
}.

(** [struct AggregatedConfig] *)
Record AggregatedConfig := {
  unit_id : Z;
  agg_phases : Z;
  agg_rated_power_w : Z;
  rated_voltage_v : Z;
  rated_current_a : F32.float;
  manufacturer : string;
  model_name : string;
  agg_serial_number : string
}.

(** What the component does to the outside, in the order it does it. *)
Inductive event :=
| TcpSend (client_fd : Z) (frame : list Z)   (* send(client_fd, frame, len, 0) *)
| UartWrite (frame : list Z)                 (* write_array(frame, len) *)
| UartFlush                                  (* flush() *)
| Delay (ms : Z).                            (* delay(ms) *)

(** The members of [class SunSpecProxy] that the embedded functions use.
    [sources_] holds the [num_sources_] configured entries of the array;
    [uart_rx_] is the UART receive buffer ([available()], [read()]);
    [trace_] records the effects.  Sensor objects and the listening and
    client sockets are left out: publishing and accepting are not
    embedded. *)
Record SunSpecProxy := {
  tcp_port_ : Z;
  poll_interval_ms_ : Z;
  rtu_timeout_ms_ : Z;
  dtu_address_ : Z;
  agg_config_ : AggregatedConfig;
  sources_ : list RtuSource;
  tcp_request_count_ : Z;
  tcp_error_count_ : Z;
  last_tcp_activity_ms_ : Z;
  current_poll_source_ : nat;
  last_poll_time_ : Z;
  rtu_busy_ : bool;
  rtu_request_time_ : Z;
  register_map_ : list Z;
  agg_power_w_ : F32.float;
  agg_current_a_ : F32.float;
  agg_voltage_v_ : F32.float;
  agg_frequency_hz_ : F32.float;
  agg_energy_kwh_ : F32.float;
  uart_rx_ : list Z;
  trace_ : list event
}.

Definition num_sources_ (st : SunSpecProxy) : nat := length (sources_ st).

(** *** Member updates *)

Definition set_agg_config_ (v : AggregatedConfig) (st : SunSpecProxy) : SunSpecProxy :=
  {| tcp_port_ := tcp_port_ st; poll_interval_ms_ := poll_interval_ms_ st;
     rtu_timeout_ms_ := rtu_timeout_ms_ st; dtu_address_ := dtu_address_ st;
     agg_config_ := v; sources_ := sources_ st;
     tcp_request_count_ := tcp_request_count_ st; tcp_error_count_ := tcp_error_count_ st;
     last_tcp_activity_ms_ := last_tcp_activity_ms_ st;
     current_poll_source_ := current_poll_source_ st; last_poll_time_ := last_poll_time_ st;
     rtu_busy_ := rtu_busy_ st; rtu_request_time_ := rtu_request_time_ st;
     register_map_ := register_map_ st;
     agg_power_w_ := agg_power_w_ st; agg_current_a_ := agg_current_a_ st;
     agg_voltage_v_ := agg_voltage_v_ st; agg_frequency_hz_ := agg_frequency_hz_ st;
     agg_energy_kwh_ := agg_energy_kwh_ st;
     uart_rx_ := uart_rx_ st; trace_ := trace_ st |}.

Definition set_sources_ (v : list RtuSource) (st : SunSpecProxy) : SunSpecProxy :=
  {| tcp_port_ := tcp_port_ st; poll_interval_ms_ := poll_interval_ms_ st;
     rtu_timeout_ms_ := rtu_timeout_ms_ st; dtu_address_ := dtu_address_ st;
     agg_config_ := agg_config_ st; sources_ := v;
     tcp_request_count_ := tcp_request_count_ st; tcp_error_count_ := tcp_error_count_ st;
     last_tcp_activity_ms_ := last_tcp_activity_ms_ st;
     current_poll_source_ := current_poll_source_ st; last_poll_time_ := last_poll_time_ st;
     rtu_busy_ := rtu_busy_ st; rtu_request_time_ := rtu_request_time_ st;
     register_map_ := register_map_ st;
     agg_power_w_ := agg_power_w_ st; agg_current_a_ := agg_current_a_ st;
     agg_voltage_v_ := agg_voltage_v_ st; agg_frequency_hz_ := agg_frequency_hz_ st;
     agg_energy_kwh_ := agg_energy_kwh_ st;
     uart_rx_ := uart_rx_ st; trace_ := trace_ st |}.

(** [last_tcp_activity_ms_ = millis(); tcp_request_count_++;] *)
Definition set_tcp_activity_ (now count : Z) (st : SunSpecProxy) : SunSpecProxy :=
  {| tcp_port_ := tcp_port_ st; poll_interval_ms_ := poll_interval_ms_ st;
     rtu_timeout_ms_ := rtu_timeout_ms_ st; dtu_address_ := dtu_address_ st;
     agg_config_ := agg_config_ st; sources_ := sources_ st;
     tcp_request_count_ := count; tcp_error_count_ := tcp_error_count_ st;
     last_tcp_activity_ms_ := now;
     current_poll_source_ := current_poll_source_ st; last_poll_time_ := last_poll_time_ st;
     rtu_busy_ := rtu_busy_ st; rtu_request_time_ := rtu_request_time_ st;
     register_map_ := register_map_ st;
     agg_power_w_ := agg_power_w_ st; agg_current_a_ := agg_current_a_ st;
     agg_voltage_v_ := agg_voltage_v_ st; agg_frequency_hz_ := agg_frequency_hz_ st;
     agg_energy_kwh_ := agg_energy_kwh_ st;
     uart_rx_ := uart_rx_ st; trace_ := trace_ st |}.

Definition set_tcp_error_count_ (v : Z) (st : SunSpecProxy) : SunSpecProxy :=
  {| tcp_port_ := tcp_port_ st; poll_interval_ms_ := poll_interval_ms_ st;
     rtu_timeout_ms_ := rtu_timeout_ms_ st; dtu_address_ := dtu_address_ st;
     agg_config_ := agg_config_ st; sources_ := sources_ st;
     tcp_request_count_ := tcp_request_count_ st; tcp_error_count_ := v;
     last_tcp_activity_ms_ := last_tcp_activity_ms_ st;
     current_poll_source_ := current_poll_source_ st; last_poll_time_ := last_poll_time_ st;
     rtu_busy_ := rtu_busy_ st; rtu_request_time_ := rtu_request_time_ st;
     register_map_ := register_map_ st;
     agg_power_w_ := agg_power_w_ st; agg_current_a_ := agg_current_a_ st;
     agg_voltage_v_ := agg_voltage_v_ st; agg_frequency_hz_ := agg_frequency_hz_ st;
     agg_energy_kwh_ := agg_energy_kwh_ st;
     uart_rx_ := uart_rx_ st; trace_ := trace_ st |}.

(** The four members of the RTU polling state. *)
Definition set_poll_state_ (cur : nat) (last : Z) (busy : bool) (req : Z)
    (st : SunSpecProxy) : SunSpecProxy :=
  {| tcp_port_ := tcp_port_ st; poll_interval_ms_ := poll_interval_ms_ st;
     rtu_timeout_ms_ := rtu_timeout_ms_ st; dtu_address_ := dtu_address_ st;
     agg_config_ := agg_config_ st; sources_ := sources_ st;
     tcp_request_count_ := tcp_request_count_ st; tcp_error_count_ := tcp_error_count_ st;
     last_tcp_activity_ms_ := last_tcp_activity_ms_ st;
     current_poll_source_ := cur; last_poll_time_ := last;
     rtu_busy_ := busy; rtu_request_time_ := req;
     register_map_ := register_map_ st;
     agg_power_w_ := agg_power_w_ st; agg_current_a_ := agg_current_a_ st;
     agg_voltage_v_ := agg_voltage_v_ st; agg_frequency_hz_ := agg_frequency_hz_ st;
     agg_energy_kwh_ := agg_energy_kwh_ st;
     uart_rx_ := uart_rx_ st; trace_ := trace_ st |}.

Definition set_rtu_busy_ (v : bool) (st : SunSpecProxy) : SunSpecProxy :=
  set_poll_state_ (current_poll_source_ st) (last_poll_time_ st) v (rtu_request_time_ st) st.

Definition set_register_map_ (v : list Z) (st : SunSpecProxy) : SunSpecProxy :=
  {| tcp_port_ := tcp_port_ st; poll_interval_ms_ := poll_interval_ms_ st;
     rtu_timeout_ms_ := rtu_timeout_ms_ st; dtu_address_ := dtu_address_ st;
     agg_config_ := agg_config_ st; sources_ := sources_ st;
     tcp_request_count_ := tcp_request_count_ st; tcp_error_count_ := tcp_error_count_ st;
     last_tcp_activity_ms_ := last_tcp_activity_ms_ st;
     current_poll_source_ := current_poll_source_ st; last_poll_time_ := last_poll_time_ st;
     rtu_busy_ := rtu_busy_ st; rtu_request_time_ := rtu_request_time_ st;
     register_map_ := v;
     agg_power_w_ := agg_power_w_ st; agg_current_a_ := agg_current_a_ st;
     agg_voltage_v_ := agg_voltage_v_ st; agg_frequency_hz_ := agg_frequency_hz_ st;
     agg_energy_kwh_ := agg_energy_kwh_ st;
     uart_rx_ := uart_rx_ st; trace_ := trace_ st |}.

(** The aggregate decoded values. *)
Definition set_agg_values_ (p c v f e : F32.float) (st : SunSpecProxy) : SunSpecProxy :=
  {| tcp_port_ := tcp_port_ st; poll_interval_ms_ := poll_interval_ms_ st;
     rtu_timeout_ms_ := rtu_timeout_ms_ st; dtu_address_ := dtu_address_ st;
     agg_config_ := agg_config_ st; sources_ := sources_ st;
     tcp_request_count_ := tcp_request_count_ st; tcp_error_count_ := tcp_error_count_ st;
     last_tcp_activity_ms_ := last_tcp_activity_ms_ st;
     current_poll_source_ := current_poll_source_ st; last_poll_time_ := last_poll_time_ st;
     rtu_busy_ := rtu_busy_ st; rtu_request_time_ := rtu_request_time_ st;
     register_map_ := register_map_ st;
     agg_power_w_ := p; agg_current_a_ := c;
     agg_voltage_v_ := v; agg_frequency_hz_ := f;
     agg_energy_kwh_ := e;
     uart_rx_ := uart_rx_ st; trace_ := trace_ st |}.

Definition set_uart_rx_ (v : list Z) (st : SunSpecProxy) : SunSpecProxy :=
  {| tcp_port_ := tcp_port_ st; poll_interval_ms_ := poll_interval_ms_ st;
     rtu_timeout_ms_ := rtu_timeout_ms_ st; dtu_address_ := dtu_address_ st;
     agg_config_ := agg_config_ st; sources_ := sources_ st;
     tcp_request_count_ := tcp_request_count_ st; tcp_error_count_ := tcp_error_count_ st;
     last_tcp_activity_ms_ := last_tcp_activity_ms_ st;
     current_poll_source_ := current_poll_source_ st; last_poll_time_ := last_poll_time_ st;
     rtu_busy_ := rtu_busy_ st; rtu_request_time_ := rtu_request_time_ st;
     register_map_ := register_map_ st;
     agg_power_w_ := agg_power_w_ st; agg_current_a_ := agg_current_a_ st;
     agg_voltage_v_ := agg_voltage_v_ st; agg_frequency_hz_ := agg_frequency_hz_ st;
     agg_energy_kwh_ := agg_energy_kwh_ st;
     uart_rx_ := v; trace_ := trace_ st |}.

(** Appends effects to the trace. *)
Definition emit (evs : list event) (st : SunSpecProxy) : SunSpecProxy :=
  {| tcp_port_ := tcp_port_ st; poll_interval_ms_ := poll_interval_ms_ st;
     rtu_timeout_ms_ := rtu_timeout_ms_ st; dtu_address_ := dtu_address_ st;
     agg_config_ := agg_config_ st; sources_ := sources_ st;
     tcp_request_count_ := tcp_request_count_ st; tcp_error_count_ := tcp_error_count_ st;
     last_tcp_activity_ms_ := last_tcp_activity_ms_ st;
     current_poll_source_ := current_poll_source_ st; last_poll_time_ := last_poll_time_ st;
     rtu_busy_ := rtu_busy_ st; rtu_request_time_ := rtu_request_time_ st;
     register_map_ := register_map_ st;
     agg_power_w_ := agg_power_w_ st; agg_current_a_ := agg_current_a_ st;
     agg_voltage_v_ := agg_voltage_v_ st; agg_frequency_hz_ := agg_frequency_hz_ st;
     agg_energy_kwh_ := agg_energy_kwh_ st;
     uart_rx_ := uart_rx_ st; trace_ := trace_ st ++ evs |}.

(** ** Register arrays *)

(** [regs[i]] of a [uint16_t] array. *)
Definition reg (regs : list Z) (i : nat) : Z := nth i regs 0.

(** [for (int i = 0; i < n; i++) p[i] = v;] with [p = &regs[base]]. *)
Definition fill (base n : nat) (v : Z) (regs : list Z) : list Z :=
  fold_left (fun r i => <[(base + i)%nat := v]> r) (seq 0 n) regs.

(** One iteration of the loop of [write_string_regs]. *)
Definition write_string_char (base : nat) (str : list Z) (regs : list Z) (i : nat)
    : list Z :=
  let c := u8 (nth i str 0) in
  if (i mod 2 =? 0)%nat
  then <[(base + i / 2)%nat := u16 (Z.shiftl c 8)]> regs
  else <[(base + i / 2)%nat := Z.lor (reg regs (base + i / 2)) c]> regs.

(** [write_string_regs(&regs[base], str, max_regs)] *)
Definition write_string_regs (base : nat) (str : string) (max_regs : nat)
    (regs : list Z) : list Z :=
  let regs := fill base max_regs 0 regs in
  let s := cstr str in
  let len := length s in
  let len := if (max_regs * 2 <? len)%nat then (max_regs * 2)%nat else len in
  fold_left (write_string_char base s) (seq 0 len) regs.

(** ** Configuration and setup *)

(** [add_rtu_source]: the entry is zeroed, then the configuration is
    stored.  The source is dropped when the array is full. *)
Definition new_source (port_number phases rated_power_w connected_phase mppt_inputs : Z)
    (name model serial : string) : RtuSource :=
  {| port_number := port_number;
     phases := phases;
     connected_phase := if phases =? 1 then connected_phase else 0;
     rated_power_w := rated_power_w;
     mppt_inputs := mppt_inputs;
     name := strncpy name 31;
     model := strncpy model 23;
     serial_number := strncpy serial 32;
     serial_from_dtu := EmptyString;
     raw_regs := replicate MODEL_103_SIZE 0;
     data_valid := false;
     last_poll_ms := 0;
     initial_model1_read := false;
     poll_success_count := 0;
     poll_fail_count := 0;
     poll_timeout_count := 0;
     crc_error_count := 0;
     power_w := F32.zero;
     current_a := F32.zero;
     voltage_v := F32.zero;
     frequency_hz := F32.zero;
     energy_kwh := F32.zero;
     today_energy_wh := F32.zero;
     temperature_c := F32.zero;
     pv_voltage_v := F32.zero;
     pv_current_a := F32.zero;
     pv_power_w := F32.zero;
     alarm_code := 0;
     alarm_count := 0;
     link_status := 0;
     operating_status := 0;
     producing := false |}.

Definition add_rtu_source (port_number phases rated_power_w connected_phase mppt_inputs : Z)
    (name model serial : string) (st : SunSpecProxy) : SunSpecProxy :=
  if (MAX_RTU_SOURCES <=? num_sources_ st)%nat then st
  else set_sources_
         (sources_ st ++
          [new_source port_number phases rated_power_w connected_phase mppt_inputs
                      name model serial]) st.

(** The loop of [setup()] that sums the ratings of the sources. *)
Definition setup_ratings (cfg : AggregatedConfig) (srcs : list RtuSource)
    : AggregatedConfig :=
  fold_left
    (fun c s =>
       {| unit_id := unit_id c;
          agg_phases := agg_phases c;
          agg_rated_power_w := u16 (agg_rated_power_w c + rated_power_w s);
          rated_voltage_v := rated_voltage_v c;
          rated_current_a :=
            if 0 <? rated_voltage_v c
            then F32.add (rated_current_a c)
                   (F32.div (F32.of_Z (rated_power_w s)) (F32.of_Z (rated_voltage_v c)))
            else rated_current_a c;
          manufacturer := manufacturer c;
          model_name := model_name c;
          agg_serial_number := agg_serial_number c |})
    srcs
    {| unit_id := unit_id cfg;
       agg_phases := agg_phases cfg;
       agg_rated_power_w := 0;
       rated_voltage_v := rated_voltage_v cfg;
       rated_current_a := F32.zero;
       manufacturer := manufacturer cfg;
       model_name := model_name cfg;
       agg_serial_number := agg_serial_number cfg |}.

(** ** Static register map construction *)

Definition build_static_registers_ (st : SunSpecProxy) : SunSpecProxy :=
  let cfg := agg_config_ st in
  let r := fill 0 TOTAL_REGS 65535 (register_map_ st) in
  (* SunS header *)
  let r := <[OFF_SUNS := 21365]> r in                       (* 0x5375 *)
  let r := <[(OFF_SUNS + 1)%nat := 28243]> r in             (* 0x6e53 *)
  (* Model 1: common block *)
  let r := <[OFF_MODEL1 := 1]> r in
  let r := <[(OFF_MODEL1 + 1)%nat := Z.of_nat MODEL_1_SIZE]> r in
  let m1 := (OFF_MODEL1 + 2)%nat in
  let r := fill m1 MODEL_1_SIZE 0 r in
  let r := write_string_regs (m1 + 0) (manufacturer cfg) 16 r in
  let r := write_string_regs (m1 + 16) (model_name cfg) 16 r in
  let r := write_string_regs (m1 + 40) "1.1.0" 8 r in
  let r := write_string_regs (m1 + 48) (agg_serial_number cfg) 16 r in
  let r := <[(m1 + 64)%nat := unit_id cfg]> r in
  let r := <[(m1 + 65)%nat := 32768]> r in                  (* 0x8000 *)
  (* Model 101/103: inverter *)
  let model_id := if agg_phases cfg =? 3 then 103 else 101 in
  let r := <[OFF_INV := model_id]> r in
  let r := <[(OFF_INV + 1)%nat := Z.of_nat MODEL_103_SIZE]> r in
  let inv := (OFF_INV + 2)%nat in
  let r := fill inv MODEL_103_SIZE 65535 r in
  let r := <[(inv + INV_A_SF)%nat := u16 (-2)]> r in
  let r := <[(inv + INV_V_SF)%nat := u16 (-1)]> r in
  let r := <[(inv + INV_W_SF)%nat := u16 0]> r in
  let r := <[(inv + INV_Hz_SF)%nat := u16 (-2)]> r in
  let r := <[(inv + INV_VA_SF)%nat := u16 0]> r in
  let r := <[(inv + INV_VAr_SF)%nat := u16 0]> r in
  let r := <[(inv + INV_PF_SF)%nat := u16 (-2)]> r in
  let r := <[(inv + INV_WH_SF)%nat := u16 0]> r in
  let r := <[(inv + INV_DCA_SF)%nat := u16 (-2)]> r in
  let r := <[(inv + INV_DCV_SF)%nat := u16 (-1)]> r in
  let r := <[(inv + INV_DCW_SF)%nat := u16 0]> r in
  let r := <[(inv + INV_Tmp_SF)%nat := u16 (-1)]> r in
  let r := <[(inv + INV_St)%nat := 2]> r in
  let r := <[(inv + INV_Evt1)%nat := 0]> r in
  let r := <[(inv + INV_Evt1 + 1)%nat := 0]> r in
  let r := <[(inv + INV_Evt2)%nat := 0]> r in
  let r := <[(inv + INV_Evt2 + 1)%nat := 0]> r in
  let r := <[(inv + INV_EvtVnd1)%nat := 0]> r in
  let r := <[(inv + INV_EvtVnd1 + 1)%nat := 0]> r in
  let r := <[(inv + INV_EvtVnd2)%nat := 0]> r in
  let r := <[(inv + INV_EvtVnd2 + 1)%nat := 0]> r in
  let r := <[(inv + INV_EvtVnd3)%nat := 0]> r in
  let r := <[(inv + INV_EvtVnd3 + 1)%nat := 0]> r in
  let r := <[(inv + INV_EvtVnd4)%nat := 0]> r in
  let r := <[(inv + INV_EvtVnd4 + 1)%nat := 0]> r in
  (* Model 120: nameplate ratings *)
  let r := <[OFF_M120 := 120]> r in
  let r := <[(OFF_M120 + 1)%nat := Z.of_nat MODEL_120_SIZE]> r in
  let m120 := (OFF_M120 + 2)%nat in
  let r := fill m120 MODEL_120_SIZE 65535 r in
  let r := <[(m120 + 0)%nat := 4]> r in
  let r := <[(m120 + 1)%nat := agg_rated_power_w cfg]> r in
  let r := <[(m120 + 2)%nat := 0]> r in
  let r := <[(m120 + 3)%nat := agg_rated_power_w cfg]> r in
  let r := <[(m120 + 4)%nat := 0]> r in
  let r := <[(m120 + 10)%nat := F32.to_u16 (F32.mul (rated_current_a cfg) F32.ten)]> r in
  let r := <[(m120 + 11)%nat := u16 (-1)]> r in
  (* Model 123: immediate controls *)
  let r := <[OFF_M123 := 123]> r in
  let r := <[(OFF_M123 + 1)%nat := Z.of_nat MODEL_123_SIZE]> r in
  let m123 := (OFF_M123 + 2)%nat in
  let r := fill m123 MODEL_123_SIZE 65535 r in
  let r := <[(m123 + 2)%nat := 1]> r in
  let r := <[(m123 + 3)%nat := u16 (-1)]> r in
  let r := <[(m123 + 5)%nat := 1000]> r in
  let r := <[(m123 + 8)%nat := 0]> r in
  (* End marker *)
  let r := <[OFF_END := 65535]> r in
  let r := <[(OFF_END + 1)%nat := 0]> r in
  set_register_map_ r st.

(** [setup()], without the socket: the ratings are summed and the static
    registers are built. *)
Definition setup (st : SunSpecProxy) : SunSpecProxy :=
  build_static_registers_
    (set_agg_config_ (setup_ratings (agg_config_ st) (sources_ st)) st).

(** ** Aggregation *)

(** [apply_sf]: [raw] and [sf] are [int16_t] values. *)
Definition apply_sf (raw sf : Z) : F32.float :=
  if raw =? -32768 then F32.nan
  else F32.mul (F32.of_Z raw) (F32.powf10 sf).

(** [apply_sf_u16]: [raw] is a [uint16_t] value. *)
Definition apply_sf_u16 (raw sf : Z) : F32.float :=
  if raw =? 65535 then F32.nan
  else F32.mul (F32.of_Z raw) (F32.powf10 sf).

(** The local accumulators of [aggregate_and_update_registers_]. *)
Record AggAcc := {
  phase_power : list F32.float;
  phase_current : list F32.float;
  phase_voltage_sum : list F32.float;
  phase_voltage_count : list Z;
  total_power : F32.float;
  total_current : F32.float;
  sum_freq : F32.float;
  total_va : F32.float;
  total_var : F32.float;
  total_energy_wh : Z;
  max_temp : F32.float;
  total_dc_power : F32.float;
  valid_count : Z;
  any_producing : bool
}.

Definition acc_init : AggAcc :=
  {| phase_power := [F32.zero; F32.zero; F32.zero];
     phase_current := [F32.zero; F32.zero; F32.zero];
     phase_voltage_sum := [F32.zero; F32.zero; F32.zero];
     phase_voltage_count := [0; 0; 0];
     total_power := F32.zero;
     total_current := F32.zero;
     sum_freq := F32.zero;
     total_va := F32.zero;
     total_var := F32.zero;
     total_energy_wh := 0;
     max_temp := F32.nan;
     total_dc_power := F32.zero;
     valid_count := 0;
     any_producing := false |}.

(** [if (!isnan(x)) acc += x;] *)
Definition add_unless_nan (acc x : F32.float) : F32.float :=
  if F32.isnan x then acc else F32.add acc x.

(** [if (!isnan(x)) arr[i] += x;] *)
Definition arr_add_unless_nan (arr : list F32.float) (i : nat) (x : F32.float)
    : list F32.float :=
  if F32.isnan x then arr else <[i := F32.add (nth i arr F32.zero) x]> arr.

(** [if (!isnan(x)) cnt[i]++;] *)
Definition arr_count_unless_nan (cnt : list Z) (i : nat) (x : F32.float) : list Z :=
  if F32.isnan x then cnt else <[i := nth i cnt 0 + 1]> cnt.

(** [isnan(x) ? 0 : x] *)
Definition zero_if_nan (x : F32.float) : F32.float :=
  if F32.isnan x then F32.zero else x.

(** The body of the loop over the sources.  The call of
    [update_source_status_] only publishes to a sensor and is left out. *)
Definition aggregate_source (a : AggAcc) (s : RtuSource) : AggAcc * RtuSource :=
  if negb (data_valid s) then (a, s) else
  let r := raw_regs s in
  let a_sf := s16 (reg r INV_A_SF) in
  let v_sf := s16 (reg r INV_V_SF) in
  let w_sf := s16 (reg r INV_W_SF) in
  let hz_sf := s16 (reg r INV_Hz_SF) in
  let va_sf := s16 (reg r INV_VA_SF) in
  let var_sf := s16 (reg r INV_VAr_SF) in
  let wh_sf := s16 (reg r INV_WH_SF) in
  let dc_w_sf := s16 (reg r INV_DCW_SF) in
  let tmp_sf := s16 (reg r INV_Tmp_SF) in
  (* total power of this source *)
  let pw := apply_sf (s16 (reg r INV_W)) w_sf in
  let s_power_w := zero_if_nan pw in
  (* total current of this source *)
  let cur := apply_sf_u16 (reg r INV_A) a_sf in
  let s_current_a := zero_if_nan cur in
  (* phase-aware distribution *)
  let '(pp, pc, pvs, pvc, s_voltage_v) :=
    if phases s =? 3 then
      let i_a := apply_sf_u16 (reg r INV_AphA) a_sf in
      let i_b := apply_sf_u16 (reg r INV_AphB) a_sf in
      let i_c := apply_sf_u16 (reg r INV_AphC) a_sf in
      let pc := arr_add_unless_nan (phase_current a) 0 i_a in
      let pc := arr_add_unless_nan pc 1 i_b in
      let pc := arr_add_unless_nan pc 2 i_c in
      let v_a := apply_sf_u16 (reg r INV_PhVphA) v_sf in
      let v_b := apply_sf_u16 (reg r INV_PhVphB) v_sf in
      let v_c := apply_sf_u16 (reg r INV_PhVphC) v_sf in
      let pvs := arr_add_unless_nan (phase_voltage_sum a) 0 v_a in
      let pvs := arr_add_unless_nan pvs 1 v_b in
      let pvs := arr_add_unless_nan pvs 2 v_c in
      let pvc := arr_count_unless_nan (phase_voltage_count a) 0 v_a in
      let pvc := arr_count_unless_nan pvc 1 v_b in
      let pvc := arr_count_unless_nan pvc 2 v_c in
      let total_i :=
        F32.add (F32.add (zero_if_nan i_a) (zero_if_nan i_b)) (zero_if_nan i_c) in
      let pp :=
        if F32.gtb total_i F32.zero && negb (F32.isnan pw) then
          let pp := <[0%nat := F32.add (nth 0 (phase_power a) F32.zero)
                           (F32.div (F32.mul pw (zero_if_nan i_a)) total_i)]> (phase_power a) in
          let pp := <[1%nat := F32.add (nth 1 pp F32.zero)
                           (F32.div (F32.mul pw (zero_if_nan i_b)) total_i)]> pp in
          <[2%nat := F32.add (nth 2 pp F32.zero)
                           (F32.div (F32.mul pw (zero_if_nan i_c)) total_i)]> pp
        else if negb (F32.isnan pw) then
          let pp := <[0%nat := F32.add (nth 0 (phase_power a) F32.zero)
                           (F32.div pw F32.three)]> (phase_power a) in
          let pp := <[1%nat := F32.add (nth 1 pp F32.zero) (F32.div pw F32.three)]> pp in
          <[2%nat := F32.add (nth 2 pp F32.zero) (F32.div pw F32.three)]> pp
        else phase_power a in
      (pp, pc, pvs, pvc, zero_if_nan v_a)
    else
      let ph := connected_phase s - 1 in
      let ph := if (ph <? 0) || (2 <? ph) then 0 else ph in
      let ph := Z.to_nat ph in
      let i_a := apply_sf_u16 (reg r INV_AphA) a_sf in
      let i_a := if F32.isnan i_a then cur else i_a in
      let pc := arr_add_unless_nan (phase_current a) ph i_a in
      let v_a := apply_sf_u16 (reg r INV_PhVphA) v_sf in
      let pvs := arr_add_unless_nan (phase_voltage_sum a) ph v_a in
      let pvc := arr_count_unless_nan (phase_voltage_count a) ph v_a in
      let pp := arr_add_unless_nan (phase_power a) ph pw in
      (pp, pc, pvs, pvc, zero_if_nan v_a) in
  (* VA / VAr *)
  let va := apply_sf (s16 (reg r INV_VA)) va_sf in
  let var_ := apply_sf (s16 (reg r INV_VAr)) var_sf in
  (* frequency *)
  let freq := apply_sf (s16 (reg r INV_Hz)) hz_sf in
  (* energy: acc32 *)
  let e_raw := u32 (Z.lor (Z.shiftl (reg r INV_WH) 16) (reg r (INV_WH + 1))) in
  let e_mult := F32.powf10 wh_sf in
  let e_wh := F32.to_u32 (F32.mul (F32.of_Z e_raw) e_mult) in
  (* temperature *)
  let temp := apply_sf (s16 (reg r INV_TmpCab)) tmp_sf in
  (* DC power *)
  let dcp := apply_sf (s16 (reg r INV_DCW)) dc_w_sf in
  ({| phase_power := pp;
      phase_current := pc;
      phase_voltage_sum := pvs;
      phase_voltage_count := pvc;
      total_power := add_unless_nan (total_power a) pw;
      total_current := add_unless_nan (total_current a) cur;
      sum_freq := add_unless_nan (sum_freq a) freq;
      total_va := add_unless_nan (total_va a) va;
      total_var := add_unless_nan (total_var a) var_;
      total_energy_wh := u32 (total_energy_wh a + e_wh);
      max_temp :=
        if F32.isnan temp then max_temp a
        else if F32.isnan (max_temp a) || F32.gtb temp (max_temp a) then temp
        else max_temp a;
      total_dc_power := add_unless_nan (total_dc_power a) dcp;
      valid_count := valid_count a + 1;
      any_producing :=
        if negb (F32.isnan pw) && F32.gtb pw F32.zero then true else any_producing a |},
   {| port_number := port_number s;
      phases := phases s;
      connected_phase := connected_phase s;
      rated_power_w := rated_power_w s;
      mppt_inputs := mppt_inputs s;
      name := name s;
      model := model s;
      serial_number := serial_number s;
      serial_from_dtu := serial_from_dtu s;
      raw_regs := raw_regs s;
      data_valid := data_valid s;
      last_poll_ms := last_poll_ms s;
      initial_model1_read := initial_model1_read s;
      poll_success_count := poll_success_count s;
      poll_fail_count := poll_fail_count s;
      poll_timeout_count := poll_timeout_count s;
      crc_error_count := crc_error_count s;
      power_w := s_power_w;
      current_a := s_current_a;
      voltage_v := s_voltage_v;
      frequency_hz := zero_if_nan freq;
      energy_kwh := F32.div (F32.of_Z e_wh) F32.thousand;
      today_energy_wh := today_energy_wh s;
      temperature_c := if F32.isnan temp then temperature_c s else temp;
      pv_voltage_v := pv_voltage_v s;
      pv_current_a := pv_current_a s;
      pv_power_w := pv_power_w s;
      alarm_code := alarm_code s;
      alarm_count := alarm_count s;
      link_status := link_status s;
      operating_status := operating_status s;
      producing := F32.gtb s_power_w F32.zero |}).

(** [for (int i = 0; i < num_sources_; i++) { ... }] *)
Fixpoint aggregate_sources (a : AggAcc) (srcs : list RtuSource)
    : AggAcc * list RtuSource :=
  match srcs with
  | [] => (a, [])
  | s :: rest =>
      let '(a1, s1) := aggregate_source a s in
      let '(a2, rest1) := aggregate_sources a1 rest in
      (a2, s1 :: rest1)
  end.

(** [avg_v[p]] *)
Definition avg_voltage (a : AggAcc) (p : nat) : F32.float :=
  if 0 <? nth p (phase_voltage_count a) 0
  then F32.div (nth p (phase_voltage_sum a) F32.zero)
               (F32.of_Z (nth p (phase_voltage_count a) 0))
  else F32.zero.

(** [sqrtf(x*x + y*y + x*y)] *)
Definition line_to_line (x y : F32.float) : F32.float :=
  F32.sqrtf (F32.add (F32.add (F32.mul x x) (F32.mul y y)) (F32.mul x y)).

(** [(uint16_t)(int16_t)(int)x] *)
Definition int16_reg (x : F32.float) : Z := u16 (s16 (F32.to_int x)).

(** The power factor written to [INV_PF]. *)
Definition power_factor_reg (a : AggAcc) : Z :=
  let pf := F32.div (total_power a) (total_va a) in
  let pf := if F32.gtb pf F32.one then F32.one else pf in
  int16_reg (F32.mul pf F32.hundred).

(** The register writes at the end of [aggregate_and_update_registers_]. *)
Definition write_aggregate (agg_phases : Z) (a : AggAcc) (r : list Z) : list Z :=
  let inv := (OFF_INV + 2)%nat in
  let avg_v := avg_voltage a in
  let r := <[(inv + INV_W)%nat := int16_reg (total_power a)]> r in
  let r := <[(inv + INV_A)%nat := F32.to_u16 (F32.mul (total_current a) F32.hundred)]> r in
  let r := <[(inv + INV_AphA)%nat :=
               F32.to_u16 (F32.mul (nth 0 (phase_current a) F32.zero) F32.hundred)]> r in
  let r := <[(inv + INV_AphB)%nat :=
               F32.to_u16 (F32.mul (nth 1 (phase_current a) F32.zero) F32.hundred)]> r in
  let r := <[(inv + INV_AphC)%nat :=
               F32.to_u16 (F32.mul (nth 2 (phase_current a) F32.zero) F32.hundred)]> r in
  let r := <[(inv + INV_PhVphA)%nat := F32.to_u16 (F32.mul (avg_v 0%nat) F32.ten)]> r in
  let r := <[(inv + INV_PhVphB)%nat := F32.to_u16 (F32.mul (avg_v 1%nat) F32.ten)]> r in
  let r := <[(inv + INV_PhVphC)%nat := F32.to_u16 (F32.mul (avg_v 2%nat) F32.ten)]> r in
  let r :=
    if agg_phases =? 3 then
      let vab := line_to_line (avg_v 0%nat) (avg_v 1%nat) in
      let vbc := line_to_line (avg_v 1%nat) (avg_v 2%nat) in
      let vca := line_to_line (avg_v 2%nat) (avg_v 0%nat) in
      let r := <[(inv + INV_PPVphAB)%nat := F32.to_u16 (F32.mul vab F32.ten)]> r in
      let r := <[(inv + INV_PPVphBC)%nat := F32.to_u16 (F32.mul vbc F32.ten)]> r in
      <[(inv + INV_PPVphCA)%nat := F32.to_u16 (F32.mul vca F32.ten)]> r
    else r in
  let r := <[(inv + INV_Hz)%nat :=
               F32.to_u16 (F32.mul (F32.div (sum_freq a) (F32.of_Z (valid_count a)))
                                   F32.hundred)]> r in
  let r := <[(inv + INV_VA)%nat := int16_reg (total_va a)]> r in
  let r := <[(inv + INV_VAr)%nat := int16_reg (total_var a)]> r in
  let r :=
    if F32.gtb (total_va a) F32.zero
    then <[(inv + INV_PF)%nat := power_factor_reg a]> r
    else r in
  let r := <[(inv + INV_WH)%nat := u16 (Z.shiftr (total_energy_wh a) 16)]> r in
  let r := <[(inv + INV_WH + 1)%nat := u16 (Z.land (total_energy_wh a) 65535)]> r in
  let r :=
    if negb (F32.isnan (max_temp a))
    then <[(inv + INV_TmpCab)%nat := int16_reg (F32.mul (max_temp a) F32.ten)]> r
    else r in
  let r :=
    if F32.gtb (total_dc_power a) F32.zero
    then <[(inv + INV_DCW)%nat := int16_reg (total_dc_power a)]> r
    else r in
  <[(inv + INV_St)%nat := if any_producing a then 4 else 2]> r.

Definition aggregate_and_update_registers_ (st : SunSpecProxy) : SunSpecProxy :=
  let '(a, srcs) := aggregate_sources acc_init (sources_ st) in
  let st := set_sources_ srcs st in
  if valid_count a =? 0 then
    let st := set_register_map_
                (<[(OFF_INV + 2 + INV_St)%nat := 2]> (register_map_ st)) st in
    set_agg_values_ F32.zero F32.zero F32.zero F32.zero (agg_energy_kwh_ st) st
  else
    let st := set_agg_values_
                (total_power a) (total_current a) (avg_voltage a 0)
                (F32.div (sum_freq a) (F32.of_Z (valid_count a)))
                (F32.div (F32.of_Z (total_energy_wh a)) F32.thousand) st in
    set_register_map_
      (write_aggregate (agg_phases (agg_config_ st)) a (register_map_ st)) st.

(** ** Modbus TCP responses *)

(** [send_tcp_response_]; [data_len] is the length of [data]. *)
Definition send_tcp_response_ (client_fd txn_id unit fc : Z) (data : list Z)
    (st : SunSpecProxy) : SunSpecProxy :=
  let data_len := Z.of_nat (length data) in
  let frame :=
    put_be16 txn_id ++ put_be16 0 ++ put_be16 (u16 (1 + 1 + data_len))
      ++ [unit; fc] ++ data in
  emit [TcpSend client_fd frame] st.

Definition send_tcp_error_ (client_fd txn_id unit fc err : Z)
    (st : SunSpecProxy) : SunSpecProxy :=
  send_tcp_response_ client_fd txn_id unit (u8 (Z.lor fc 128)) [err] st.

(** [tcp_error_count_++] *)
Definition count_tcp_error (st : SunSpecProxy) : SunSpecProxy :=
  set_tcp_error_count_ (u32 (tcp_error_count_ st + 1)) st.

(** ** SunSpec register access *)

(** [read_sunspec_registers_]: [None] is the result [false], [Some out]
    the result [true] with the words copied to [out]. *)
Definition read_sunspec_registers_ (start_reg count : Z) (st : SunSpecProxy)
    : option (list Z) :=
  if start_reg <? SUNSPEC_BASE then None else
  let off := u16 (start_reg - SUNSPEC_BASE) in
  if Z.of_nat TOTAL_REGS <? off + count then None else
  Some (take (Z.to_nat count) (drop (Z.to_nat off) (register_map_ st))).

(** ** Power limit forwarding *)

(** An 8-byte RTU frame as the source assembles it: address, function,
    two big-endian words, CRC low byte first. *)
Definition rtu_frame (address function word1 word2 : Z) : list Z :=
  let f := [address; function] ++ put_be16 word1 ++ put_be16 word2 in
  let crc := calc_crc16_ f 6 in
  f ++ [u8 (Z.land crc 255); u8 (Z.shiftr crc 8)].

(** The body of the loop of [forward_power_limit_] for one source. *)
Definition forward_power_limit_source (dtu_address pct_raw : Z) (enabled : bool)
    (s : RtuSource) : list event :=
  let port := port_number s in
  let onoff_reg := u16 (49158 + port * 6) in      (* 0xC006 *)
  let limit_reg := u16 (49159 + port * 6) in      (* 0xC007 *)
  if enabled then
    let hm_pct := pct_raw / 10 in
    let hm_pct := if hm_pct <? 2 then 2 else hm_pct in
    let hm_pct := if 100 <? hm_pct then 100 else hm_pct in
    [UartWrite (rtu_frame dtu_address 6 limit_reg hm_pct); UartFlush; Delay 100;
     UartWrite (rtu_frame dtu_address 5 onoff_reg 65280); UartFlush; Delay 100]
  else
    [UartWrite (rtu_frame dtu_address 6 limit_reg 100); UartFlush; Delay 100].

Definition forward_power_limit_ (pct_raw : Z) (enabled : bool) (st : SunSpecProxy)
    : SunSpecProxy :=
  fold_left
    (fun st s => emit (forward_power_limit_source (dtu_address_ st) pct_raw enabled s) st)
    (sources_ st) st.

(** ** Register writes *)

(** The loop of [write_sunspec_registers_] that looks for the two control
    words in the written range. *)
Definition write_touches_control (off count : nat) : bool :=
  let lim_off := (OFF_M123 + 2 + 5)%nat in
  let ena_off := (OFF_M123 + 2 + 8)%nat in
  existsb (fun r => (r =? lim_off)%nat || (r =? ena_off)%nat) (seq off count).

(** [write_sunspec_registers_]: the result and the state after the call. *)
Definition write_sunspec_registers_ (start_reg count : Z) (values : list Z)
    (st : SunSpecProxy) : bool * SunSpecProxy :=
  if start_reg <? SUNSPEC_BASE then (false, st) else
  let off := u16 (start_reg - SUNSPEC_BASE) in
  if (off <? Z.of_nat (OFF_M123 + 2)) || (Z.of_nat OFF_END <? off + count)
  then (false, st) else
  let off := Z.to_nat off in
  let count := Z.to_nat count in
  let regs :=
    fold_left (fun r i => <[(off + i)%nat := nth i values 0]> r)
              (seq 0 count) (register_map_ st) in
  let st := set_register_map_ regs st in
  let lim_off := (OFF_M123 + 2 + 5)%nat in
  let ena_off := (OFF_M123 + 2 + 8)%nat in
  if write_touches_control off count then
    let pct := reg (register_map_ st) lim_off in
    let ena := reg (register_map_ st) ena_off in
    (true, forward_power_limit_ pct (ena =? 1) st)
  else (true, st).

(** ** Modbus TCP request handling *)

(** [process_tcp_request_(client_fd, buf, len)]: [buf] holds the [len]
    received bytes and [now] is the value of [millis()]. *)
Definition process_tcp_request_ (now client_fd : Z) (buf : list Z)
    (st : SunSpecProxy) : SunSpecProxy :=
  let len := Z.of_nat (length buf) in
  if len <? 8 then st else
  let txn_id := be16 buf 0 in
  let proto := be16 buf 2 in
  let unit := nth 6 buf 0 in
  let fc := nth 7 buf 0 in
  if negb (proto =? 0) then st else
  let st := set_tcp_activity_ now (u32 (tcp_request_count_ st + 1)) st in
  if negb (unit =? unit_id (agg_config_ st)) then st else
  if fc =? 3 then
    (* Read Holding Registers *)
    if len <? 12 then st else
    let start := be16 buf 8 in
    let count := be16 buf 10 in
    if 125 <? count then
      count_tcp_error (send_tcp_error_ client_fd txn_id unit fc 3 st)
    else
      match read_sunspec_registers_ start count st with
      | None => count_tcp_error (send_tcp_error_ client_fd txn_id unit fc 2 st)
      | Some values =>
          let resp := u8 (count * 2) :: flat_map put_be16 values in
          send_tcp_response_ client_fd txn_id unit fc resp st
      end
  else if fc =? 6 then
    (* Write Single Register *)
    if len <? 12 then st else
    let reg := be16 buf 8 in
    let val := be16 buf 10 in
    match write_sunspec_registers_ reg 1 [val] st with
    | (false, st) => count_tcp_error (send_tcp_error_ client_fd txn_id unit fc 2 st)
    | (true, st) =>
        send_tcp_response_ client_fd txn_id unit fc (put_be16 reg ++ put_be16 val) st
    end
  else if fc =? 16 then
    (* Write Multiple Registers *)
    if len <? 13 then st else
    let reg := be16 buf 8 in
    let cnt := be16 buf 10 in
    if (len <? 13 + cnt * 2) || (100 <? cnt) then
      count_tcp_error (send_tcp_error_ client_fd txn_id unit fc 3 st)
    else
      let vals := map (fun i => be16 buf (13 + i * 2)) (seq 0 (Z.to_nat cnt)) in
      match write_sunspec_registers_ reg cnt vals st with
      | (false, st) => count_tcp_error (send_tcp_error_ client_fd txn_id unit fc 2 st)
      | (true, st) =>
          send_tcp_response_ client_fd txn_id unit fc (put_be16 reg ++ put_be16 cnt) st
      end
  else
    count_tcp_error (send_tcp_error_ client_fd txn_id unit fc 1 st).

(** ** RTU polling *)

(** [send_rtu_request_]: drains the receive buffer, writes the frame and
    flushes; it always returns [true]. *)
Definition send_rtu_request_ (address function reg_start reg_count : Z)
    (st : SunSpecProxy) : SunSpecProxy :=
  let st := set_uart_rx_ [] st in
  emit [UartWrite (rtu_frame address function reg_start reg_count); UartFlush] st.

(** [read_rtu_response_(buf, max_len)]: the returned integer, the bytes
    read into [buf], and the state once they have left the receive
    buffer. *)
Definition read_rtu_response_ (max_len : nat) (st : SunSpecProxy)
    : Z * list Z * SunSpecProxy :=
  let buf := take max_len (uart_rx_ st) in
  let st := set_uart_rx_ (drop max_len (uart_rx_ st)) st in
  let n := length buf in
  if (n <? 5)%nat then (0, buf, st) else
  let expected := calc_crc16_ buf (n - 2) in
  let received := u16 (Z.lor (nth (n - 2) buf 0) (Z.shiftl (nth (n - 1) buf 0) 8)) in
  if negb (expected =? received) then (-1, buf, st)
  else (Z.of_nat n, buf, st).

(** The trailing NULs and spaces of [sn] are overwritten with NUL. *)
Fixpoint trim_front (l : list Z) : list Z :=
  match l with
  | [] => []
  | c :: l' => if (c =? 0) || (c =? 32) then 0 :: trim_front l' else l
  end.

Definition trim_trailing (sn : list Z) : list Z := rev (trim_front (rev sn)).

(** The 12 characters of the serial number in [reg_data[1..6]]. *)
Definition serial_chars (reg_data : list Z) : list Z :=
  flat_map
    (fun i => [Z.land (Z.shiftr (reg reg_data (HM_SN_START + i)) 8) 255;
               Z.land (reg reg_data (HM_SN_START + i)) 255])
    (seq 0 6).

(** [(hi << 16) | lo] as a [uint32_t]. *)
Definition u32_of_words (hi lo : Z) : Z := u32 (Z.lor (Z.shiftl hi 16) lo).

(** The update of the source on a response with at least 34 registers. *)
Definition store_port_block (now : Z) (reg_data : list Z) (s : RtuSource) : RtuSource :=
  let sn := of_cstr (trim_trailing (serial_chars reg_data)) in
  let got_sn := negb (initial_model1_read s) && negb (str_empty sn) in
  let s_voltage_v := F32.of_Z (reg reg_data HM_GRID_VOLTAGE) in
  let s_pv_power_w := F32.of_Z (reg reg_data HM_PV_POWER) in
  let s_power_w := s_pv_power_w in
  let today_wh :=
    u32_of_words (reg reg_data HM_TODAY_PROD_H) (reg reg_data HM_TODAY_PROD_L) in
  let total_wh :=
    u32_of_words (reg reg_data HM_TOTAL_PROD_H) (reg reg_data HM_TOTAL_PROD_L) in
  {| port_number := port_number s;
     phases := phases s;
     connected_phase := connected_phase s;
     rated_power_w := rated_power_w s;
     mppt_inputs := mppt_inputs s;
     name := name s;
     model := model s;
     serial_number :=
       if got_sn && str_empty (serial_number s)
       then strncpy sn 32 else serial_number s;
     serial_from_dtu := if got_sn then strncpy sn 32 else serial_from_dtu s;
     raw_regs := raw_regs s;
     data_valid := true;
     last_poll_ms := now;
     initial_model1_read := true;
     poll_success_count := u32 (poll_success_count s + 1);
     poll_fail_count := poll_fail_count s;
     poll_timeout_count := poll_timeout_count s;
     crc_error_count := crc_error_count s;
     power_w := s_power_w;
     current_a :=
       if F32.gtb s_voltage_v F32.zero then F32.div s_power_w s_voltage_v
       else current_a s;
     voltage_v := s_voltage_v;
     frequency_hz := F32.div (F32.of_Z (reg reg_data HM_GRID_FREQ)) F32.hundred;
     energy_kwh := F32.div (F32.of_Z total_wh) F32.thousand;
     today_energy_wh := F32.of_Z today_wh;
     temperature_c := F32.of_Z (s16 (reg reg_data HM_TEMPERATURE));
     pv_voltage_v := F32.of_Z (reg reg_data HM_PV_VOLTAGE);
     pv_current_a := F32.div (F32.of_Z (reg reg_data HM_PV_CURRENT)) F32.two;
     pv_power_w := s_pv_power_w;
     alarm_code := reg reg_data HM_ALARM_CODE;
     alarm_count := alarm_count s;
     link_status := Z.land (reg reg_data HM_LINK_STATUS) 255;
     operating_status := reg reg_data HM_OPERATING_STATUS;
     producing := F32.gtb s_power_w F32.zero |}.

(** The failure counters of a source: [fail], [timeout] and [crc] are
    added to [poll_fail_count], [poll_timeout_count], [crc_error_count]. *)
Definition count_poll_failure (fail timeout crc : Z) (s : RtuSource) : RtuSource :=
  {| port_number := port_number s;
     phases := phases s;
     connected_phase := connected_phase s;
     rated_power_w := rated_power_w s;
     mppt_inputs := mppt_inputs s;
     name := name s;
     model := model s;
     serial_number := serial_number s;
     serial_from_dtu := serial_from_dtu s;
     raw_regs := raw_regs s;
     data_valid := data_valid s;
     last_poll_ms := last_poll_ms s;
     initial_model1_read := initial_model1_read s;
     poll_success_count := poll_success_count s;
     poll_fail_count := u32 (poll_fail_count s + fail);
     poll_timeout_count := u32 (poll_timeout_count s + timeout);
     crc_error_count := u32 (crc_error_count s + crc);
     power_w := power_w s;
     current_a := current_a s;
     voltage_v := voltage_v s;
     frequency_hz := frequency_hz s;
     energy_kwh := energy_kwh s;
     today_energy_wh := today_energy_wh s;
     temperature_c := temperature_c s;
     pv_voltage_v := pv_voltage_v s;
     pv_current_a := pv_current_a s;
     pv_power_w := pv_power_w s;
     alarm_code := alarm_code s;
     alarm_count := alarm_count s;
     link_status := link_status s;
     operating_status := operating_status s;
     producing := producing s |}.

(** [sources_[i]] is replaced by [f sources_[i]]. *)
Definition update_source (i : nat) (f : RtuSource -> RtuSource) (st : SunSpecProxy)
    : SunSpecProxy :=
  match sources_ st !! i with
  | Some s => set_sources_ (<[i := f s]> (sources_ st)) st
  | None => st
  end.

(** The branch of [poll_rtu_sources_] for [n > 0] received bytes in
    [resp].  The bytes of [resp] past the received ones, and the entries
    of [reg_data] past [reg_count], are indeterminate in C; the model
    reads them as 0. *)
Definition handle_rtu_response (now n : Z) (resp : list Z) (st : SunSpecProxy)
    : SunSpecProxy :=
  let cur := current_poll_source_ st in
  let st :=
    if (5 <=? n) && (nth 1 resp 0 =? 3) then
      let byte_count := nth 2 resp 0 in
      let reg_count := byte_count / 2 in
      let reg_data :=
        map (fun i => be16 resp (3 + i * 2))
            (seq 0 (Z.to_nat (Z.min reg_count 64))) in
      if 34 <=? reg_count then
        aggregate_and_update_registers_
          (update_source cur (store_port_block now reg_data) st)
      else update_source cur (count_poll_failure 1 0 0) st
    else if (2 <=? n) && negb (Z.land (nth 1 resp 0) 128 =? 0) then
      update_source cur (count_poll_failure 1 0 0) st
    else update_source cur (count_poll_failure 1 0 0) st in
  set_rtu_busy_ false st.

(** [poll_rtu_sources_()], with [now] the value of [millis()]. *)
Definition poll_rtu_sources_ (now : Z) (st : SunSpecProxy) : SunSpecProxy :=
  if (num_sources_ st =? 0)%nat then st else
  if rtu_busy_ st then
    let '(n, resp, st) := read_rtu_response_ 256 st in
    if 0 <? n then handle_rtu_response now n resp st
    else if n =? -1 then
      set_rtu_busy_ false
        (update_source (current_poll_source_ st) (count_poll_failure 1 0 1) st)
    else if rtu_timeout_ms_ st <? u32 (now - rtu_request_time_ st) then
      set_rtu_busy_ false
        (update_source (current_poll_source_ st) (count_poll_failure 0 1 0) st)
    else st
  else
    let interval_per_source := poll_interval_ms_ st / Z.of_nat (num_sources_ st) in
    if u32 (now - last_poll_time_ st) <? interval_per_source then st else
    match sources_ st !! current_poll_source_ st with
    | None => st
    | Some s =>
        let port_base := u16 (HM_DATA_BASE + port_number s * HM_PORT_STRIDE) in
        let st := send_rtu_request_ (dtu_address_ st) 3 port_base HM_PORT_REGS st in
        set_poll_state_
          ((current_poll_source_ st + 1) mod num_sources_ st)%nat
          now true now st
    end.

(** One pass of [loop()] in which a client delivers [buf] ([None]: no
    client has data): the TCP request is processed, then the poller
    runs.  Each of the two reads [millis()] for itself: [now] is what
    the request handler reads and [now_poll] what the poller reads after
    it, later by the delays of a forwarded limit.  Sensor publishing is
    left out. *)
Definition loop (now now_poll client_fd : Z) (buf : option (list Z)) (st : SunSpecProxy)
    : SunSpecProxy :=
  let st := match buf with
            | Some b => process_tcp_request_ now client_fd b st
            | None => st
            end in
  poll_rtu_sources_ now_poll st.

(** ** Sensor publishing

    The publishing functions hand values to the sensor objects of
    ESPHome, which the state record does not hold.  The embedding
    gives, for each function, the values it passes to [publish_state],
    one field per sensor, as a function of the state; a sensor that is
    not configured is skipped by the source and its field is without
    effect.  Integers are converted to [float] by [publish_state].  The
    functions are called with [idx < num_sources_] only; the embedding
    gives [None] for any other index. *)

(** The texts of the status sensor of a source, by their [snprintf]
    format and arguments. *)
Inductive status_text :=
| Stale (age_s : Z)                  (* "Stale (%lus)" *)
| Producing (power_w : F32.float)    (* "Producing %.0fW" *)
| Idle.                              (* "Idle" *)

(** [update_source_status_(idx)]: the text for the status sensor of the
    source, [None] when nothing is published. *)
Definition update_source_status_ (now : Z) (idx : nat) (st : SunSpecProxy)
    : option status_text :=
  match sources_ st !! idx with
  | None => None
  | Some s =>
      if negb (data_valid s) then None else
      let age_s := u32 (now - last_poll_ms s) / 1000 in
      let stale := u32 (poll_interval_ms_ st / 1000 * 3) <? age_s in
      Some (if stale then Stale age_s
            else if producing s then Producing (power_w s)
            else Idle)
  end.

(** What [publish_source_sensors_(idx)] publishes. *)
Record SourceReadings := {
  pub_power : F32.float;
  pub_voltage : F32.float;
  pub_current : F32.float;
  pub_energy : F32.float;
  pub_today_energy : F32.float;
  pub_frequency : F32.float;
  pub_temperature : F32.float;
  pub_pv_voltage : F32.float;
  pub_pv_current : F32.float;
  pub_pv_power : F32.float;
  pub_alarm_code : F32.float;
  pub_alarm_count : F32.float;
  pub_link_status : F32.float;
  pub_poll_ok : F32.float;
  pub_poll_fail : F32.float;
  pub_online : bool;
  pub_status : option status_text
}.

(** [s.data_valid ? x : NAN] *)
Definition if_valid (s : RtuSource) (x : F32.float) : F32.float :=
  if data_valid s then x else F32.nan.

(** [s.data_valid ? n : 0], converted to [float] *)
Definition if_valid_int (s : RtuSource) (n : Z) : F32.float :=
  F32.of_Z (if data_valid s then n else 0).

Definition publish_source_sensors_ (now : Z) (idx : nat) (st : SunSpecProxy)
    : option SourceReadings :=
  match sources_ st !! idx with
  | None => None
  | Some s =>
      let age_s := if data_valid s then u32 (now - last_poll_ms s) / 1000 else 999 in
      let online := data_valid s && (age_s <? u32 (poll_interval_ms_ st / 1000 * 3)) in
      Some {| pub_power := if_valid s (power_w s);
              pub_voltage := if_valid s (voltage_v s);
              pub_current := if_valid s (current_a s);
              pub_energy := if_valid s (energy_kwh s);
              pub_today_energy := if_valid s (today_energy_wh s);
              pub_frequency := if_valid s (frequency_hz s);
              pub_temperature := if_valid s (temperature_c s);
              pub_pv_voltage := if_valid s (pv_voltage_v s);
              pub_pv_current := if_valid s (pv_current_a s);
              pub_pv_power := if_valid s (pv_power_w s);
              pub_alarm_code := if_valid_int s (alarm_code s);
              pub_alarm_count := if_valid_int s (alarm_count s);
              pub_link_status := if_valid_int s (link_status s);
              pub_poll_ok := F32.of_Z (poll_success_count s);
              pub_poll_fail :=
                F32.of_Z (u32 (poll_fail_count s + poll_timeout_count s
                               + crc_error_count s));
              pub_online := online;
              pub_status := update_source_status_ now idx st |}
  end.

(** ** Client connections

    The descriptors [server_fd_] and [client_fds_] (an array of
    [MAX_TCP_CLIENTS] entries, -1 for a free slot) are passed beside
    the state; what [accept()] and [recv()] return is given by the
    caller. *)

Definition MAX_TCP_CLIENTS : nat := 4.

(** What [recv()] gives for a client. *)
Inductive recv_result :=
| Received (buf : list Z)    (* n > 0: the n bytes read, at most 260 *)
| Closed                     (* n == 0 *)
| WouldBlock                 (* n < 0, errno EAGAIN or EWOULDBLOCK *)
| Failed.                    (* n < 0, any other errno *)

(** The loop that looks for a free slot: the first slot that holds a
    negative descriptor takes [nfd]; [None] when all are taken. *)
Fixpoint place_client (nfd : Z) (client_fds : list Z) : option (list Z) :=
  match client_fds with
  | [] => None
  | fd :: rest =>
      if fd <? 0 then Some (nfd :: rest)
      else option_map (cons fd) (place_client nfd rest)
  end.

(** The body of the loop over the client slots. *)
Definition serve_client (now : Z) (recv : Z -> recv_result)
    (acc : list Z * SunSpecProxy) (i : nat) : list Z * SunSpecProxy :=
  let '(client_fds, st) := acc in
  let fd := nth i client_fds (-1) in
  if fd <? 0 then acc else
  match recv fd with
  | Received buf => (client_fds, process_tcp_request_ now fd buf st)
  | Closed | Failed => (<[i := -1]> client_fds, st)
  | WouldBlock => acc
  end.

(** [handle_tcp_clients_()]: [server_fd] and [client_fds] are the
    members [server_fd_] and [client_fds_]; [accepted] is what
    [accept()] returns (negative: no connection is pending) and [recv]
    what [recv()] returns for each descriptor.  A connection that finds
    no free slot is closed.  The result is [client_fds_] and the state
    after the call. *)
Definition handle_tcp_clients_ (now server_fd accepted : Z) (recv : Z -> recv_result)
    (client_fds : list Z) (st : SunSpecProxy) : list Z * SunSpecProxy :=
  if server_fd <? 0 then (client_fds, st) else
  let client_fds :=
    if 0 <=? accepted then
      match place_client accepted client_fds with
      | Some placed => placed
      | None => client_fds
      end
    else client_fds in
  fold_left (serve_client now recv) (seq 0 MAX_TCP_CLIENTS) (client_fds, st).

(** * Vocabulary of the properties *)

(** ** Effects and counters *)

(** The frames sent on client sockets, in order. *)
Definition tcp_sent (tr : list event) : list (Z * list Z) :=
  flat_map (fun e => match e with TcpSend fd f => [(fd, f)] | _ => [] end) tr.

(** The frames written to the UART, in order. *)
Definition uart_written (tr : list event) : list (list Z) :=
  flat_map (fun e => match e with UartWrite f => [f] | _ => [] end) tr.

(** The effects of [forward_power_limit_]. *)
Definition forward_events (dtu_address pct_raw : Z) (enabled : bool)
    (srcs : list RtuSource) : list event :=
  flat_map (forward_power_limit_source dtu_address pct_raw enabled) srcs.

(** The two members that account for TCP requests. *)
Definition tcp_clock (st : SunSpecProxy) : Z * Z :=
  (tcp_request_count_ st, last_tcp_activity_ms_ st).

(** ** Modbus TCP frames, as the protocol defines them *)

(** MBAP header and PDU: transaction id, protocol 0, length of what
    follows the length field, unit, function code, data. *)
Definition mbap_frame (txn unit fc : Z) (data : list Z) : list Z :=
  let n := 2 + Z.of_nat (length data) in
  [txn / 256; txn mod 256; 0; 0; n / 256; n mod 256; unit; fc] ++ data.

(** An exception response: the function code with bit 7 set and one
    exception code. *)
Definition exception_frame (txn unit fc code : Z) : list Z :=
  mbap_frame txn unit (fc + 128) [code].

(** 16-bit words, high byte first. *)
Definition words_be (ws : list Z) : list Z :=
  flat_map (fun w => [w / 256; w mod 256]) ws.

(** ** The writable region and write requests *)

(** The range of [n] registers from [start] lies in the payload of
    Model 123: image offsets 152 to 175. *)
Definition in_model_123 (start n : Z) : bool :=
  (40000 <=? start) && (152 <=? start - 40000) && (start - 40000 + n <=? 176).

(** The range of [n] image offsets from [off] contains [WMaxLimPct]
    (offset 157) or [WMaxLim_Ena] (offset 160). *)
Definition covers_control (off n : Z) : bool :=
  ((off <=? 157) && (157 <? off + n)) || ((off <=? 160) && (160 <? off + n)).

(** The words a write request carries: the value of function 6, the
    [count] values of function 16. *)
Definition write_values (buf : list Z) : list Z :=
  if nth 7 buf 0 =? 6 then [be16 buf 10]
  else map (fun i => be16 buf (13 + i * 2)) (seq 0 (Z.to_nat (be16 buf 10))).

(** The fixed fields of a write request have been received: 12 bytes
    for function 6, 13 bytes for function 16. *)
Definition write_fields_received (buf : list Z) : bool :=
  if nth 7 buf 0 =? 6 then 12 <=? Z.of_nat (length buf)
  else 13 <=? Z.of_nat (length buf).

(** The request is whole: 12 bytes for function 6; for function 16 at
    most 100 values, all of them received. *)
Definition write_complete (buf : list Z) : bool :=
  if nth 7 buf 0 =? 6 then 12 <=? Z.of_nat (length buf)
  else (be16 buf 10 <=? 100) && (13 + be16 buf 10 * 2 <=? Z.of_nat (length buf)).

(** ** Modbus RTU frames, as a receiver reads them *)

(** The commands the proxy sends to the DTU. *)
Inductive rtu_command :=
| ReadHoldingRegisters (address start count : Z)
| WriteSingleCoil (address coil value : Z)
| WriteSingleRegister (address register value : Z).

(** The trailer of an 8-byte frame is the CRC of its first six bytes,
    low byte first. *)
Definition crc_ok (frame : list Z) : bool :=
  let crc := calc_crc16_ frame 6 in
  (nth 6 frame 0 =? crc mod 256) && (nth 7 frame 0 =? crc / 256).

(** How a Modbus RTU receiver reads an 8-byte request. *)
Definition decode_rtu_frame (frame : list Z) : option rtu_command :=
  if (length frame =? 8)%nat && crc_ok frame then
    let address := nth 0 frame 0 in
    let word1 := 256 * nth 2 frame 0 + nth 3 frame 0 in
    let word2 := 256 * nth 4 frame 0 + nth 5 frame 0 in
    match nth 1 frame 0 with
    | 3 => Some (ReadHoldingRegisters address word1 word2)
    | 5 => Some (WriteSingleCoil address word1 word2)
    | 6 => Some (WriteSingleRegister address word1 word2)
    | _ => None
    end
  else None.

(** ** Power limit translation *)

(** The Hoymiles percentage for a SunSpec [WMaxLimPct] value. *)
Definition hm_percent (pct_raw : Z) : Z := Z.max 2 (Z.min 100 (pct_raw / 10)).

(** The commands one source is to receive. *)
Definition limit_commands (dtu_address pct_raw : Z) (enabled : bool) (s : RtuSource)
    : list rtu_command :=
  if enabled then
    [WriteSingleRegister dtu_address (49159 + 6 * port_number s) (hm_percent pct_raw);
     WriteSingleCoil dtu_address (49158 + 6 * port_number s) 65280]
  else
    [WriteSingleRegister dtu_address (49159 + 6 * port_number s) 100].

(** ** Strings in registers *)

(** Register [k] of a packed string: characters [2k] and [2k+1], the
    first in the high byte; 0 stands for the characters past the end. *)
Definition pack_reg (s : list Z) (k : nat) : Z :=
  256 * nth (2 * k) s 0 + nth (2 * k + 1) s 0.

Definition pack_string (str : string) (max_regs : nat) : list Z :=
  map (pack_reg (cstr str)) (seq 0 max_regs).

(** The registers after the first [i] characters have been written. *)
Definition pack_reg_upto (s : list Z) (i k : nat) : Z :=
  256 * (if (2 * k <? i)%nat then nth (2 * k) s 0 else 0)
  + (if (2 * k + 1 <? i)%nat then nth (2 * k + 1) s 0 else 0).

(** ** The static image *)

(** "Not implemented" *)
Definition NOT_IMPL : Z := 65535.

(** A scale factor as a register: the two's complement of [sf]. *)
Definition sunssf (sf : Z) : Z := sf mod 65536.

(** The payload of Model 101/103 after [setup()]. *)
Definition inverter_static : list Z :=
  [NOT_IMPL; NOT_IMPL; NOT_IMPL; NOT_IMPL; sunssf (-2);           (* A, AphA-C, A_SF *)
   NOT_IMPL; NOT_IMPL; NOT_IMPL; NOT_IMPL; NOT_IMPL; NOT_IMPL;    (* PPVph, PhVph *)
   sunssf (-1);                                                   (* V_SF *)
   NOT_IMPL; sunssf 0;                                            (* W, W_SF *)
   NOT_IMPL; sunssf (-2);                                         (* Hz, Hz_SF *)
   NOT_IMPL; sunssf 0;                                            (* VA, VA_SF *)
   NOT_IMPL; sunssf 0;                                            (* VAr, VAr_SF *)
   NOT_IMPL; sunssf (-2);                                         (* PF, PF_SF *)
   NOT_IMPL; NOT_IMPL; sunssf 0;                                  (* WH, WH_SF *)
   NOT_IMPL; sunssf (-2);                                         (* DCA, DCA_SF *)
   NOT_IMPL; sunssf (-1);                                         (* DCV, DCV_SF *)
   NOT_IMPL; sunssf 0;                                            (* DCW, DCW_SF *)
   NOT_IMPL; NOT_IMPL; NOT_IMPL; NOT_IMPL; sunssf (-1);           (* Tmp*, Tmp_SF *)
   2; NOT_IMPL;                                                   (* St, StVnd *)
   0; 0; 0; 0; 0; 0; 0; 0; 0; 0; 0; 0                            (* Evt1 .. EvtVnd4 *)
  ].

(** The payload of Model 120. *)
Definition nameplate_static (cfg : AggregatedConfig) : list Z :=
  [4;                                                             (* DERTyp = PV *)
   agg_rated_power_w cfg; sunssf 0;                               (* WRtg, WRtg_SF *)
   agg_rated_power_w cfg; sunssf 0]                               (* VARtg, VARtg_SF *)
  ++ replicate 5 NOT_IMPL
  ++ [F32.trunc (F32.mul (rated_current_a cfg) F32.ten) mod 65536;  (* ARtg *)
      sunssf (-1)]                                                (* ARtg_SF *)
  ++ replicate 14 NOT_IMPL.

(** The payload of Model 123. *)
Definition controls_static : list Z :=
  [NOT_IMPL; NOT_IMPL;
   1;                                                             (* Conn *)
   sunssf (-1);                                                   (* WMaxLimPct_SF *)
   NOT_IMPL;
   1000;                                                          (* WMaxLimPct *)
   NOT_IMPL; NOT_IMPL;
   0]                                                             (* WMaxLim_Ena *)
  ++ replicate 15 NOT_IMPL.

(** The whole image: offsets 0..177. *)
Definition static_image (cfg : AggregatedConfig) : list Z :=
  [21365; 28243]                                                  (* "SunS" *)
  ++ [1; 66]
  ++ pack_string (manufacturer cfg) 16
  ++ pack_string (model_name cfg) 16
  ++ replicate 8 0
  ++ pack_string "1.1.0" 8
  ++ pack_string (agg_serial_number cfg) 16
  ++ [unit_id cfg; 32768]
  ++ [if agg_phases cfg =? 3 then 103 else 101; 50]
  ++ inverter_static
  ++ [120; 26]
  ++ nameplate_static cfg
  ++ [123; 24]
  ++ controls_static
  ++ [65535; 0                                                    (* End *)
     ].

(** ** Rounding and the power factor *)

(** The float that [binary_round_aux] builds from the final mantissa and
    exponent, for a non-negative result. *)
Definition round_result (m e : Z) : spec_float :=
  match m with
  | Z0 => S754_zero false
  | Zpos p => if e <=? 104 then S754_finite false p e else S754_infinity false
  | Zneg _ => S754_nan
  end.

(** A float that is zero, or positive with a mantissa below 2^24, or
    plus infinity. *)
Definition nonneg_float (x : spec_float) : Prop :=
  match x with
  | S754_zero _ => True
  | S754_infinity s => s = false
  | S754_nan => False
  | S754_finite s m _ => s = false /\ Z.pos m < 2 ^ 24
  end.

(** [pf > 1.0f ? 1.0f : pf] *)
Definition clamp_one (pf : F32.float) : F32.float :=
  if F32.gtb pf F32.one then F32.one else pf.

(** A float between 0 and 1: a zero, or [m * 2^e] with [m <= 2^(-e)]. *)
Definition unit_float (x : spec_float) : Prop :=
  match x with
  | S754_zero _ => True
  | S754_finite s m e => s = false /\ e <= -23 /\ Z.pos m <= 2 ^ (- e)
  | _ => False
  end.

(** The accumulators after the loop over the sources. *)
Definition aggregate_totals (st : SunSpecProxy) : AggAcc :=
  fst (aggregate_sources acc_init (sources_ st)).

(** ** The register blocks in a run *)

(** Every source holds zeros in [raw_regs], as [add_rtu_source] leaves
    it. *)
Definition zero_blocks (st : SunSpecProxy) : Prop :=
  Forall (fun r => r = replicate MODEL_103_SIZE 0) (map raw_regs (sources_ st)).

(** ** Strings read back from registers *)

(** The characters of a [char] array up to the first NUL. *)
Fixpoint until_nul (l : list Z) : list Z :=
  match l with
  | [] => []
  | c :: l' => if c =? 0 then [] else c :: until_nul l'
  end.

(** The string a SunSpec client reads in the [max_regs] registers from
    [base]: two characters per register, the first in the high byte, up
    to the first NUL. *)
Definition string_of_regs (regs : list Z) (base max_regs : nat) : list Z :=
  until_nul
    (flat_map (fun k => [reg regs (base + k) / 256; reg regs (base + k) mod 256])
       (seq 0 max_regs)).

(** ** Ratings *)

(** The sum of the rated powers of the sources. *)
Definition sum_rated_power (srcs : list RtuSource) : Z :=
  fold_right (fun s acc => rated_power_w s + acc) 0 srcs.

(** ** Modbus TCP requests, as a client sends them *)

(** Read Holding Registers: [count] registers from [start]. *)
Definition read_request (txn unit start count : Z) : list Z :=
  mbap_frame txn unit 3 (words_be [start; count]).

(** Write Single Register: [value] to [register]. *)
Definition write_single_request (txn unit register value : Z) : list Z :=
  mbap_frame txn unit 6 (words_be [register; value]).

(** Write Multiple Registers: [values] to the registers from [start]. *)
Definition write_multiple_request (txn unit start : Z) (values : list Z) : list Z :=
  mbap_frame txn unit 16
    (words_be [start; Z.of_nat (length values)]
       ++ [2 * Z.of_nat (length values)] ++ words_be values).

(** The request is whole: the bytes its function code calls for have
    been received. *)
Definition request_complete (buf : list Z) : bool :=
  let len := Z.of_nat (length buf) in
  let fc := nth 7 buf 0 in
  (8 <=? len)
  && (if (fc =? 3) || (fc =? 6) then 12 <=? len
      else if fc =? 16 then 13 + be16 buf 10 * 2 <=? len
      else true).

(** ** Time spent in [delay()] *)

Definition total_delay (tr : list event) : Z :=
  fold_right (fun e acc => match e with Delay ms => ms + acc | _ => acc end) 0 tr.

(** ** Parts of the state *)

(** What the poller works on. *)
Definition poller_state (st : SunSpecProxy)
    : list RtuSource * nat * Z * bool * Z * list Z :=
  (sources_ st, current_poll_source_ st, last_poll_time_ st, rtu_busy_ st,
   rtu_request_time_ st, uart_rx_ st).

(** The settings and the aggregate values. *)
Definition settings (st : SunSpecProxy)
    : Z * Z * Z * Z * AggregatedConfig
      * (F32.float * F32.float * F32.float * F32.float * F32.float) :=
  (tcp_port_ st, poll_interval_ms_ st, rtu_timeout_ms_ st, dtu_address_ st,
   agg_config_ st,
   (agg_power_w_ st, agg_current_a_ st, agg_voltage_v_ st, agg_frequency_hz_ st,
    agg_energy_kwh_ st)).

(** What the TCP server accounts. *)
Definition tcp_counters (st : SunSpecProxy) : Z * Z * Z :=
  (tcp_request_count_ st, tcp_error_count_ st, last_tcp_activity_ms_ st).

(** The header of a response to the request [buf] from [unit]: the
    transaction id of the request, protocol 0, a length field that
    counts the bytes after it, the unit id. *)
Definition response_header (buf : list Z) (unit : Z) (f : list Z) : Prop :=
  take 4 f = [nth 0 buf 0; nth 1 buf 0; 0; 0]
  /\ Z.of_nat (length f) = 6 + (256 * nth 4 f 0 + nth 5 f 0)
  /\ nth 6 f 0 = unit.

(** ** The image as an array of 16-bit words *)

Definition image_ok (regs : list Z) : Prop :=
  length regs = TOTAL_REGS /\ Forall is_u16 regs.

(** The offsets of the image that [aggregate_and_update_registers_]
    assigns to. *)
Definition aggregate_offsets : list nat :=
  map (fun k => (OFF_INV + 2 + k)%nat)
    [INV_W; INV_A; INV_AphA; INV_AphB; INV_AphC; INV_PhVphA; INV_PhVphB; INV_PhVphC;
     INV_PPVphAB; INV_PPVphBC; INV_PPVphCA; INV_Hz; INV_VA; INV_VAr; INV_PF;
     INV_WH; (INV_WH + 1)%nat; INV_TmpCab; INV_DCW; INV_St].

(** ** What the aggregator reads of a source *)

(** The AC power in the register block of a source. *)
Definition source_power (s : RtuSource) : F32.float :=
  apply_sf (s16 (reg (raw_regs s) INV_W)) (s16 (reg (raw_regs s) INV_W_SF)).

(** The source is valid and its block reports a positive power. *)
Definition source_producing (s : RtuSource) : bool :=
  data_valid s && negb (F32.isnan (source_power s)) && F32.gtb (source_power s) F32.zero.

(** The lifetime energy in the register block of a source, in Wh. *)
Definition source_energy_wh (s : RtuSource) : Z :=
  let r := raw_regs s in
  F32.to_u32
    (F32.mul (F32.of_Z (u32 (Z.lor (Z.shiftl (reg r INV_WH) 16) (reg r (INV_WH + 1)))))
       (F32.powf10 (s16 (reg r INV_WH_SF)))).

(** The sum of the energies of the valid sources. *)
Definition sum_energy_wh (srcs : list RtuSource) : Z :=
  fold_right (fun s acc => (if data_valid s then source_energy_wh s else 0) + acc) 0 srcs.

(** The lifetime energy a register block reports: the acc32 pair
    [INV_WH], high word first. *)
Definition reported_energy_wh (s : RtuSource) : Z :=
  65536 * reg (raw_regs s) INV_WH + reg (raw_regs s) (INV_WH + 1).

(** The sum of the reported energies of the valid sources. *)
Definition sum_reported_energy (srcs : list RtuSource) : Z :=
  fold_right (fun s acc => (if data_valid s then reported_energy_wh s else 0) + acc) 0 srcs.

(** The block reports its energy in Wh (scale factor 0) and the value is
    below 2^24, so that binary32 holds it exactly. *)
Definition energy_exact_in_float (s : RtuSource) : Prop :=
  is_u16 (reg (raw_regs s) INV_WH)
  /\ is_u16 (reg (raw_regs s) (INV_WH + 1))
  /\ reg (raw_regs s) INV_WH_SF = 0
  /\ reported_energy_wh s < 16777216.

(** The same as a test, for concrete sources. *)
Definition energy_exact_in_floatb (s : RtuSource) : bool :=
  is_u16b (reg (raw_regs s) INV_WH)
  && is_u16b (reg (raw_regs s) (INV_WH + 1))
  && (reg (raw_regs s) INV_WH_SF =? 0)
  && (reported_energy_wh s <? 16777216).

(** ** Parts of a source *)

(** What [add_rtu_source] has configured. *)
Definition source_config (s : RtuSource) : Z * Z * Z * Z * Z * string * string :=
  (port_number s, phases s, connected_phase s, rated_power_w s, mppt_inputs s,
   name s, model s).

(** The poll statistics. *)
Definition source_counters (s : RtuSource) : Z * Z * Z * Z :=
  (poll_success_count s, poll_fail_count s, poll_timeout_count s, crc_error_count s).

(** The values only the poller assigns. *)
Definition source_dc_side (s : RtuSource)
    : F32.float * F32.float * F32.float * F32.float * Z * Z * Z :=
  (pv_voltage_v s, pv_current_a s, pv_power_w s, today_energy_wh s,
   alarm_code s, link_status s, operating_status s).

(** ** Responses of the DTU *)

(** A Read Holding Registers response from [address] that carries the
    registers [block], with its CRC. *)
Definition rtu_read_response (address : Z) (block : list Z) : list Z :=
  let body := [address; 3; 2 * Z.of_nat (length block)] ++ words_be block in
  body ++ [calc_crc16_ body (length body) mod 256; calc_crc16_ body (length body) / 256].

(** A source keeps the serial number it was configured with. *)
Definition keeps_configured_serial (s s' : RtuSource) : Prop :=
  str_empty (serial_number s) = false -> serial_number s' = serial_number s.

(** A valid source stays valid. *)
Definition stays_valid (s s' : RtuSource) : Prop :=
  data_valid s = true -> data_valid s' = true.

(** The poll statistics are [uint32_t] values. *)
Definition counters_in_range (s : RtuSource) : Prop :=
  0 <= poll_success_count s < 4294967296
  /\ 0 <= poll_fail_count s < 4294967296
  /\ 0 <= poll_timeout_count s < 4294967296
  /\ 0 <= crc_error_count s < 4294967296.

(** ** Published statistics *)


(** ** Client slots *)

(** The slot holds a client for which [recv()] returns data. *)
Definition has_data (recv : Z -> recv_result) (fd : Z) : bool :=
  (0 <=? fd) && match recv fd with Received _ => true | _ => false end.

(** The slot holds a client that has closed the connection or whose
    [recv()] fails. *)
Definition hangs_up (recv : Z -> recv_result) (fd : Z) : bool :=
  (0 <=? fd) && match recv fd with Closed | Failed => true | _ => false end.

(** * Examples *)

(** The aggregate device of the examples: unit 126, single-phase, 230 V. *)
Definition example_config : AggregatedConfig :=
  {| unit_id := 126;
     agg_phases := 1;
     agg_rated_power_w := 0;
     rated_voltage_v := 230;
     rated_current_a := F32.zero;
     manufacturer := "Fronius";
     model_name := "Hoymiles Aggregate";
     agg_serial_number := "HM-BRIDGE-001" |}.

(** A freshly constructed component with the default settings. *)
Definition example_unconfigured : SunSpecProxy :=
  {| tcp_port_ := 502;
     poll_interval_ms_ := 5000;
     rtu_timeout_ms_ := 3000;
     dtu_address_ := 126;
     agg_config_ := example_config;
     sources_ := [];
     tcp_request_count_ := 0;
     tcp_error_count_ := 0;
     last_tcp_activity_ms_ := 0;
     current_poll_source_ := 0;
     last_poll_time_ := 0;
     rtu_busy_ := false;
     rtu_request_time_ := 0;
     register_map_ := replicate TOTAL_REGS 0;
     agg_power_w_ := F32.zero;
     agg_current_a_ := F32.zero;
     agg_voltage_v_ := F32.zero;
     agg_frequency_hz_ := F32.zero;
     agg_energy_kwh_ := F32.zero;
     uart_rx_ := [];
     trace_ := [] |}.

(** One single-phase 800 W inverter on DTU port 0, after [setup()]. *)
Definition example_one_source : SunSpecProxy :=
  setup (add_rtu_source 0 1 800 1 2 "inv1" "HMS-800-2T" "" example_unconfigured).

(** Two single-phase inverters on DTU ports 0 and 1, after [setup()]. *)
Definition example_two_sources : SunSpecProxy :=
  setup (add_rtu_source 1 1 600 2 2 "inv2" "HMS-600-2T" ""
           (add_rtu_source 0 1 400 1 1 "inv1" "HMS-400-1T" "" example_unconfigured)).

(** Write Single Register, holding register 40157 ([WMaxLimPct]) := 500. *)
Definition write_limit_50_request : list Z :=
  [0; 2; 0; 0; 0; 6; 126; 6; 156; 221; 1; 244].

(** Write Single Register, holding register 40157 := 1000, the value the
    register already has after [setup()]. *)
Definition rewrite_limit_100_request : list Z :=
  [0; 3; 0; 0; 0; 6; 126; 6; 156; 221; 3; 232].

(** Write Single Register, holding register 40160 ([WMaxLim_Ena]) := 1. *)
Definition enable_limit_request : list Z :=
  [0; 4; 0; 0; 0; 6; 126; 6; 156; 224; 0; 1].

(** Write Multiple Registers, 101 registers from 40152, all values
    present: a well-formed Modbus request (the protocol allows 123). *)
Definition write_101_registers_request : list Z :=
  [0; 5; 0; 0; 0; 209; 126; 16; 156; 216; 0; 101; 202] ++ replicate 202 0.

(** Write Multiple Registers of one register at 40000, outside the
    payload of Model 123, cut after its 12th byte: the byte count and
    the value are missing. *)
Definition short_write_request : list Z :=
  [0; 6; 0; 0; 0; 9; 126; 16; 156; 64; 0; 1].

(** The example right after the poller has sent its first request. *)
Definition example_poll_in_flight : SunSpecProxy :=
  poll_rtu_sources_ 5000 example_one_source.

(** The example with one source when [setup()] has summed the ratings
    and not yet built the registers. *)
Definition example_before_build : SunSpecProxy :=
  set_agg_config_
    (setup_ratings example_config
       (sources_ (add_rtu_source 0 1 800 1 2 "inv1" "HMS-800-2T" ""
                    example_unconfigured)))
    (add_rtu_source 0 1 800 1 2 "inv1" "HMS-800-2T" "" example_unconfigured).

(** A register block with [INV_W = w] and [INV_VA = va], all other
    registers 0 (so all scale factors are 0). *)
Definition example_block (w va : Z) : list Z :=
  <[INV_VA := va]> (<[INV_W := w]> (replicate MODEL_103_SIZE 0)).

(** The source with [block] as its valid register block. *)
Definition with_raw_regs (block : list Z) (s : RtuSource) : RtuSource :=
  {| port_number := port_number s;
     phases := phases s;
     connected_phase := connected_phase s;
     rated_power_w := rated_power_w s;
     mppt_inputs := mppt_inputs s;
     name := name s;
     model := model s;
     serial_number := serial_number s;
     serial_from_dtu := serial_from_dtu s;
     raw_regs := block;
     data_valid := true;
     last_poll_ms := last_poll_ms s;
     initial_model1_read := initial_model1_read s;
     poll_success_count := poll_success_count s;
     poll_fail_count := poll_fail_count s;
     poll_timeout_count := poll_timeout_count s;
     crc_error_count := crc_error_count s;
     power_w := power_w s;
     current_a := current_a s;
     voltage_v := voltage_v s;
     frequency_hz := frequency_hz s;
     energy_kwh := energy_kwh s;
     today_energy_wh := today_energy_wh s;
     temperature_c := temperature_c s;
     pv_voltage_v := pv_voltage_v s;
     pv_current_a := pv_current_a s;
     pv_power_w := pv_power_w s;
     alarm_code := alarm_code s;
     alarm_count := alarm_count s;
     link_status := link_status s;
     operating_status := operating_status s;
     producing := producing s |}.

(** The example with one source whose block reports [w] W and [va] VA. *)
Definition example_with_block (w va : Z) : SunSpecProxy :=
  set_sources_
    (map (with_raw_regs (example_block w va)) (sources_ example_one_source))
    example_one_source.

(** A port block as the DTU reports it: serial "112335475901", PV 35 V
    and 10 A, grid 230 V at 49.99 Hz, 650 W, 1234 Wh today, 12340 Wh in
    total, 42 degrees. *)
Definition example_port_block : list Z :=
  [0; 12593; 12851; 13109; 13367; 13625; 12337; 0;
   35; 20; 230; 4999; 650; 0; 1234; 0; 12340; 42]
  ++ replicate 22 0.

(** The same block with the serial number "1123354759" followed by two
    spaces. *)
Definition example_padded_block : list Z := <[6%nat := 8224]> example_port_block.

(** The response frame of the DTU (address 126) carrying [block]. *)
Definition rtu_response (block : list Z) : list Z :=
  let body := [126; 3; 2 * Z.of_nat (length block)] ++ words_be block in
  let crc := calc_crc16_ body (length body) in
  body ++ [crc mod 256; crc / 256].

(** The example when the response to the first request has arrived. *)
Definition example_response_arrived : SunSpecProxy :=
  set_uart_rx_ (rtu_response example_port_block) example_poll_in_flight.

(** Two three-phase sources rated 40 kW and 30 kW, before [setup()]. *)
Definition example_large_ratings : SunSpecProxy :=
  add_rtu_source 1 3 30000 0 4 "big2" "" ""
    (add_rtu_source 0 3 40000 0 4 "big1" "" "" example_unconfigured).

(** The example with two sources, both valid, whose register blocks
    report 650 W and a lifetime energy of 12340 Wh each. *)
Definition example_with_energy : SunSpecProxy :=
  set_sources_
    (map (with_raw_regs (<[(INV_WH + 1)%nat := 12340]> (example_block 650 650)))
       (sources_ example_two_sources))
    example_two_sources.

(** A valid source whose block reports 16777217 Wh (2^24 + 1). *)
Definition example_large_energy : RtuSource :=
  with_raw_regs
    (<[(INV_WH + 1)%nat := 1]> (<[INV_WH := 256]> (replicate MODEL_103_SIZE 0)))
    (new_source 0 1 800 1 2 "inv1" "HMS-800-2T" "").


(** A read of the two registers at 40000 by unit 126. *)
Definition read_suns_request : list Z :=
  [0; 1; 0; 0; 0; 6; 126; 3; 156; 64; 0; 2].

(** What [recv()] returns in the example: the client on descriptor 5
    sends a read request, the one on 7 has closed, nothing else is
    pending. *)
Definition example_recv (fd : Z) : recv_result :=
  if fd =? 5 then Received read_suns_request
  else if fd =? 7 then Closed
  else WouldBlock.

(** * Properties *)

(** ** Words and bytes *)

Lemma u16_range z : is_u16 (u16 z).
Proof. unfold is_u16, u16. apply Z.mod_pos_bound. lia. Qed.

Lemma u8_range z : is_u8 (u8 z).
Proof. unfold is_u8, u8. apply Z.mod_pos_bound. lia. Qed.

Lemma u16_small z : is_u16 z -> u16 z = z.
Proof. unfold is_u16, u16. intros H. apply Z.mod_small. lia. Qed.

Lemma u8_small z : is_u8 z -> u8 z = z.
Proof. unfold is_u8, u8. intros H. apply Z.mod_small. lia. Qed.

Lemma be16_range p i : is_u16 (be16 p i).
Proof. apply u16_range. Qed.

(** [hi << 8 | lo] for a byte [lo]. *)
Lemma lor_shiftl_8 hi lo :
  0 <= hi -> is_u8 lo -> Z.lor (Z.shiftl hi 8) lo = 256 * hi + lo.
Proof.
  intros Hhi [Hlo1 Hlo2].
  rewrite Z.shiftl_mul_pow2 by lia.
  rewrite <- Z.lxor_lor.
  - rewrite <- Z.add_nocarry_lxor; [change (2 ^ 8) with 256; lia |].
    apply Z.bits_inj'. intros n Hn. rewrite Z.land_spec, Z.bits_0.
    destruct (Z.lt_ge_cases n 8) as [Hlt | Hge].
    + rewrite Z.mul_pow2_bits_low by lia. reflexivity.
    + rewrite (Z.bits_above_log2 lo n), andb_false_r; [reflexivity | lia |].
      destruct (Z.eq_dec lo 0) as [-> | Hne]; [simpl; lia |].
      apply Z.lt_le_trans with 8; [| lia].
      apply Z.log2_lt_pow2; lia.
  - apply Z.bits_inj'. intros n Hn. rewrite Z.land_spec, Z.bits_0.
    destruct (Z.lt_ge_cases n 8) as [Hlt | Hge].
    + rewrite Z.mul_pow2_bits_low by lia. reflexivity.
    + rewrite (Z.bits_above_log2 lo n), andb_false_r; [reflexivity | lia |].
      destruct (Z.eq_dec lo 0) as [-> | Hne]; [simpl; lia |].
      apply Z.lt_le_trans with 8; [| lia].
      apply Z.log2_lt_pow2; lia.
Qed.

(** [put_be16] splits a 16-bit word into its high and low byte. *)
Lemma put_be16_bytes v : is_u16 v -> put_be16 v = [v / 256; v mod 256].
Proof.
  intros [H1 H2]. unfold put_be16, u8.
  rewrite Z.shiftr_div_pow2 by lia.
  change 255 with (Z.ones 8). rewrite Z.land_ones by lia.
  change (2 ^ 8) with 256.
  rewrite (Z.mod_small (v / 256)).
  - rewrite Z.mod_mod by lia. reflexivity.
  - split; [apply Z.div_pos; lia | apply Z.div_lt_upper_bound; lia].
Qed.

Lemma put_be16_length v : length (put_be16 v) = 2%nat.
Proof. reflexivity. Qed.

(** Reading back the two bytes written by [put_be16]. *)
Lemma be16_put_be16 v pre post :
  is_u16 v -> be16 (pre ++ put_be16 v ++ post) (length pre) = v.
Proof.
  intros Hv. rewrite put_be16_bytes by assumption. unfold be16.
  replace (S (length pre)) with (length pre + 1)%nat by lia.
  rewrite !app_nth2_plus. rewrite <- (Nat.add_0_r (length pre)) at 1.
  rewrite app_nth2_plus. simpl nth.
  destruct Hv as [H1 H2].
  rewrite lor_shiftl_8.
  - rewrite u16_small; [| unfold is_u16]; pose proof (Z.div_mod v 256); lia.
  - apply Z.div_pos; lia.
  - unfold is_u8. apply Z.mod_pos_bound. lia.
Qed.

(** ** Effects *)

Lemma tcp_sent_app a b : tcp_sent (a ++ b) = tcp_sent a ++ tcp_sent b.
Proof. unfold tcp_sent. apply flat_map_app. Qed.

Lemma uart_written_app a b : uart_written (a ++ b) = uart_written a ++ uart_written b.
Proof. unfold uart_written. apply flat_map_app. Qed.

Lemma emit_nil st : emit [] st = st.
Proof. destruct st. unfold emit. simpl. rewrite app_nil_r. reflexivity. Qed.

Lemma emit_emit a b st : emit b (emit a st) = emit (a ++ b) st.
Proof. unfold emit. simpl. rewrite app_assoc. reflexivity. Qed.

Lemma fold_emit (f : Z -> RtuSource -> list event) srcs : forall st,
  fold_left (fun st s => emit (f (dtu_address_ st) s) st) srcs st
  = emit (flat_map (f (dtu_address_ st)) srcs) st.
Proof.
  induction srcs as [| s srcs IH]; intros st; simpl.
  - symmetry. apply emit_nil.
  - rewrite IH. simpl. apply emit_emit.
Qed.

(** [forward_power_limit_] changes nothing but the trace. *)
Lemma forward_power_limit_emit pct_raw enabled st :
  forward_power_limit_ pct_raw enabled st
  = emit (forward_events (dtu_address_ st) pct_raw enabled (sources_ st)) st.
Proof.
  unfold forward_power_limit_, forward_events.
  apply (fold_emit (fun dtu => forward_power_limit_source dtu pct_raw enabled)).
Qed.

(** [forward_power_limit_] sends nothing on a socket. *)
Lemma forward_events_tcp dtu pct_raw enabled srcs :
  tcp_sent (forward_events dtu pct_raw enabled srcs) = [].
Proof.
  unfold forward_events.
  induction srcs as [| s srcs IH]; simpl; [reflexivity |].
  rewrite tcp_sent_app, IH, app_nil_r.
  unfold forward_power_limit_source. destruct enabled; reflexivity.
Qed.

(** ** The TCP request counters *)

Lemma tcp_clock_write start count values st :
  tcp_clock (snd (write_sunspec_registers_ start count values st)) = tcp_clock st.
Proof.
  unfold write_sunspec_registers_.
  repeat match goal with
         | |- context [if ?b then _ else _] => destruct b
         end; simpl; try reflexivity.
  rewrite forward_power_limit_emit. reflexivity.
Qed.

Lemma tcp_clock_after_activity now client_fd buf st :
  8 <= Z.of_nat (length buf) -> be16 buf 2 = 0 ->
  tcp_clock (process_tcp_request_ now client_fd buf st)
  = (u32 (tcp_request_count_ st + 1), now).
Proof.
  intros Hlen Hproto. unfold process_tcp_request_.
  destruct (Z.ltb_spec (Z.of_nat (length buf)) 8) as [Hlt | _]; [lia |].
  rewrite Hproto. simpl negb. cbv iota.
  set (st1 := set_tcp_activity_ now (u32 (tcp_request_count_ st + 1)) st).
  assert (H1 : tcp_clock st1 = (u32 (tcp_request_count_ st + 1), now)) by reflexivity.
  repeat match goal with
         | |- context [if ?b then _ else _] => destruct b
         end; try exact H1.
  - destruct (read_sunspec_registers_ _ _ _); exact H1.
  - pose proof (tcp_clock_write (be16 buf 8) 1 [be16 buf 10] st1) as Hw.
    destruct (write_sunspec_registers_ _ _ _ _) as [[|] st2]; simpl in Hw;
      rewrite <- H1, <- Hw; reflexivity.
  - pose proof (tcp_clock_write (be16 buf 8) (be16 buf 10)
        (map (fun i => be16 buf (13 + i * 2)) (seq 0 (Z.to_nat (be16 buf 10)))) st1) as Hw.
    destruct (write_sunspec_registers_ _ _ _ _) as [[|] st2]; simpl in Hw;
      rewrite <- H1, <- Hw; reflexivity.
Qed.

(** ** Unit-id filter *)

(** C9. A request whose unit-id byte differs from the configured unit-id
    has no effect on the outside: the trace, and with it the list of
    frames sent on sockets, is the one before the call. *)
Theorem unit_id_mismatch_is_silent now client_fd buf st :
  nth 6 buf 0 <> unit_id (agg_config_ st) ->
  trace_ (process_tcp_request_ now client_fd buf st) = trace_ st
  /\ tcp_sent (trace_ (process_tcp_request_ now client_fd buf st)) = tcp_sent (trace_ st).
Proof.
  intros Hunit.
  assert (H : trace_ (process_tcp_request_ now client_fd buf st) = trace_ st).
  { unfold process_tcp_request_.
    destruct (Z.of_nat (length buf) <? 8); [reflexivity |].
    destruct (negb (be16 buf 2 =? 0)); [reflexivity |].
    simpl agg_config_.
    destruct (Z.eqb_spec (nth 6 buf 0) (unit_id (agg_config_ st))) as [Heq | _];
      [contradiction | reflexivity]. }
  split; [exact H | rewrite H; reflexivity].
Qed.

(** A read request for unit 1 on the example, which serves unit 126. *)
Lemma unit_id_mismatch_is_silent_witness :
  trace_ (process_tcp_request_ 1000 7 [0; 1; 0; 0; 0; 6; 1; 3; 156; 64; 0; 2]
            example_one_source) = trace_ example_one_source
  /\ tcp_sent (trace_ (process_tcp_request_ 1000 7 [0; 1; 0; 0; 0; 6; 1; 3; 156; 64; 0; 2]
            example_one_source)) = tcp_sent (trace_ example_one_source).
Proof.
  apply (unit_id_mismatch_is_silent 1000 7 [0; 1; 0; 0; 0; 6; 1; 3; 156; 64; 0; 2]
           example_one_source).
  vm_compute. discriminate.
Defined.

(** ** Request accounting *)

(** C10. A buffer of at least 8 bytes with protocol field 0 increments
    [tcp_request_count_] and stores the clock in [last_tcp_activity_ms_],
    whatever its unit-id is; any other buffer leaves both as they were. *)
Theorem tcp_request_accounting now client_fd buf st :
  tcp_clock (process_tcp_request_ now client_fd buf st)
  = if (8 <=? Z.of_nat (length buf)) && (be16 buf 2 =? 0)
    then (u32 (tcp_request_count_ st + 1), now)
    else (tcp_request_count_ st, last_tcp_activity_ms_ st).
Proof.
  destruct (Z.leb_spec 8 (Z.of_nat (length buf))) as [Hlen | Hlen]; simpl andb.
  - destruct (Z.eqb_spec (be16 buf 2) 0) as [Hproto | Hproto].
    + apply tcp_clock_after_activity; assumption.
    + unfold process_tcp_request_.
      destruct (Z.of_nat (length buf) <? 8); [reflexivity |].
      destruct (Z.eqb_spec (be16 buf 2) 0); [contradiction | reflexivity].
  - unfold process_tcp_request_.
    destruct (Z.ltb_spec (Z.of_nat (length buf)) 8); [reflexivity | lia].
Qed.

(** ** The frames the server sends *)

Lemma send_tcp_response_frame client_fd txn unit fc data st :
  is_u16 txn -> 2 + Z.of_nat (length data) < 65536 ->
  send_tcp_response_ client_fd txn unit fc data st
  = emit [TcpSend client_fd (mbap_frame txn unit fc data)] st.
Proof.
  intros Htxn Hlen. unfold send_tcp_response_, mbap_frame.
  rewrite (put_be16_bytes txn) by assumption.
  rewrite (put_be16_bytes 0) by (unfold is_u16; lia).
  replace (1 + 1 + Z.of_nat (length data)) with (2 + Z.of_nat (length data)) by lia.
  rewrite u16_small by (unfold is_u16; lia).
  rewrite put_be16_bytes by (unfold is_u16; lia).
  reflexivity.
Qed.

Lemma flat_map_put_be16 ws :
  Forall is_u16 ws -> flat_map put_be16 ws = words_be ws.
Proof.
  induction 1 as [| w ws Hw _ IH]; [reflexivity |].
  unfold words_be in *. cbn [flat_map]. rewrite IH, put_be16_bytes by assumption.
  reflexivity.
Qed.

Lemma words_be_length ws : length (words_be ws) = (2 * length ws)%nat.
Proof.
  unfold words_be. induction ws as [| w ws IH]; simpl; [reflexivity | rewrite IH; lia].
Qed.

(** ** Read Holding Registers *)

(** C2. A complete Read Holding Registers request for the configured
    unit is answered by exactly one frame: exception 3 when the count
    exceeds 125; otherwise exception 2 when the range does not lie in
    the image; otherwise the byte count and the requested words of the
    image, high byte first.  The image is not changed. *)
Theorem read_holding_registers_response now client_fd buf st :
  12 <= Z.of_nat (length buf) ->
  be16 buf 2 = 0 ->
  nth 6 buf 0 = unit_id (agg_config_ st) ->
  nth 7 buf 0 = 3 ->
  length (register_map_ st) = TOTAL_REGS ->
  Forall is_u16 (register_map_ st) ->
  let txn := be16 buf 0 in
  let start := be16 buf 8 in
  let count := be16 buf 10 in
  let st' := process_tcp_request_ now client_fd buf st in
  let words :=
    take (Z.to_nat count) (drop (Z.to_nat (start - 40000)) (register_map_ st)) in
  trace_ st' = trace_ st ++
    [TcpSend client_fd
       (if 125 <? count then exception_frame txn (unit_id (agg_config_ st)) 3 3
        else if (start <? 40000) || (178 <? start - 40000 + count)
             then exception_frame txn (unit_id (agg_config_ st)) 3 2
             else mbap_frame txn (unit_id (agg_config_ st)) 3
                    (2 * count :: words_be words))]
  /\ register_map_ st' = register_map_ st
  /\ (count <= 125 -> 40000 <= start -> start - 40000 + count <= 178 ->
      length words = Z.to_nat count).
Proof.
  intros Hlen Hproto Hunit Hfc Himg Hwords txn start count st' words.
  pose proof (be16_range buf 0) as Htxn.
  pose proof (be16_range buf 8) as Hstart.
  pose proof (be16_range buf 10) as Hcount.
  fold txn in Htxn. fold start in Hstart. fold count in Hcount.
  assert (Hlenw : count <= 125 -> 40000 <= start -> start - 40000 + count <= 178 ->
                  length words = Z.to_nat count).
  { intros H1 H2 H3. unfold words. rewrite length_take, length_drop, Himg.
    unfold TOTAL_REGS, is_u16 in *. lia. }
  subst st'. unfold process_tcp_request_.
  destruct (Z.ltb_spec (Z.of_nat (length buf)) 8) as [? | _]; [lia |].
  rewrite Hproto. simpl negb. cbv iota.
  simpl agg_config_. rewrite Hunit, Z.eqb_refl. simpl negb. cbv iota.
  rewrite Hfc. change (3 =? 3) with true. cbv iota.
  destruct (Z.ltb_spec (Z.of_nat (length buf)) 12) as [? | _]; [lia |].
  fold txn start count.
  destruct (Z.ltb_spec 125 count) as [Hbig | Hsmall].
  - (* count > 125 *)
    unfold count_tcp_error, send_tcp_error_.
    rewrite send_tcp_response_frame by (simpl; unfold is_u16 in *; lia).
    repeat split; try reflexivity. intros; lia.
  - unfold read_sunspec_registers_, SUNSPEC_BASE.
    destruct (Z.ltb_spec start 40000) as [Hlow | Hhigh]; simpl orb.
    + unfold count_tcp_error, send_tcp_error_.
      rewrite send_tcp_response_frame by (simpl; unfold is_u16 in *; lia).
      repeat split; try reflexivity. intros; lia.
    + rewrite u16_small by (unfold is_u16 in *; lia).
      change (Z.of_nat TOTAL_REGS) with 178.
      destruct (Z.ltb_spec 178 (start - 40000 + count)) as [Hout | Hin].
      * unfold count_tcp_error, send_tcp_error_.
        rewrite send_tcp_response_frame by (simpl; unfold is_u16 in *; lia).
        repeat split; try reflexivity. intros; lia.
      * simpl register_map_. fold words.
        assert (Hw : Forall is_u16 words).
        { unfold words. apply Forall_take, Forall_drop. assumption. }
        rewrite flat_map_put_be16 by assumption.
        replace (u8 (count * 2)) with (2 * count)
          by (rewrite u8_small; unfold is_u8, is_u16 in *; lia).
        rewrite send_tcp_response_frame.
        -- repeat split; try reflexivity. assumption.
        -- assumption.
        -- simpl length. rewrite words_be_length, Hlenw by (unfold is_u16 in *; lia).
           unfold is_u16 in *. lia.
Qed.

Lemma Forall_is_u16_of_forallb l : forallb is_u16b l = true -> Forall is_u16 l.
Proof.
  induction l as [| x l IH]; simpl; intros H; constructor.
  - unfold is_u16b in H. unfold is_u16. lia.
  - apply IH. destruct (forallb is_u16b l); [reflexivity |].
    rewrite andb_false_r in H. discriminate.
Qed.

(** A read of two registers at 40000 on the example: the answer carries
    the "SunS" signature. *)
Lemma read_holding_registers_response_witness :
  trace_ (process_tcp_request_ 1000 7 [0; 1; 0; 0; 0; 6; 126; 3; 156; 64; 0; 2]
            example_one_source)
  = trace_ example_one_source
    ++ [TcpSend 7 [0; 1; 0; 0; 0; 7; 126; 3; 4; 83; 117; 110; 83]].
Proof.
  apply (read_holding_registers_response 1000 7
           [0; 1; 0; 0; 0; 6; 126; 3; 156; 64; 0; 2] example_one_source).
  - simpl. lia.
  - reflexivity.
  - reflexivity.
  - reflexivity.
  - reflexivity.
  - apply Forall_is_u16_of_forallb. vm_compute. reflexivity.
Defined.

(** ** Loops over a range of an array *)

(** [for (i = 0; i < n; i++) regs[off + i] = g(i);] replaces the [n]
    words from [off] on. *)
Lemma fold_insert_seq (g : nat -> Z) off n : forall regs,
  (off + n <= length regs)%nat ->
  fold_left (fun r i => <[(off + i)%nat := g i]> r) (seq 0 n) regs
  = take off regs ++ map g (seq 0 n) ++ drop (off + n) regs.
Proof.
  induction n as [| n IH]; intros regs Hlen.
  - simpl. rewrite Nat.add_0_r, take_drop. reflexivity.
  - rewrite seq_S, fold_left_app, map_app. simpl fold_left. simpl map.
    rewrite IH by lia.
    rewrite insert_app_r_alt by (rewrite length_take; lia).
    rewrite length_take, Nat.min_l by lia.
    rewrite insert_app_r_alt by (rewrite length_map, length_seq; lia).
    rewrite length_map, length_seq.
    replace (off + n - off - n)%nat with 0%nat by lia.
    destruct (drop (off + n) regs) as [| x rest] eqn:Hdrop.
    + apply (f_equal length) in Hdrop. rewrite length_drop in Hdrop. simpl in Hdrop. lia.
    + assert (Hrest : rest = drop (off + S n) regs).
      { replace (off + S n)%nat with (off + n + 1)%nat by lia.
        rewrite <- drop_drop, Hdrop. reflexivity. }
      rewrite <- Hrest. simpl. rewrite <- app_assoc. reflexivity.
Qed.

Lemma map_nth_seq (l : list Z) : map (fun i => nth i l 0) (seq 0 (length l)) = l.
Proof.
  induction l as [| x l IH] using rev_ind; [reflexivity |].
  rewrite length_app. simpl length. rewrite Nat.add_1_r, seq_S, map_app. simpl.
  rewrite app_nth2, Nat.sub_diag by lia. simpl. f_equal.
  rewrite <- IH at 2. apply map_ext_in. intros i Hi. apply in_seq in Hi.
  rewrite app_nth1 by lia. reflexivity.
Qed.

Lemma fill_spec off n v regs :
  (off + n <= length regs)%nat ->
  fill off n v regs = take off regs ++ replicate n v ++ drop (off + n) regs.
Proof.
  intros H. unfold fill. rewrite (fold_insert_seq (fun _ => v)) by assumption.
  f_equal. f_equal. clear H. generalize 0%nat.
  induction n as [| n IH]; intros k; simpl; [reflexivity | rewrite IH; reflexivity].
Qed.

(** ** The writable region *)

Lemma write_touches_control_spec off count :
  write_touches_control off count
  = covers_control (Z.of_nat off) (Z.of_nat count).
Proof.
  apply eq_true_iff_eq. unfold write_touches_control, covers_control.
  rewrite existsb_exists. split.
  - intros [r [Hin Hr]]. apply in_seq in Hin.
    apply orb_true_iff in Hr. change (OFF_M123 + 2 + 5)%nat with 157%nat in Hr.
    change (OFF_M123 + 2 + 8)%nat with 160%nat in Hr.
    rewrite !Nat.eqb_eq in Hr. lia.
  - intros H. change (OFF_M123 + 2 + 5)%nat with 157%nat.
    change (OFF_M123 + 2 + 8)%nat with 160%nat.
    destruct ((Z.of_nat off <=? 157) && (157 <? Z.of_nat off + Z.of_nat count)) eqn:H1.
    + exists 157%nat. split; [apply in_seq; lia | reflexivity].
    + exists 160%nat. split; [apply in_seq; lia | reflexivity].
Qed.

(** What [write_sunspec_registers_] does, in one equation: outside the
    region nothing; inside, the words are stored and, when the range
    contains a control word, the limit is forwarded. *)
Lemma write_sunspec_registers_spec start count values st :
  is_u16 start -> 0 <= count ->
  length values = Z.to_nat count ->
  length (register_map_ st) = TOTAL_REGS ->
  write_sunspec_registers_ start count values st
  = if in_model_123 start count then
      let off := Z.to_nat (start - 40000) in
      let regs :=
        take off (register_map_ st) ++ values
          ++ drop (off + length values) (register_map_ st) in
      let st1 := set_register_map_ regs st in
      (true,
       if covers_control (start - 40000) count
       then emit (forward_events (dtu_address_ st) (reg regs 157) (reg regs 160 =? 1)
                    (sources_ st)) st1
       else st1)
    else (false, st).
Proof.
  intros Hstart Hcount Hlen Himg.
  unfold write_sunspec_registers_, in_model_123, SUNSPEC_BASE.
  destruct (Z.ltb_spec start 40000) as [Hlow | Hhigh].
  { destruct (Z.leb_spec 40000 start); [lia | reflexivity]. }
  destruct (Z.leb_spec 40000 start) as [_ | ?]; [| lia]. simpl andb.
  rewrite u16_small by (unfold is_u16 in *; lia).
  change (Z.of_nat (OFF_M123 + 2)) with 152. change (Z.of_nat OFF_END) with 176.
  destruct (Z.ltb_spec (start - 40000) 152) as [H1 | H1].
  { destruct (Z.leb_spec 152 (start - 40000)); [lia | reflexivity]. }
  destruct (Z.leb_spec 152 (start - 40000)) as [_ | ?]; [| lia]. simpl.
  destruct (Z.ltb_spec 176 (start - 40000 + count)) as [H2 | H2].
  { destruct (Z.leb_spec (start - 40000 + count) 176); [lia | reflexivity]. }
  destruct (Z.leb_spec (start - 40000 + count) 176) as [_ | ?]; [| lia].
  rewrite (fold_insert_seq (fun i => nth i values 0))
    by (rewrite Himg; unfold TOTAL_REGS; lia).
  rewrite <- Hlen, map_nth_seq.
  rewrite write_touches_control_spec, Hlen, !Z2Nat.id by lia.
  change (OFF_M123 + 2 + 5)%nat with 157%nat.
  change (OFF_M123 + 2 + 8)%nat with 160%nat.
  rewrite <- Hlen.
  destruct (covers_control (start - 40000) count); [| reflexivity].
  rewrite forward_power_limit_emit. reflexivity.
Qed.

(** ** Write requests *)

(** A whole write request: stored and echoed inside the region,
    exception 2 outside. *)
Lemma write_request_whole now client_fd buf st :
  be16 buf 2 = 0 ->
  nth 6 buf 0 = unit_id (agg_config_ st) ->
  nth 7 buf 0 = 6 \/ nth 7 buf 0 = 16 ->
  write_complete buf = true ->
  length (register_map_ st) = TOTAL_REGS ->
  let txn := be16 buf 0 in
  let fc := nth 7 buf 0 in
  let start := be16 buf 8 in
  let values := write_values buf in
  let off := Z.to_nat (start - 40000) in
  let st' := process_tcp_request_ now client_fd buf st in
  if in_model_123 start (Z.of_nat (length values))
  then register_map_ st'
       = take off (register_map_ st) ++ values
           ++ drop (off + length values) (register_map_ st)
       /\ tcp_sent (trace_ st')
          = tcp_sent (trace_ st)
            ++ [(client_fd,
                 mbap_frame txn (unit_id (agg_config_ st)) fc
                   (words_be [start; be16 buf 10]))]
  else register_map_ st' = register_map_ st
       /\ trace_ st'
          = trace_ st
            ++ [TcpSend client_fd (exception_frame txn (unit_id (agg_config_ st)) fc 2)].
Proof.
  intros Hproto Hunit Hfc Hwhole Himg txn fc start values off st'.
  pose proof (be16_range buf 0) as Htxn.
  pose proof (be16_range buf 8) as Hstart.
  pose proof (be16_range buf 10) as Hword.
  assert (Hcount : exists count,
             0 <= count /\ length values = Z.to_nat count
             /\ (fc = 6 -> count = 1) /\ (fc = 16 -> count = be16 buf 10)).
  { subst values fc. unfold write_values. destruct Hfc as [-> | ->]; simpl.
    - exists 1. repeat split; try lia.
    - exists (be16 buf 10). rewrite length_map, length_seq.
      unfold is_u16 in Hword. repeat split; try lia. }
  destruct Hcount as [count [Hc0 [Hclen [Hc6 Hc16]]]].
  assert (Hn : Z.of_nat (length values) = count) by lia.
  rewrite Hn. clear Hn.
  pose proof (write_sunspec_registers_spec start count values (set_tcp_activity_ now
                (u32 (tcp_request_count_ st + 1)) st) Hstart Hc0 Hclen Himg) as Hw.
  assert (Hlen8 : 12 <= Z.of_nat (length buf)).
  { unfold write_complete in Hwhole. unfold is_u16 in Hword.
    destruct Hfc as [H | H]; rewrite H in Hwhole; simpl in Hwhole; lia. }
  subst st'. unfold process_tcp_request_.
  destruct (Z.ltb_spec (Z.of_nat (length buf)) 8) as [? | _]; [lia |].
  rewrite Hproto. simpl negb. cbv iota.
  simpl agg_config_. rewrite Hunit, Z.eqb_refl. simpl negb. cbv iota.
  fold txn start.
  destruct Hfc as [H6 | H16].
  - (* Write Single Register *)
    rewrite H6. change (6 =? 3) with false. change (6 =? 6) with true. cbv iota.
    destruct (Z.ltb_spec (Z.of_nat (length buf)) 12) as [? | _]; [lia |].
    assert (Hv : write_values buf = [be16 buf 10]).
    { unfold write_values. rewrite H6. reflexivity. }
    pose proof (Hc6 H6) as Hc. subst count values. rewrite Hv in *. rewrite Hw.
    destruct (in_model_123 start 1).
    + cbv zeta. unfold fc. rewrite H6.
      rewrite !put_be16_bytes by assumption.
      rewrite send_tcp_response_frame by (simpl; unfold is_u16 in *; lia).
      split; [destruct (covers_control _ _); reflexivity |].
      destruct (covers_control _ _); simpl trace_; rewrite ?tcp_sent_app;
        rewrite ?forward_events_tcp, ?app_nil_r; reflexivity.
    + unfold count_tcp_error, send_tcp_error_. unfold fc. rewrite H6.
      rewrite send_tcp_response_frame by (simpl; unfold is_u16 in *; lia).
      split; reflexivity.
  - (* Write Multiple Registers *)
    rewrite H16. change (16 =? 3) with false. change (16 =? 6) with false.
    change (16 =? 16) with true. cbv iota.
    unfold write_complete in Hwhole. rewrite H16 in Hwhole. simpl in Hwhole.
    apply andb_prop in Hwhole. destruct Hwhole as [Hle Hall].
    destruct (Z.ltb_spec (Z.of_nat (length buf)) 13) as [? | _];
      [unfold is_u16 in Hword; lia |].
    destruct (Z.ltb_spec (Z.of_nat (length buf)) (13 + be16 buf 10 * 2)) as [? | _];
      [lia |].
    destruct (Z.ltb_spec 100 (be16 buf 10)) as [? | _]; [lia |]. simpl orb. cbv iota.
    assert (Hv : write_values buf
                 = map (fun i => be16 buf (13 + i * 2)) (seq 0 (Z.to_nat (be16 buf 10)))).
    { unfold write_values. rewrite H16. reflexivity. }
    pose proof (Hc16 H16) as Hc. subst count values. rewrite Hv in *. rewrite Hw.
    destruct (in_model_123 start (be16 buf 10)).
    + cbv zeta. unfold fc. rewrite H16.
      rewrite !put_be16_bytes by assumption.
      rewrite send_tcp_response_frame by (simpl; unfold is_u16 in *; lia).
      split; [destruct (covers_control _ _); reflexivity |].
      destruct (covers_control _ _); simpl trace_; rewrite ?tcp_sent_app;
        rewrite ?forward_events_tcp, ?app_nil_r; reflexivity.
    + unfold count_tcp_error, send_tcp_error_. unfold fc. rewrite H16.
      rewrite send_tcp_response_frame by (simpl; unfold is_u16 in *; lia).
      split; reflexivity.
Qed.

(** A Write Multiple Registers request with more than 100 values, or
    with values missing, gets exception 3 before its range is looked
    at. *)
Lemma write_request_not_whole now client_fd buf st :
  be16 buf 2 = 0 ->
  nth 6 buf 0 = unit_id (agg_config_ st) ->
  nth 7 buf 0 = 16 ->
  13 <= Z.of_nat (length buf) ->
  write_complete buf = false ->
  register_map_ (process_tcp_request_ now client_fd buf st) = register_map_ st
  /\ trace_ (process_tcp_request_ now client_fd buf st)
     = trace_ st
       ++ [TcpSend client_fd
             (exception_frame (be16 buf 0) (unit_id (agg_config_ st)) 16 3)].
Proof.
  intros Hproto Hunit Hfc Hlen Hwhole.
  pose proof (be16_range buf 0) as Htxn.
  unfold process_tcp_request_.
  destruct (Z.ltb_spec (Z.of_nat (length buf)) 8) as [? | _]; [lia |].
  rewrite Hproto. simpl negb. cbv iota.
  simpl agg_config_. rewrite Hunit, Z.eqb_refl. simpl negb. cbv iota.
  rewrite Hfc. change (16 =? 3) with false. change (16 =? 6) with false.
  change (16 =? 16) with true. cbv iota.
  destruct (Z.ltb_spec (Z.of_nat (length buf)) 13) as [? | _]; [lia |].
  unfold write_complete in Hwhole. rewrite Hfc in Hwhole.
  change (16 =? 6) with false in Hwhole. cbv iota in Hwhole.
  assert (Hcond : (Z.of_nat (length buf) <? 13 + be16 buf 10 * 2) || (100 <? be16 buf 10)
                  = true).
  { apply andb_false_iff in Hwhole. apply orb_true_iff.
    destruct Hwhole as [H | H]; [right | left]; lia. }
  rewrite Hcond. unfold count_tcp_error, send_tcp_error_.
  rewrite send_tcp_response_frame by (simpl; unfold is_u16 in *; lia).
  split; reflexivity.
Qed.

(** A write request that stops before its fixed fields is dropped. *)
Lemma write_request_truncated now client_fd buf st :
  be16 buf 2 = 0 ->
  nth 6 buf 0 = unit_id (agg_config_ st) ->
  nth 7 buf 0 = 6 \/ nth 7 buf 0 = 16 ->
  write_fields_received buf = false ->
  register_map_ (process_tcp_request_ now client_fd buf st) = register_map_ st
  /\ trace_ (process_tcp_request_ now client_fd buf st) = trace_ st.
Proof.
  intros Hproto Hunit Hfc Hshort.
  unfold write_fields_received in Hshort.
  unfold process_tcp_request_. cbv zeta.
  destruct (Z.ltb_spec (Z.of_nat (length buf)) 8) as [? | _]; [split; reflexivity |].
  rewrite Hproto. cbn [negb Z.eqb].
  cbn [agg_config_ set_tcp_activity_]. rewrite Hunit, Z.eqb_refl. cbn [negb].
  destruct Hfc as [Hfc | Hfc]; rewrite Hfc in *; cbn [Z.eqb Pos.eqb] in *.
  - destruct (Z.ltb_spec (Z.of_nat (length buf)) 12); [split; reflexivity | lia].
  - destruct (Z.ltb_spec (Z.of_nat (length buf)) 13); [split; reflexivity | lia].
Qed.

(** C3, as amended.  A write request for the configured unit (function
    6 or 16).  When its fixed fields have not all been received (12
    bytes for function 6, 13 for function 16), nothing is sent and the
    image is unchanged.  Otherwise, when it is whole (function 6;
    function 16 with at most 100 values, all received): if its range
    lies in the payload of Model 123 the words are stored as given,
    nothing else in the image changes, and the one frame sent is the
    echo of address and value (or count); if not, the image is
    unchanged and the one frame sent is exception 2.  When the fields
    are there and the request is not whole, the image is unchanged and
    the one frame sent is exception 3. *)
Theorem write_request_region now client_fd buf st :
  be16 buf 2 = 0 ->
  nth 6 buf 0 = unit_id (agg_config_ st) ->
  nth 7 buf 0 = 6 \/ nth 7 buf 0 = 16 ->
  length (register_map_ st) = TOTAL_REGS ->
  let txn := be16 buf 0 in
  let fc := nth 7 buf 0 in
  let start := be16 buf 8 in
  let values := write_values buf in
  let off := Z.to_nat (start - 40000) in
  let st' := process_tcp_request_ now client_fd buf st in
  if write_fields_received buf then
    if write_complete buf then
      if in_model_123 start (Z.of_nat (length values))
      then register_map_ st'
           = take off (register_map_ st) ++ values
               ++ drop (off + length values) (register_map_ st)
           /\ tcp_sent (trace_ st')
              = tcp_sent (trace_ st)
                ++ [(client_fd,
                     mbap_frame txn (unit_id (agg_config_ st)) fc
                       (words_be [start; be16 buf 10]))]
      else register_map_ st' = register_map_ st
           /\ trace_ st'
              = trace_ st
                ++ [TcpSend client_fd
                      (exception_frame txn (unit_id (agg_config_ st)) fc 2)]
    else register_map_ st' = register_map_ st
         /\ trace_ st'
            = trace_ st
              ++ [TcpSend client_fd (exception_frame txn (unit_id (agg_config_ st)) fc 3)]
  else register_map_ st' = register_map_ st /\ trace_ st' = trace_ st.
Proof.
  intros Hproto Hunit Hfc Himg txn fc start values off st'.
  destruct (write_fields_received buf) eqn:Hfields.
  - destruct (write_complete buf) eqn:Hwhole.
    + apply (write_request_whole now client_fd buf st); assumption.
    + unfold write_fields_received in Hfields.
      destruct Hfc as [H6 | H16].
      * unfold write_complete in Hwhole. rewrite H6 in Hwhole, Hfields.
        change (6 =? 6) with true in Hwhole, Hfields. cbv iota in Hwhole, Hfields.
        congruence.
      * rewrite H16 in Hfields. change (16 =? 6) with false in Hfields.
        cbv iota in Hfields.
        subst st' fc txn. rewrite H16.
        apply write_request_not_whole; try assumption. lia.
  - apply write_request_truncated; assumption.
Qed.

Lemma write_request_region_witness :
  register_map_ (process_tcp_request_ 1000 7 write_limit_50_request example_one_source)
  = take 157 (register_map_ example_one_source) ++ [500]
      ++ drop 158 (register_map_ example_one_source)
  /\ tcp_sent (trace_ (process_tcp_request_ 1000 7 write_limit_50_request
                         example_one_source))
     = [(7, [0; 2; 0; 0; 0; 6; 126; 6; 156; 221; 1; 244])].
Proof.
  assert (Hlen : length (register_map_ example_one_source) = TOTAL_REGS)
    by (vm_compute; reflexivity).
  pose proof (write_request_region 1000 7 write_limit_50_request example_one_source
                eq_refl eq_refl (or_introl eq_refl) Hlen) as H.
  cbv zeta in H.
  assert (E1 : write_fields_received write_limit_50_request = true)
    by (vm_compute; reflexivity).
  assert (E2 : write_complete write_limit_50_request = true)
    by (vm_compute; reflexivity).
  assert (E3 : in_model_123 (be16 write_limit_50_request 8)
                 (Z.of_nat (length (write_values write_limit_50_request))) = true)
    by (vm_compute; reflexivity).
  rewrite E1, E2, E3 in H. exact H.
Defined.

(** C3, counterexample.  The range of 101 registers from 40152 does not
    lie in the payload of Model 123, and the request is answered with
    exception 3, not exception 2.  The register 40000 does not lie in
    it either, and the request for it that stops after 12 bytes is not
    answered at all. *)
Lemma write_outside_region_gets_exception_3 :
  in_model_123 (be16 write_101_registers_request 8)
     (Z.of_nat (length (write_values write_101_registers_request))) = false
  /\ tcp_sent (trace_ (process_tcp_request_ 1000 7 write_101_registers_request
                         example_one_source))
     = [(7, exception_frame 5 126 16 3)]
  /\ exception_frame 5 126 16 3 <> exception_frame 5 126 16 2
  /\ nth 6 short_write_request 0 = unit_id (agg_config_ example_one_source)
  /\ nth 7 short_write_request 0 = 16
  /\ in_model_123 (be16 short_write_request 8) (be16 short_write_request 10) = false
  /\ trace_ (process_tcp_request_ 1000 7 short_write_request example_one_source)
     = trace_ example_one_source
  /\ tcp_sent (trace_ (process_tcp_request_ 1000 7 short_write_request
                         example_one_source))
     = [].
Proof.
  split; [vm_compute; reflexivity |].
  split; [vm_compute; reflexivity |].
  split; [vm_compute; discriminate |].
  split; [vm_compute; reflexivity |].
  split; [vm_compute; reflexivity |].
  split; [vm_compute; reflexivity |].
  split; vm_compute; reflexivity.
Qed.

(** ** Forwarding trigger *)

(** C5, as amended.  After a successful write the limit is forwarded if
    and only if the written range contains [WMaxLimPct] (offset 157) or
    [WMaxLim_Ena] (offset 160), with the values the two words have after
    the write; whether they differ from the values before plays no part. *)
Theorem power_limit_forward_trigger start count values st st' :
  is_u16 start -> 0 <= count ->
  length values = Z.to_nat count ->
  length (register_map_ st) = TOTAL_REGS ->
  write_sunspec_registers_ start count values st = (true, st') ->
  trace_ st'
  = trace_ st
    ++ (if covers_control (start - 40000) count
        then forward_events (dtu_address_ st)
               (reg (register_map_ st') 157) (reg (register_map_ st') 160 =? 1)
               (sources_ st)
        else []).
Proof.
  intros Hstart Hcount Hlen Himg Hw.
  rewrite write_sunspec_registers_spec in Hw by assumption.
  destruct (in_model_123 start count); [| discriminate].
  cbv zeta in Hw. injection Hw as <-.
  destruct (covers_control (start - 40000) count); simpl.
  - reflexivity.
  - rewrite app_nil_r. reflexivity.
Qed.

Lemma power_limit_forward_trigger_witness :
  trace_ (snd (write_sunspec_registers_ 40157 1 [500] example_one_source))
  = trace_ example_one_source
    ++ [UartWrite (rtu_frame 126 6 49159 100); UartFlush; Delay 100].
Proof.
  apply (power_limit_forward_trigger 40157 1 [500] example_one_source
           (snd (write_sunspec_registers_ 40157 1 [500] example_one_source))).
  - unfold is_u16. lia.
  - lia.
  - reflexivity.
  - reflexivity.
  - vm_compute. reflexivity.
Defined.

(** C5, counterexample.  Writing 1000 to [WMaxLimPct], which holds 1000
    already, leaves the whole image (and so both control words) as it
    was, and the limit is forwarded all the same: one frame goes out on
    the UART. *)
Lemma unchanged_control_word_still_forwards :
  register_map_ (process_tcp_request_ 1000 7 rewrite_limit_100_request example_one_source)
  = register_map_ example_one_source
  /\ uart_written (trace_ example_one_source) = []
  /\ uart_written (trace_ (process_tcp_request_ 1000 7 rewrite_limit_100_request
                             example_one_source))
     = [rtu_frame 126 6 49159 100]
  /\ decode_rtu_frame (rtu_frame 126 6 49159 100)
     = Some (WriteSingleRegister 126 49159 100).
Proof.
  split; [vm_compute; reflexivity |].
  split; [vm_compute; reflexivity |].
  split; vm_compute; reflexivity.
Qed.

(** ** Bus sharing *)

(** C6.  The first pass of [loop()] sends the poll request and sets
    [rtu_busy_].  In the next pass, with the response still awaited, a
    write of [WMaxLim_Ena := 1] arrives at 5100: two more frames go out
    on the UART, the limit and the ON coil, and [rtu_busy_] is set
    before and after.  The poller runs after the two delays of 100 ms
    and reads 5300. *)
Theorem power_limit_write_during_poll :
  example_poll_in_flight = loop 5000 5000 7 None example_one_source
  /\ rtu_busy_ example_poll_in_flight = true
  /\ uart_written (trace_ example_poll_in_flight) = [rtu_frame 126 3 4096 40]
  /\ rtu_busy_ (loop 5100 5300 7 (Some enable_limit_request) example_poll_in_flight) = true
  /\ uart_written
       (trace_ (loop 5100 5300 7 (Some enable_limit_request) example_poll_in_flight))
     = [rtu_frame 126 3 4096 40; rtu_frame 126 6 49159 100; rtu_frame 126 5 49158 65280].
Proof.
  split; [reflexivity |].
  split; [vm_compute; reflexivity |].
  split; [vm_compute; reflexivity |].
  split; vm_compute; reflexivity.
Qed.

(** ** CRC and RTU frames *)

Lemma lxor_u16 a b : is_u16 a -> is_u16 b -> is_u16 (Z.lxor a b).
Proof.
  unfold is_u16. intros [Ha1 Ha2] [Hb1 Hb2].
  assert (H0 : 0 <= Z.lxor a b) by (apply Z.lxor_nonneg; tauto).
  split; [exact H0 |].
  destruct (Z.eq_dec (Z.lxor a b) 0) as [-> | Hne]; [lia |].
  change 65536 with (2 ^ 16). apply Z.log2_lt_pow2; [lia |].
  pose proof (Z.log2_lxor a b Ha1 Hb1) as Hl.
  assert (Z.log2 a < 16).
  { destruct (Z.eq_dec a 0) as [-> | ?]; [simpl; lia |].
    apply Z.log2_lt_pow2; [lia | exact Ha2]. }
  assert (Z.log2 b < 16).
  { destruct (Z.eq_dec b 0) as [-> | ?]; [simpl; lia |].
    apply Z.log2_lt_pow2; [lia | exact Hb2]. }
  lia.
Qed.

Lemma crc16_shift_u16 crc : is_u16 crc -> is_u16 (crc16_shift crc).
Proof.
  intros H. unfold crc16_shift.
  assert (Hs : is_u16 (Z.shiftr crc 1)).
  { unfold is_u16 in *. rewrite Z.shiftr_div_pow2 by lia. change (2 ^ 1) with 2.
    split; [apply Z.div_pos; lia | apply Z.div_lt_upper_bound; lia]. }
  destruct (Z.land crc 1 =? 1); [| exact Hs].
  apply lxor_u16; [exact Hs | unfold is_u16; lia].
Qed.

Lemma crc16_byte_u16 crc b : is_u16 crc -> is_u8 b -> is_u16 (crc16_byte crc b).
Proof.
  intros Hc Hb. unfold crc16_byte.
  assert (H : is_u16 (Z.lxor crc b)).
  { apply lxor_u16; [exact Hc | unfold is_u8, is_u16 in *; lia]. }
  simpl. repeat apply crc16_shift_u16. exact H.
Qed.

(** The CRC of bytes is a 16-bit value. *)
Lemma calc_crc16_u16 data len : Forall is_u8 data -> is_u16 (calc_crc16_ data len).
Proof.
  intros Hdata. unfold calc_crc16_.
  assert (Ht : Forall is_u8 (take len data)) by (apply Forall_take; exact Hdata).
  assert (H0 : is_u16 65535) by (unfold is_u16; lia).
  revert H0. generalize 65535. induction Ht as [| b l Hb _ IH]; intros crc Hcrc; simpl.
  - exact Hcrc.
  - apply IH. apply crc16_byte_u16; assumption.
Qed.

Lemma calc_crc16_prefix (body rest : list Z) n :
  n = length body ->
  calc_crc16_ (body ++ rest) n = calc_crc16_ body n.
Proof.
  intros ->. unfold calc_crc16_. rewrite take_app_length, firstn_all. reflexivity.
Qed.

Lemma decode_rtu_frame_bytes a f b2 b3 b4 b5 crc :
  crc = calc_crc16_ [a; f; b2; b3; b4; b5] 6 ->
  is_u16 crc ->
  decode_rtu_frame [a; f; b2; b3; b4; b5; u8 (Z.land crc 255); u8 (Z.shiftr crc 8)]
  = match f with
    | 3 => Some (ReadHoldingRegisters a (256 * b2 + b3) (256 * b4 + b5))
    | 5 => Some (WriteSingleCoil a (256 * b2 + b3) (256 * b4 + b5))
    | 6 => Some (WriteSingleRegister a (256 * b2 + b3) (256 * b4 + b5))
    | _ => None
    end.
Proof.
  intros Hc Hcrc. unfold decode_rtu_frame, crc_ok.
  change [a; f; b2; b3; b4; b5; u8 (Z.land crc 255); u8 (Z.shiftr crc 8)]
    with ([a; f; b2; b3; b4; b5] ++ [u8 (Z.land crc 255); u8 (Z.shiftr crc 8)]).
  rewrite calc_crc16_prefix by reflexivity. rewrite <- Hc.
  cbn [app length nth Nat.eqb andb].
  assert (Hlo : u8 (Z.land crc 255) = crc mod 256).
  { unfold u8. change 255 with (Z.ones 8). rewrite Z.land_ones by lia.
    change (2 ^ 8) with 256. apply Z.mod_mod. lia. }
  assert (Hhi : u8 (Z.shiftr crc 8) = crc / 256).
  { unfold u8. rewrite Z.shiftr_div_pow2 by lia. change (2 ^ 8) with 256.
    apply Z.mod_small. unfold is_u16 in Hcrc.
    split; [apply Z.div_pos; lia | apply Z.div_lt_upper_bound; lia]. }
  rewrite Hlo, Hhi, !Z.eqb_refl. reflexivity.
Qed.

(** A receiver reads a frame assembled by [rtu_frame] as the command it
    was assembled from, and finds its CRC right. *)
Lemma decode_rtu_frame_of_rtu_frame address function word1 word2 :
  is_u8 address -> is_u8 function -> is_u16 word1 -> is_u16 word2 ->
  decode_rtu_frame (rtu_frame address function word1 word2)
  = match function with
    | 3 => Some (ReadHoldingRegisters address word1 word2)
    | 5 => Some (WriteSingleCoil address word1 word2)
    | 6 => Some (WriteSingleRegister address word1 word2)
    | _ => None
    end.
Proof.
  intros Ha Hf H1 H2. unfold rtu_frame.
  rewrite !put_be16_bytes by assumption.
  assert (Hbody : Forall is_u8 [address; function; word1 / 256; word1 mod 256;
                                word2 / 256; word2 mod 256]).
  { unfold is_u8, is_u16 in *.
    repeat constructor; try lia;
      try (apply Z.div_pos; lia); try (apply Z.div_lt_upper_bound; lia);
      apply Z.mod_pos_bound; lia. }
  pose proof (calc_crc16_u16 _ 6 Hbody) as Hcrc.
  cbn [app] in *.
  rewrite (decode_rtu_frame_bytes address function (word1 / 256) (word1 mod 256)
             (word2 / 256) (word2 mod 256) _ eq_refl Hcrc).
  replace (256 * (word1 / 256) + word1 mod 256) with word1
    by (pose proof (Z.div_mod word1 256); lia).
  replace (256 * (word2 / 256) + word2 mod 256) with word2
    by (pose proof (Z.div_mod word2 256); lia).
  reflexivity.
Qed.

(** ** Power limit translation *)

Lemma forward_power_limit_source_commands dtu pct_raw enabled s :
  is_u8 dtu -> is_u8 (port_number s) ->
  map decode_rtu_frame (uart_written (forward_power_limit_source dtu pct_raw enabled s))
  = map Some (limit_commands dtu pct_raw enabled s).
Proof.
  intros Hdtu Hport. unfold forward_power_limit_source, limit_commands.
  assert (Hlim : u16 (49159 + port_number s * 6) = 49159 + 6 * port_number s).
  { rewrite u16_small; unfold is_u16, is_u8 in *; lia. }
  assert (Honoff : u16 (49158 + port_number s * 6) = 49158 + 6 * port_number s).
  { rewrite u16_small; unfold is_u16, is_u8 in *; lia. }
  rewrite Hlim, Honoff.
  destruct enabled; cbn [uart_written flat_map app map].
  - assert (Hpct : (if 100 <? (if pct_raw / 10 <? 2 then 2 else pct_raw / 10)
                    then 100 else if pct_raw / 10 <? 2 then 2 else pct_raw / 10)
                   = hm_percent pct_raw).
    { unfold hm_percent.
      destruct (Z.ltb_spec (pct_raw / 10) 2) as [H | H].
      - change (100 <? 2) with false. cbv iota. lia.
      - destruct (Z.ltb_spec 100 (pct_raw / 10)); lia. }
    rewrite Hpct.
    rewrite !decode_rtu_frame_of_rtu_frame;
      try reflexivity; unfold is_u8, is_u16, hm_percent in *; lia.
  - rewrite !decode_rtu_frame_of_rtu_frame;
      try reflexivity; unfold is_u8, is_u16 in *; lia.
Qed.

(** C4.  [forward_power_limit_] adds to the trace, for every source in
    turn, frames that a receiver reads as: with [enabled], one Write
    Single Register of the clamped percentage to 0xC007 + 6*port, then
    one Write Single Coil of 0xFF00 to 0xC006 + 6*port; without, one
    Write Single Register of 100 to 0xC007 + 6*port and no coil write.
    All frames carry the right CRC (a frame with a wrong one decodes to
    [None]).  330 gives 33, 5 gives 2, 2000 gives 100. *)
Theorem forward_power_limit_commands pct_raw enabled st :
  is_u8 (dtu_address_ st) ->
  Forall (fun s => is_u8 (port_number s)) (sources_ st) ->
  trace_ (forward_power_limit_ pct_raw enabled st)
  = trace_ st ++ forward_events (dtu_address_ st) pct_raw enabled (sources_ st)
  /\ map decode_rtu_frame
       (uart_written (forward_events (dtu_address_ st) pct_raw enabled (sources_ st)))
     = map Some (flat_map (limit_commands (dtu_address_ st) pct_raw enabled) (sources_ st))
  /\ hm_percent 330 = 33 /\ hm_percent 5 = 2 /\ hm_percent 2000 = 100.
Proof.
  intros Hdtu Hports. split; [| split; [| repeat split]].
  - rewrite forward_power_limit_emit. reflexivity.
  - unfold forward_events.
    induction Hports as [| s srcs Hs _ IH]; [reflexivity |].
    cbn [flat_map]. rewrite uart_written_app, !map_app, IH.
    rewrite forward_power_limit_source_commands by assumption. reflexivity.
Qed.

(** Scenario S5: [WMaxLimPct = 500], enabled, sources on ports 0 and 1. *)
Lemma forward_power_limit_commands_witness :
  map decode_rtu_frame
    (uart_written (forward_events 126 500 true (sources_ example_two_sources)))
  = [Some (WriteSingleRegister 126 49159 50); Some (WriteSingleCoil 126 49158 65280);
     Some (WriteSingleRegister 126 49165 50); Some (WriteSingleCoil 126 49164 65280)].
Proof.
  apply (forward_power_limit_commands 500 true example_two_sources).
  - unfold is_u8. simpl. lia.
  - repeat constructor; simpl; lia.
Defined.

(** ** Strings in registers *)

Lemma cstr_range str : Forall is_u8 (cstr str).
Proof.
  induction str as [| c str IH]; simpl; [constructor |].
  destruct (nat_of_ascii c =? 0)%nat; constructor; [| exact IH].
  pose proof (nat_ascii_bounded c). unfold is_u8. lia.
Qed.

Lemma nth_is_u8 l i : Forall is_u8 l -> is_u8 (nth i l 0).
Proof.
  intros H. revert i. induction H as [| x l Hx _ IH]; intros [| i]; simpl;
    try (unfold is_u8; lia); auto.
Qed.

Lemma insert_map_seq (f f' : nat -> Z) n j :
  (j < n)%nat -> (forall k, k <> j -> f' k = f k) ->
  <[j := f' j]> (map f (seq 0 n)) = map f' (seq 0 n).
Proof.
  intros Hj Hf. apply list_eq. intros k.
  destruct (Nat.eq_dec k j) as [-> | Hne].
  - rewrite list_lookup_insert_eq by (rewrite length_map, length_seq; lia).
    rewrite list_lookup_fmap, lookup_seq_lt by lia. reflexivity.
  - rewrite list_lookup_insert_ne by lia.
    rewrite !list_lookup_fmap.
    destruct (Nat.lt_ge_cases k n) as [Hk | Hk].
    + rewrite lookup_seq_lt by lia. simpl. rewrite Hf by assumption. reflexivity.
    + rewrite lookup_seq_ge by lia. reflexivity.
Qed.

Lemma insert_middle (A M B : list Z) base j v :
  length A = base -> (j < length M)%nat ->
  <[(base + j)%nat := v]> (A ++ M ++ B) = A ++ <[j := v]> M ++ B.
Proof.
  intros <- Hj. rewrite insert_app_r, insert_app_l by assumption. reflexivity.
Qed.

Lemma reg_middle (A M B : list Z) base j :
  length A = base -> (j < length M)%nat ->
  reg (A ++ M ++ B) (base + j) = nth j M 0.
Proof.
  intros <- Hj. unfold reg. rewrite app_nth2_plus, app_nth1 by assumption. reflexivity.
Qed.

Lemma write_string_char_step base s A B n i :
  Forall is_u8 s -> length A = base -> (i < 2 * n)%nat ->
  write_string_char base s (A ++ map (pack_reg_upto s i) (seq 0 n) ++ B) i
  = A ++ map (pack_reg_upto s (S i)) (seq 0 n) ++ B.
Proof.
  intros Hs HA Hi. unfold write_string_char.
  pose proof (nth_is_u8 s i Hs) as Hc. rewrite (u8_small _ Hc).
  assert (Hj : (i / 2 < n)%nat) by (apply Nat.Div0.div_lt_upper_bound; lia).
  pose proof (Nat.div_mod_eq i 2) as Hdm.
  assert (Hmod : (i mod 2 < 2)%nat) by (apply Nat.mod_upper_bound; lia).
  destruct (Nat.eqb_spec (i mod 2) 0) as [Heven | Hodd].
  - rewrite insert_middle by (rewrite ?length_map, ?length_seq; lia).
    f_equal. f_equal.
    replace (u16 (Z.shiftl (nth i s 0) 8)) with (pack_reg_upto s (S i) (i / 2)).
    + apply insert_map_seq; [exact Hj |]. intros k Hk. unfold pack_reg_upto.
      destruct (Nat.ltb_spec (2 * k) (S i)), (Nat.ltb_spec (2 * k) i),
        (Nat.ltb_spec (2 * k + 1) (S i)), (Nat.ltb_spec (2 * k + 1) i);
        try reflexivity; lia.
    + unfold pack_reg_upto.
      destruct (Nat.ltb_spec (2 * (i / 2)) (S i)); [| lia].
      destruct (Nat.ltb_spec (2 * (i / 2) + 1) (S i)); [lia |].
      replace (2 * (i / 2))%nat with i by lia.
      rewrite Z.shiftl_mul_pow2 by lia. change (2 ^ 8) with 256.
      rewrite u16_small; unfold is_u16, is_u8 in *; lia.
  - rewrite reg_middle by (rewrite ?length_map, ?length_seq; lia).
    rewrite insert_middle by (rewrite ?length_map, ?length_seq; lia).
    f_equal. f_equal.
    rewrite (nth_indep _ 0 (pack_reg_upto s i 0)) by (rewrite length_map, length_seq; lia).
    rewrite map_nth, seq_nth by lia. rewrite Nat.add_0_l.
    replace (Z.lor (pack_reg_upto s i (i / 2)) (nth i s 0))
      with (pack_reg_upto s (S i) (i / 2)).
    + apply insert_map_seq; [exact Hj |]. intros k Hk. unfold pack_reg_upto.
      destruct (Nat.ltb_spec (2 * k) (S i)), (Nat.ltb_spec (2 * k) i),
        (Nat.ltb_spec (2 * k + 1) (S i)), (Nat.ltb_spec (2 * k + 1) i);
        try reflexivity; lia.
    + unfold pack_reg_upto.
      destruct (Nat.ltb_spec (2 * (i / 2)) (S i)); [| lia].
      destruct (Nat.ltb_spec (2 * (i / 2) + 1) (S i)); [| lia].
      destruct (Nat.ltb_spec (2 * (i / 2)) i); [| lia].
      destruct (Nat.ltb_spec (2 * (i / 2) + 1) i); [lia |].
      replace (2 * (i / 2) + 1)%nat with i by lia.
      pose proof (nth_is_u8 s (2 * (i / 2)) Hs) as Hhi.
      rewrite Z.add_0_r.
      rewrite <- (lor_shiftl_8 (nth (2 * (i / 2)) s 0) (nth i s 0));
        [| unfold is_u8 in Hhi; lia | exact Hc].
      rewrite Z.shiftl_mul_pow2 by lia. change (2 ^ 8) with 256.
      rewrite (Z.mul_comm 256). reflexivity.
Qed.

Lemma write_string_loop base s A B n : forall i,
  Forall is_u8 s -> length A = base -> (i <= 2 * n)%nat ->
  fold_left (write_string_char base s) (seq 0 i)
    (A ++ map (pack_reg_upto s 0) (seq 0 n) ++ B)
  = A ++ map (pack_reg_upto s i) (seq 0 n) ++ B.
Proof.
  induction i as [| i IH]; intros Hs HA Hi; [reflexivity |].
  rewrite seq_S, fold_left_app. simpl fold_left.
  rewrite IH by (assumption || lia).
  apply write_string_char_step; assumption || lia.
Qed.

Lemma map_pack_reg_upto_0 s (l : list nat) :
  map (pack_reg_upto s 0) l = replicate (length l) 0.
Proof.
  induction l as [| k l IH]; [reflexivity |].
  cbn [length replicate map]. rewrite IH. reflexivity.
Qed.

(** [write_string_regs] stores the packed string in the [max_regs]
    registers from [base] and touches nothing else. *)
Lemma write_string_regs_spec base str max_regs regs :
  (base + max_regs <= length regs)%nat ->
  write_string_regs base str max_regs regs
  = take base regs ++ pack_string str max_regs ++ drop (base + max_regs) regs.
Proof.
  intros Hlen. unfold write_string_regs.
  rewrite fill_spec by assumption.
  assert (H0 : replicate max_regs 0 = map (pack_reg_upto (cstr str) 0) (seq 0 max_regs)).
  { rewrite map_pack_reg_upto_0, length_seq. reflexivity. }
  rewrite H0.
  set (len := if (max_regs * 2 <? length (cstr str))%nat
              then (max_regs * 2)%nat else length (cstr str)).
  assert (Hlen2 : (len <= 2 * max_regs)%nat).
  { unfold len. destruct (Nat.ltb_spec (max_regs * 2) (length (cstr str))); lia. }
  rewrite write_string_loop;
    [| apply cstr_range | rewrite length_take; lia | exact Hlen2].
  f_equal. f_equal. unfold pack_string.
  apply map_ext_in. intros k Hk. apply in_seq in Hk.
  unfold pack_reg_upto, pack_reg.
  assert (Hend : forall j, (len <= j)%nat -> (j < 2 * max_regs)%nat ->
                           nth j (cstr str) 0 = 0).
  { intros j Hj1 Hj2. apply nth_overflow. unfold len in Hj1.
    destruct (Nat.ltb_spec (max_regs * 2) (length (cstr str))); lia. }
  destruct (Nat.ltb_spec (2 * k) len), (Nat.ltb_spec (2 * k + 1) len).
  - reflexivity.
  - rewrite (Hend (2 * k + 1)%nat) by lia. reflexivity.
  - lia.
  - rewrite (Hend (2 * k)%nat), (Hend (2 * k + 1)%nat) by lia. reflexivity.
Qed.

(** ** The static image *)

Ltac length_by_computation :=
  apply Nat.leb_le; vm_compute; reflexivity.

Ltac string_write str :=
  match goal with
  | |- context [write_string_regs ?b str ?n ?R] =>
      rewrite (write_string_regs_spec b str n R) by length_by_computation
  end.

(** C8, as amended.  [build_static_registers_] leaves exactly the
    documented image: the "SunS" signature, the header and the payload
    of Models 1, 101 or 103, 120 and 123, and the End marker; every
    field of Models 101/103, 120 and 123 that is not set is 0xFFFF and
    every unset field of Model 1 is 0.  [ARtg] is [rated_current_a * 10]
    truncated toward zero (the C conversion), kept modulo 2^16. *)
Theorem build_static_registers_image st :
  length (register_map_ st) = TOTAL_REGS ->
  register_map_ (build_static_registers_ st) = static_image (agg_config_ st).
Proof.
  intros Hlen. unfold build_static_registers_. cbv zeta. cbn [register_map_ set_register_map_].
  rewrite (fill_spec 0 TOTAL_REGS 65535 (register_map_ st)) by (rewrite Hlen; lia).
  rewrite drop_ge by (rewrite Hlen; lia).
  cbn [take firstn app]. rewrite app_nil_r.
  string_write (manufacturer (agg_config_ st)).
  string_write (model_name (agg_config_ st)).
  string_write "1.1.0"%string.
  string_write (agg_serial_number (agg_config_ st)).
  unfold F32.to_u16, u16.
  cbv -[pack_reg cstr F32.trunc F32.mul Z.modulo].
  reflexivity.
Qed.

Lemma build_static_registers_image_witness :
  register_map_ (build_static_registers_ example_before_build)
  = static_image (agg_config_ example_before_build).
Proof.
  apply (build_static_registers_image example_before_build).
  vm_compute. reflexivity.
Defined.

(** C8, counterexample.  With one 800 W source at 230 V the rated
    current is 800/230 = 3.478 A; [ARtg] (image offset 134) holds 34,
    and 34.78 rounded to the nearest integer is 35. *)
Lemma nameplate_current_is_truncated :
  reg (register_map_ example_one_source) 134 = 34
  /\ F32.round_half_away
       (F32.mul (rated_current_a (agg_config_ example_one_source)) F32.ten) = 35
  /\ reg (register_map_ example_one_source) 134
     <> F32.round_half_away
          (F32.mul (rated_current_a (agg_config_ example_one_source)) F32.ten).
Proof.
  split; [vm_compute; reflexivity |].
  split; [vm_compute; reflexivity |].
  vm_compute. discriminate.
Qed.

(** ** Rounding in binary32 *)

Lemma digits2_pos_bounds p :
  2 ^ (Z.pos (digits2_pos p) - 1) <= Z.pos p < 2 ^ Z.pos (digits2_pos p).
Proof.
  induction p as [p IH | p IH |]; cbn [digits2_pos].
  - rewrite Pos2Z.inj_succ. replace (Z.succ (Z.pos (digits2_pos p)) - 1)
      with (Z.succ (Z.pos (digits2_pos p) - 1)) by lia.
    rewrite !Z.pow_succ_r by lia. lia.
  - rewrite Pos2Z.inj_succ. replace (Z.succ (Z.pos (digits2_pos p)) - 1)
      with (Z.succ (Z.pos (digits2_pos p) - 1)) by lia.
    rewrite !Z.pow_succ_r by lia. lia.
  - simpl. lia.
Qed.

Lemma Zdigits2_bounds m :
  0 < m -> 2 ^ (Zdigits2 m - 1) <= m < 2 ^ Zdigits2 m.
Proof.
  destruct m as [| p | p]; try lia. intros _. apply digits2_pos_bounds.
Qed.

Lemma Zdigits2_nonneg m : 0 <= Zdigits2 m.
Proof. destruct m; simpl; lia. Qed.

(** One step of [shr] halves a non-negative mantissa. *)
Lemma shr_1_m mrs : 0 <= shr_m mrs -> shr_m (shr_1 mrs) = shr_m mrs / 2.
Proof.
  destruct mrs as [m r s]. cbn [shr_m]. intros Hm.
  destruct m as [| [p | p |] | p]; cbn [shr_1 shr_m]; try lia; try reflexivity.
  - change (Z.pos p~1) with (2 * Z.pos p + 1).
    apply Z.div_unique with 1; lia.
  - change (Z.pos p~0) with (2 * Z.pos p).
    apply Z.div_unique with 0; lia.
Qed.

Lemma shr_iter_m p : forall mrs,
  0 <= shr_m mrs -> shr_m (SpecFloat.iter_pos shr_1 p mrs) = shr_m mrs / 2 ^ Z.pos p.
Proof.
  induction p as [p IH | p IH |]; intros mrs Hm; cbn [SpecFloat.iter_pos].
  - assert (H1 : 0 <= shr_m (shr_1 mrs)).
    { rewrite shr_1_m by assumption. apply Z.div_pos; lia. }
    assert (H2 : 0 <= shr_m (SpecFloat.iter_pos shr_1 p (shr_1 mrs))).
    { rewrite IH by assumption. apply Z.div_pos; [assumption | apply Z.pow_pos_nonneg; lia]. }
    rewrite IH, IH, shr_1_m by assumption.
    change (Z.pos p~1) with (2 * Z.pos p + 1).
    replace (2 * Z.pos p + 1) with (1 + Z.pos p + Z.pos p) by lia.
    rewrite !Z.pow_add_r by lia. change (2 ^ 1) with 2.
    rewrite !Z.div_div by (try apply Z.pow_pos_nonneg; lia).
    f_equal. lia.
  - assert (H2 : 0 <= shr_m (SpecFloat.iter_pos shr_1 p mrs)).
    { rewrite IH by assumption. apply Z.div_pos; [assumption | apply Z.pow_pos_nonneg; lia]. }
    rewrite IH, IH by assumption.
    change (Z.pos p~0) with (2 * Z.pos p).
    replace (2 * Z.pos p) with (Z.pos p + Z.pos p) by lia.
    rewrite !Z.pow_add_r by lia.
    rewrite !Z.div_div by (try apply Z.pow_pos_nonneg; lia).
    reflexivity.
  - rewrite shr_1_m by assumption. reflexivity.
Qed.

(** [shr] by [n] positions: the exponent grows by [max n 0] and the
    mantissa loses that many bits. *)
Lemma shr_spec mrs e n :
  0 <= shr_m mrs ->
  shr_m (fst (shr mrs e n)) = shr_m mrs / 2 ^ Z.max n 0
  /\ snd (shr mrs e n) = e + Z.max n 0.
Proof.
  intros Hm. destruct n as [| p | p]; cbn [shr fst snd].
  - simpl. rewrite Z.div_1_r. lia.
  - rewrite shr_iter_m by assumption. rewrite Z.max_l by lia. split; reflexivity.
  - simpl. rewrite Z.div_1_r. lia.
Qed.

Lemma shr_record_of_loc_m m l : shr_m (shr_record_of_loc m l) = m.
Proof. destruct l as [| []]; reflexivity. Qed.

Lemma round_nearest_even_bounds m l :
  m <= round_nearest_even m l <= m + 1.
Proof.
  unfold round_nearest_even. destruct l as [| []]; try lia.
  destruct (Z.even m); lia.
Qed.

(** An unshifted exact record rounds to itself. *)
Lemma round_exact_unshifted m e n :
  n <= 0 ->
  let mrs := fst (shr (shr_record_of_loc m loc_Exact) e n) in
  round_nearest_even (shr_m mrs) (loc_of_shr_record mrs) = m.
Proof.
  intros Hn. destruct n as [| p | p]; try lia; reflexivity.
Qed.

Lemma fexp_32 x : fexp F32.prec F32.emax x = Z.max (x - 24) (-149).
Proof. reflexivity. Qed.

(** Rounding a non-negative mantissa [mx] at exponent [ex]: the result
    has a mantissa below 2^24, an exponent raised by the two shifts, and
    a value that exceeds the exact one by at most one unit of the first
    shift. *)
Lemma binary_round_aux_nonneg mx ex lx :
  0 <= mx ->
  let n1 := Z.max (fexp F32.prec F32.emax (Zdigits2 mx + ex) - ex) 0 in
  exists m n2,
    0 <= m < 2 ^ 24 /\ 0 <= n2
    /\ m * 2 ^ (n1 + n2) <= mx + 2 ^ n1
    /\ binary_round_aux F32.prec F32.emax false mx ex lx
       = round_result m (ex + n1 + n2).
Proof.
  intros Hmx n1. unfold binary_round_aux, shr_fexp.
  set (r0 := shr_record_of_loc mx lx).
  assert (Hr0 : 0 <= shr_m r0) by (unfold r0; rewrite shr_record_of_loc_m; exact Hmx).
  pose proof (shr_spec r0 ex (fexp F32.prec F32.emax (Zdigits2 mx + ex) - ex) Hr0)
    as [Hm1 He1].
  destruct (shr r0 ex (fexp F32.prec F32.emax (Zdigits2 mx + ex) - ex))
    as [mrs1 e1]. cbn [fst snd] in Hm1, He1.
  unfold r0 in Hm1. rewrite shr_record_of_loc_m in Hm1. fold n1 in Hm1, He1.
  set (m2 := round_nearest_even (shr_m mrs1) (loc_of_shr_record mrs1)).
  pose proof (round_nearest_even_bounds (shr_m mrs1) (loc_of_shr_record mrs1)) as Hm2.
  fold m2 in Hm2.
  assert (Hn1 : 0 <= n1) by (unfold n1; lia).
  assert (Hp1 : 0 < 2 ^ n1) by (apply Z.pow_pos_nonneg; lia).
  assert (Hm1pos : 0 <= shr_m mrs1) by (rewrite Hm1; apply Z.div_pos; lia).
  assert (Hm1le : shr_m mrs1 * 2 ^ n1 <= mx).
  { rewrite Hm1, Z.mul_comm. apply Z.mul_div_le. exact Hp1. }
  set (r2 := shr_record_of_loc m2 loc_Exact).
  assert (Hr2 : 0 <= shr_m r2) by (unfold r2; rewrite shr_record_of_loc_m; lia).
  pose proof (shr_spec r2 e1 (fexp F32.prec F32.emax (Zdigits2 m2 + e1) - e1) Hr2)
    as [Hm3 He3].
  destruct (shr r2 e1 (fexp F32.prec F32.emax (Zdigits2 m2 + e1) - e1))
    as [mrs3 e3]. cbn [fst snd] in Hm3, He3.
  unfold r2 in Hm3. rewrite shr_record_of_loc_m in Hm3.
  set (n2 := Z.max (fexp F32.prec F32.emax (Zdigits2 m2 + e1) - e1) 0) in *.
  assert (Hn2 : 0 <= n2) by (unfold n2; lia).
  assert (Hp2 : 0 < 2 ^ n2) by (apply Z.pow_pos_nonneg; lia).
  assert (Hm3pos : 0 <= shr_m mrs3) by (rewrite Hm3; apply Z.div_pos; lia).
  assert (Hm3le : shr_m mrs3 * 2 ^ n2 <= m2).
  { rewrite Hm3, Z.mul_comm. apply Z.mul_div_le. exact Hp2. }
  exists (shr_m mrs3), n2. repeat split; try assumption.
  - (* the mantissa has at most 24 bits *)
    destruct (Z.eq_dec m2 0) as [Hz | Hnz].
    { rewrite Hm3, Hz, Z.div_0_l by lia. lia. }
    pose proof (Zdigits2_bounds m2 ltac:(lia)) as Hd.
    rewrite Hm3. apply Z.div_lt_upper_bound; [exact Hp2 |].
    rewrite <- Z.pow_add_r by lia.
    apply Z.lt_le_trans with (2 ^ Zdigits2 m2); [lia |].
    apply Z.pow_le_mono_r; [lia |].
    unfold n2. rewrite fexp_32. lia.
  - (* the value *)
    rewrite Z.pow_add_r by lia. nia.
  - (* the result *)
    unfold round_result. rewrite He3, He1.
    replace (ex + n1 + n2) with (ex + n1 + n2) by reflexivity.
    change (F32.emax - F32.prec) with 104.
    destruct (shr_m mrs3); reflexivity.
Qed.

Lemma round_result_nonneg m e : 0 <= m < 2 ^ 24 -> nonneg_float (round_result m e).
Proof.
  intros Hm. unfold round_result. destruct m as [| p | p].
  - exact I.
  - destruct (e <=? 104); cbn [nonneg_float]; [split; [reflexivity | lia] | reflexivity].
  - lia.
Qed.

(** The quotient of two positive finite floats. *)
Lemma div_finite_nonneg mx ex my ey :
  nonneg_float (F32.div (S754_finite false mx ex) (S754_finite false my ey)).
Proof.
  unfold F32.div, SFdiv, SFdiv_core_binary. cbn [xorb].
  set (m' := match _ - _ - _ with Z0 => Z.pos mx | Z.pos _ => _ | Z.neg _ => 0 end).
  assert (Hm' : 0 <= m').
  { unfold m'. destruct (_ - _ - _); try lia. apply Z.shiftl_nonneg. lia. }
  pose proof (Z_div_mod m' (Z.pos my) ltac:(lia)) as Hdiv.
  destruct (Z.div_eucl m' (Z.pos my)) as [q r].
  assert (Hq : 0 <= q) by nia.
  pose proof (binary_round_aux_nonneg q
                (Z.min (fexp F32.prec F32.emax
                          (Zdigits2 (Z.pos mx) + ex - (Zdigits2 (Z.pos my) + ey)))
                       (ex - ey))
                (new_location (Z.pos my) r) Hq) as [m [n2 [Hm [_ [_ Hr]]]]].
  rewrite Hr. apply round_result_nonneg. exact Hm.
Qed.

Lemma clamp_one_unit pf : nonneg_float pf -> unit_float (clamp_one pf).
Proof.
  unfold clamp_one, F32.gtb, SFltb.
  destruct pf as [s | s | | s m e]; cbn [nonneg_float]; intros H.
  - exact I.
  - subst s. cbn [SFcompare F32.one unit_float]. change (2 ^ (- -23)) with 8388608. lia.
  - contradiction.
  - destruct H as [-> Hm]. unfold F32.one. cbn [SFcompare].
    destruct (Z.compare_spec (-23) e) as [He | He | He].
    + subst e. change (Pos.compare_cont Eq 8388608 m) with (Pos.compare 8388608 m).
      destruct (Pos.compare_spec 8388608 m) as [Hc | Hc | Hc]; cbn [unit_float].
      * subst m. change (2 ^ (- -23)) with 8388608. lia.
      * clear Hc. change (2 ^ (- -23)) with 8388608. lia.
      * apply Pos2Z.pos_lt_pos in Hc. change (2 ^ (- -23)) with 8388608. lia.
    + cbn [unit_float]. change (2 ^ (- -23)) with 8388608. lia.
    + cbn [unit_float]. repeat split; try lia.
      apply Z.le_trans with (2 ^ 24); [lia |].
      apply Z.pow_le_mono_r; lia.
Qed.

(** A float in the unit interval times 100 is finite and truncates to
    an integer from 0 to 100. *)
Lemma mul_hundred_unit pf :
  unit_float pf ->
  F32.is_finite (F32.mul pf F32.hundred) = true
  /\ 0 <= F32.trunc (F32.mul pf F32.hundred) <= 100.
Proof.
  destruct pf as [s | s | | s m e]; cbn [unit_float]; intros H; try contradiction.
  - split; [reflexivity | simpl; lia].
  - destruct H as [-> [He Hm]].
    unfold F32.mul, F32.hundred, SFmul. cbn [xorb].
    set (M := Z.pos (m * 13107200)).
    set (K := 17 - e).
    assert (HK : 40 <= K) by (unfold K; lia).
    assert (HM : M <= 100 * 2 ^ K).
    { unfold M, K. rewrite Pos2Z.inj_mul.
      replace (17 - e) with (17 + - e) by lia.
      rewrite Z.pow_add_r by lia. change (2 ^ 17) with 131072.
      assert (0 < 2 ^ (- e)) by (apply Z.pow_pos_nonneg; lia). nia. }
    pose proof (binary_round_aux_nonneg M (e + -17) loc_Exact ltac:(unfold M; lia))
      as [m3 [n2 [Hm3 [Hn2 [Hval Hr]]]]].
    set (n1 := Z.max (fexp F32.prec F32.emax (Zdigits2 M + (e + -17)) - (e + -17)) 0) in *.
    rewrite Hr.
    assert (Hn1 : 0 <= n1 <= K - 1).
    { pose proof (Zdigits2_bounds M ltac:(unfold M; lia)) as Hd.
      assert (Hlt : 2 ^ (Zdigits2 M - 1) < 2 ^ (K + 7)).
      { apply Z.le_lt_trans with M; [lia |].
        rewrite Z.pow_add_r by lia. change (2 ^ 7) with 128.
        assert (0 < 2 ^ K) by (apply Z.pow_pos_nonneg; lia). nia. }
      apply Z.pow_lt_mono_r_iff in Hlt; [| lia | lia].
      unfold n1. rewrite fexp_32. unfold K. lia. }
    assert (Hbound : m3 * 2 ^ (n1 + n2) < 101 * 2 ^ K).
    { apply Z.le_lt_trans with (M + 2 ^ n1); [exact Hval |].
      assert (2 ^ n1 <= 2 ^ (K - 1)) by (apply Z.pow_le_mono_r; lia).
      replace K with (1 + (K - 1)) at 1 by lia.
      rewrite Z.pow_add_r by lia. change (2 ^ 1) with 2.
      assert (0 < 2 ^ (K - 1)) by (apply Z.pow_pos_nonneg; lia).
      replace K with (1 + (K - 1)) in HM at 1 by lia.
      rewrite Z.pow_add_r in HM by lia. change (2 ^ 1) with 2 in HM. lia. }
    set (s := n1 + n2) in *.
    replace (e + -17 + n1 + n2) with (s - K) by (unfold s, K; lia).
    assert (Hs : 0 <= s) by (unfold s; lia).
    unfold round_result.
    destruct m3 as [| p | p]; [split; [reflexivity | simpl; lia] | | lia].
    destruct (Z.le_gt_cases K s) as [Hge | Hlt].
    + (* exponent >= 0 *)
      assert (Hsmall : Z.pos p * 2 ^ (s - K) < 101).
      { replace s with ((s - K) + K) in Hbound by lia.
        rewrite Z.pow_add_r in Hbound by lia.
        assert (0 < 2 ^ K) by (apply Z.pow_pos_nonneg; lia).
        assert (0 < 2 ^ (s - K)) by (apply Z.pow_pos_nonneg; lia). nia. }
      assert (Hexp : s - K <= 6).
      { destruct (Z.le_gt_cases (s - K) 6) as [? | Hbig]; [assumption |].
        assert (2 ^ 7 <= 2 ^ (s - K)) by (apply Z.pow_le_mono_r; lia).
        change (2 ^ 7) with 128 in *. nia. }
      destruct (Z.leb_spec (s - K) 104) as [_ | ?]; [| lia].
      split; [reflexivity |]. cbn [F32.trunc].
      assert (0 < 2 ^ (s - K)) by (apply Z.pow_pos_nonneg; lia).
      destruct (s - K) as [| q | q] eqn:Hq; try lia; simpl; lia.
    + (* exponent < 0 *)
      destruct (Z.leb_spec (s - K) 104) as [_ | ?]; [| lia].
      split; [reflexivity |]. cbn [F32.trunc].
      destruct (s - K) as [| q | q] eqn:Hq; try lia.
      assert (Hq' : Z.pos q = K - s) by lia. rewrite Hq'.
      assert (0 < 2 ^ (K - s)) by (apply Z.pow_pos_nonneg; lia).
      assert (0 < 2 ^ s) by (apply Z.pow_pos_nonneg; lia).
      split; [apply Z.div_pos; lia |].
      assert (Z.pos p / 2 ^ (K - s) < 101); [| lia].
      apply Z.div_lt_upper_bound; [lia |].
      replace K with ((K - s) + s) in Hbound at 1 by lia.
      rewrite Z.pow_add_r in Hbound by lia. nia.
Qed.

(** ** The power factor register *)

Lemma int16_reg_small x :
  0 <= F32.trunc x <= 100 -> int16_reg x = F32.trunc x.
Proof.
  intros H. unfold int16_reg, F32.to_int, s32, u32.
  rewrite (Z.mod_small (F32.trunc x)) by lia.
  destruct (Z.ltb_spec (F32.trunc x) 2147483648); [| lia].
  unfold s16, u16. rewrite (Z.mod_small (F32.trunc x)) by lia.
  destruct (Z.ltb_spec (F32.trunc x) 32768); [| lia].
  apply Z.mod_small. lia.
Qed.

(** The quotient [total_power / total_va] for [total_power >= 0] and
    [total_va > 0], not both infinite. *)
Lemma div_nonneg tp tv :
  F32.leb F32.zero tp = true ->
  F32.gtb tv F32.zero = true ->
  F32.is_finite tp || F32.is_finite tv = true ->
  nonneg_float (F32.div tp tv).
Proof.
  intros Htp Htv Hfin.
  destruct tp as [sp | [|] | | [|] mp ep]; try discriminate Htp;
    destruct tv as [sv | [|] | | [|] mv ev]; try discriminate Htv;
    try discriminate Hfin; try exact I; try reflexivity.
  apply div_finite_nonneg.
Qed.

Lemma power_factor_reg_range a :
  F32.gtb (total_va a) F32.zero = true ->
  F32.leb F32.zero (total_power a) = true ->
  F32.is_finite (total_power a) || F32.is_finite (total_va a) = true ->
  0 <= power_factor_reg a <= 100.
Proof.
  intros Hva Hp Hfin. unfold power_factor_reg.
  change (if F32.gtb (F32.div (total_power a) (total_va a)) F32.one
          then F32.one else F32.div (total_power a) (total_va a))
    with (clamp_one (F32.div (total_power a) (total_va a))).
  pose proof (div_nonneg _ _ Hp Hva Hfin) as Hdiv.
  pose proof (mul_hundred_unit _ (clamp_one_unit _ Hdiv)) as [_ Hrange].
  rewrite int16_reg_small by exact Hrange. exact Hrange.
Qed.

Lemma reg_insert_eq (l : list Z) i v : (i < length l)%nat -> reg (<[i := v]> l) i = v.
Proof.
  intros H. unfold reg. rewrite nth_lookup, list_lookup_insert_eq by exact H. reflexivity.
Qed.

Lemma reg_insert_ne (l : list Z) i j v : i <> j -> reg (<[i := v]> l) j = reg l j.
Proof.
  intros H. unfold reg. rewrite !nth_lookup, list_lookup_insert_ne by exact H. reflexivity.
Qed.

(** The register writes leave [power_factor_reg] in [INV_PF]. *)
Lemma write_aggregate_pf ph a r :
  length r = TOTAL_REGS ->
  F32.gtb (total_va a) F32.zero = true ->
  reg (write_aggregate ph a r) (OFF_INV + 2 + INV_PF) = power_factor_reg a.
Proof.
  intros Hlen Hva. unfold write_aggregate. rewrite Hva.
  repeat match goal with
         | |- context [if ?b then _ else _] => destruct b
         end;
    repeat (rewrite reg_insert_ne by (cbv; lia));
    (rewrite reg_insert_eq; [reflexivity |]);
    rewrite !length_insert, Hlen; cbv; lia.
Qed.

(** Invalid sources leave the accumulators alone; each valid source
    adds one to [valid_count]. *)
Lemma aggregate_source_valid_count a s :
  (data_valid s = false /\ fst (aggregate_source a s) = a)
  \/ valid_count (fst (aggregate_source a s)) = valid_count a + 1.
Proof.
  unfold aggregate_source. destruct (data_valid s); [right | left; split; reflexivity].
  cbn [negb]. cbv iota.
  destruct (phases s =? 3); reflexivity.
Qed.

Lemma aggregate_sources_valid_count srcs : forall a,
  valid_count a <= valid_count (fst (aggregate_sources a srcs))
  /\ (valid_count (fst (aggregate_sources a srcs)) = valid_count a ->
      fst (aggregate_sources a srcs) = a).
Proof.
  induction srcs as [| s srcs IH]; intros a; cbn [aggregate_sources].
  - split; [cbn; lia | reflexivity].
  - pose proof (aggregate_source_valid_count a s) as Hs.
    destruct (aggregate_source a s) as [a1 s1]. cbn [fst] in Hs.
    specialize (IH a1). destruct (aggregate_sources a1 srcs) as [a2 rest].
    cbn [fst] in *. destruct IH as [IH1 IH2].
    destruct Hs as [[_ ->] | Hs]; [split; assumption |].
    split; lia.
Qed.

(** The aggregation taken alone, on register blocks of any content:
    when it runs with [total_va > 0] and [total_power >= 0], not both
    infinite, the register [INV_PF] holds a value from 0 to 100
    afterwards. *)
Theorem power_factor_register_range st :
  length (register_map_ st) = TOTAL_REGS ->
  F32.gtb (total_va (aggregate_totals st)) F32.zero = true ->
  F32.leb F32.zero (total_power (aggregate_totals st)) = true ->
  F32.is_finite (total_power (aggregate_totals st))
    || F32.is_finite (total_va (aggregate_totals st)) = true ->
  0 <= reg (register_map_ (aggregate_and_update_registers_ st)) (OFF_INV + 2 + INV_PF)
    <= 100.
Proof.
  intros Hlen Hva Hp Hfin. unfold aggregate_and_update_registers_.
  unfold aggregate_totals in *.
  pose proof (aggregate_sources_valid_count (sources_ st) acc_init) as [Hc1 Hc2].
  destruct (aggregate_sources acc_init (sources_ st)) as [a srcs]. cbn [fst] in *.
  destruct (Z.eqb_spec (valid_count a) 0) as [Hz | Hnz].
  - rewrite (Hc2 Hz) in Hva. discriminate Hva.
  - cbn [register_map_ set_register_map_ set_agg_values_ set_sources_ agg_config_].
    rewrite write_aggregate_pf by assumption.
    apply power_factor_reg_range; assumption.
Qed.

(** 50 W at 100 VA: the register holds 50. *)
Lemma power_factor_register_range_witness :
  0 <= reg (register_map_ (aggregate_and_update_registers_ (example_with_block 50 100)))
           (OFF_INV + 2 + INV_PF)
    <= 100.
Proof.
  apply (power_factor_register_range (example_with_block 50 100)).
  - vm_compute. reflexivity.
  - vm_compute. reflexivity.
  - vm_compute. reflexivity.
  - vm_compute. reflexivity.
Defined.

(** The aggregation taken alone, on a block with [INV_W = 0xFFCE]
    (-50 W) and [INV_VA = 100]: [total_va] is positive and [INV_PF]
    receives 65486, the 16-bit pattern of -50.  No function stores such
    a block in [raw_regs]. *)
Lemma negative_power_gives_negative_power_factor :
  F32.gtb (total_va (aggregate_totals (example_with_block 65486 100))) F32.zero = true
  /\ reg (register_map_ (aggregate_and_update_registers_ (example_with_block 65486 100)))
         (OFF_INV + 2 + INV_PF) = 65486
  /\ s16 65486 = -50
  /\ ~ (0 <= reg (register_map_
                    (aggregate_and_update_registers_ (example_with_block 65486 100)))
                 (OFF_INV + 2 + INV_PF) <= 100).
Proof.
  assert (H : reg (register_map_
                     (aggregate_and_update_registers_ (example_with_block 65486 100)))
                  (OFF_INV + 2 + INV_PF) = 65486) by (vm_compute; reflexivity).
  split; [vm_compute; reflexivity |].
  split; [exact H |].
  split; [vm_compute; reflexivity |].
  rewrite H. lia.
Qed.

(** ** The poller and the raw register block *)

Lemma aggregate_source_raw_regs a s :
  raw_regs (snd (aggregate_source a s)) = raw_regs s.
Proof.
  unfold aggregate_source. destruct (data_valid s); [| reflexivity].
  cbn [negb]. cbv iota. destruct (phases s =? 3); reflexivity.
Qed.

Lemma aggregate_sources_raw_regs srcs : forall a,
  map raw_regs (snd (aggregate_sources a srcs)) = map raw_regs srcs.
Proof.
  induction srcs as [| s srcs IH]; intros a; cbn [aggregate_sources]; [reflexivity |].
  pose proof (aggregate_source_raw_regs a s) as Hs.
  destruct (aggregate_source a s) as [a1 s1]. cbn [snd] in Hs.
  specialize (IH a1). destruct (aggregate_sources a1 srcs) as [a2 rest].
  cbn [snd map] in *. rewrite Hs, IH. reflexivity.
Qed.

Lemma aggregate_and_update_raw_regs st :
  map raw_regs (sources_ (aggregate_and_update_registers_ st))
  = map raw_regs (sources_ st).
Proof.
  unfold aggregate_and_update_registers_.
  pose proof (aggregate_sources_raw_regs (sources_ st) acc_init) as H.
  destruct (aggregate_sources acc_init (sources_ st)) as [a srcs]. cbn [snd] in H.
  destruct (valid_count a =? 0); exact H.
Qed.

Lemma update_source_raw_regs i f st :
  (forall s, raw_regs (f s) = raw_regs s) ->
  map raw_regs (sources_ (update_source i f st)) = map raw_regs (sources_ st).
Proof.
  intros Hf. unfold update_source.
  destruct (sources_ st !! i) as [s |] eqn:Hs; [| reflexivity].
  cbn [sources_ set_sources_].
  change (map raw_regs) with (fmap (M := list) raw_regs).
  rewrite list_fmap_insert, Hf.
  apply list_insert_id. rewrite list_lookup_fmap, Hs. reflexivity.
Qed.

(** No path through [poll_rtu_sources_] stores anything in [raw_regs]. *)
Lemma poll_rtu_sources_raw_regs now st :
  map raw_regs (sources_ (poll_rtu_sources_ now st)) = map raw_regs (sources_ st).
Proof.
  unfold poll_rtu_sources_.
  destruct (num_sources_ st =? 0)%nat; [reflexivity |].
  destruct (rtu_busy_ st).
  - assert (Hread : sources_ (snd (read_rtu_response_ 256 st)) = sources_ st).
    { unfold read_rtu_response_.
      repeat match goal with
             | |- context [if ?b then _ else _] => destruct b
             end; reflexivity. }
    destruct (read_rtu_response_ 256 st) as [[n resp] st1]. cbn [snd] in Hread.
    rewrite <- Hread.
    destruct (0 <? n).
    + unfold handle_rtu_response. cbn [sources_ set_rtu_busy_ set_poll_state_].
      repeat match goal with
             | |- context [if ?b then _ else _] => destruct b
             end;
        rewrite ?aggregate_and_update_raw_regs;
        apply update_source_raw_regs; reflexivity.
    + destruct (n =? -1); [apply update_source_raw_regs; reflexivity |].
      destruct (_ <? _); [apply update_source_raw_regs; reflexivity | reflexivity].
  - destruct (_ <? _); [reflexivity |].
    destruct (sources_ st !! current_poll_source_ st); reflexivity.
Qed.

(** C1.  The poller takes the response as a success (the source becomes
    valid, the time and the success counter are updated, the PV power is
    decoded as 650 W), but [raw_regs] still holds the zeros of
    [add_rtu_source].  The aggregator, called next, reads [raw_regs]:
    it resets [power_w] to 0 and writes [INV_W = 0] and [INV_St = 2]
    (sleeping) to the image. *)
Theorem successful_poll_leaves_raw_regs_zero :
  map data_valid (sources_ (poll_rtu_sources_ 5100 example_response_arrived)) = [true]
  /\ map last_poll_ms (sources_ (poll_rtu_sources_ 5100 example_response_arrived)) = [5100]
  /\ map poll_success_count (sources_ (poll_rtu_sources_ 5100 example_response_arrived))
     = [1]
  /\ map pv_power_w (sources_ (poll_rtu_sources_ 5100 example_response_arrived))
     = [F32.of_Z 650]
  /\ map raw_regs (sources_ (poll_rtu_sources_ 5100 example_response_arrived))
     = [replicate 50 0]
  /\ map power_w (sources_ (poll_rtu_sources_ 5100 example_response_arrived))
     = [F32.zero]
  /\ reg (register_map_ (poll_rtu_sources_ 5100 example_response_arrived))
         (OFF_INV + 2 + INV_W) = 0
  /\ reg (register_map_ (poll_rtu_sources_ 5100 example_response_arrived))
         (OFF_INV + 2 + INV_St) = 2.
Proof.
  split; [vm_compute; reflexivity |].
  split; [vm_compute; reflexivity |].
  split; [vm_compute; reflexivity |].
  split; [vm_compute; reflexivity |].
  split; [vm_compute; reflexivity |].
  split; [vm_compute; reflexivity |].
  split; vm_compute; reflexivity.
Qed.

(** With two sources the poller has moved on to the next source before
    the response arrives: the answer to the request for source 0
    (registers from 0x1000) is stored in source 1. *)
Lemma response_is_stored_in_the_next_source :
  uart_written (trace_ (poll_rtu_sources_ 5000 example_two_sources))
  = [rtu_frame 126 3 4096 40]
  /\ current_poll_source_ (poll_rtu_sources_ 5000 example_two_sources) = 1%nat
  /\ map data_valid
       (sources_ (poll_rtu_sources_ 5100
                    (set_uart_rx_ (rtu_response example_port_block)
                       (poll_rtu_sources_ 5000 example_two_sources))))
     = [false; true].
Proof.
  split; [vm_compute; reflexivity |].
  split; vm_compute; reflexivity.
Qed.

(** * Properties of the code beyond the specification *)

(** ** Words and bytes, both ways *)

Lemma be16_pair b0 b1 : is_u8 b0 -> is_u8 b1 -> be16 [b0; b1] 0 = 256 * b0 + b1.
Proof.
  intros H0 H1. unfold be16. cbn [nth].
  rewrite lor_shiftl_8 by (unfold is_u8 in *; lia || assumption).
  apply u16_small. unfold is_u8, is_u16 in *. lia.
Qed.

(** X1. [be16] reads back the word [put_be16] has stored, and [put_be16]
    stores back the two bytes [be16] has read. *)
Theorem word_bytes_round_trip v b0 b1 :
  is_u16 v -> is_u8 b0 -> is_u8 b1 ->
  be16 (put_be16 v) 0 = v /\ put_be16 (be16 [b0; b1] 0) = [b0; b1].
Proof.
  intros Hv H0 H1. split.
  - apply (be16_put_be16 v [] []). exact Hv.
  - rewrite be16_pair by assumption.
    rewrite put_be16_bytes by (unfold is_u8, is_u16 in *; lia).
    unfold is_u8 in *.
    replace ((256 * b0 + b1) / 256) with b0
      by (apply Z.div_unique with b1; lia).
    replace ((256 * b0 + b1) mod 256) with b1
      by (apply Z.mod_unique with b0; lia).
    reflexivity.
Qed.

Lemma word_bytes_round_trip_witness :
  be16 (put_be16 49159) 0 = 49159 /\ put_be16 (be16 [192; 7] 0) = [192; 7].
Proof.
  apply (word_bytes_round_trip 49159 192 7); unfold is_u16, is_u8; lia.
Defined.

(** ** The CRC of a framed message *)

Lemma crc16_shift_double y : 0 <= y -> crc16_shift (2 * y) = y.
Proof.
  intros Hy. unfold crc16_shift.
  change 1 with (Z.ones 1) at 1. rewrite Z.land_ones by lia.
  change (2 ^ 1) with 2.
  replace ((2 * y) mod 2) with 0
    by (apply Z.mod_unique with y; lia).
  change (0 =? 1) with false. cbv iota.
  rewrite Z.shiftr_div_pow2 by lia. change (2 ^ 1) with 2.
  symmetry; apply Z.div_unique with 0; lia.
Qed.

Lemma crc16_shifts_out_zero_byte h :
  0 <= h -> Nat.iter 8 crc16_shift (256 * h) = h.
Proof.
  intros Hh. unfold Nat.iter. cbn [nat_rect].
  replace (256 * h) with (2 * (2 * (2 * (2 * (2 * (2 * (2 * (2 * h)))))))) by lia.
  rewrite !crc16_shift_double by lia. reflexivity.
Qed.

Lemma lxor_low_byte crc : 0 <= crc -> Z.lxor crc (crc mod 256) = 256 * (crc / 256).
Proof.
  intros Hc. change 256 with (2 ^ 8).
  rewrite <- Z.land_ones by lia.
  rewrite <- Z.shiftr_div_pow2, Z.mul_comm, <- Z.shiftl_mul_pow2 by lia.
  rewrite <- Z.ldiff_ones_r by lia.
  apply Z.bits_inj'. intros n Hn.
  rewrite Z.lxor_spec, Z.land_spec, Z.ldiff_spec.
  destruct (Z.testbit crc n), (Z.testbit (Z.ones 8) n); reflexivity.
Qed.

(** The low byte of the CRC, then the high byte, bring the register to 0. *)
Lemma crc16_byte_trailer crc :
  is_u16 crc -> crc16_byte (crc16_byte crc (crc mod 256)) (crc / 256) = 0.
Proof.
  intros [H0 H1]. unfold crc16_byte at 2.
  rewrite lxor_low_byte by exact H0.
  rewrite crc16_shifts_out_zero_byte by (apply Z.div_pos; lia).
  unfold crc16_byte. rewrite Z.lxor_nilpotent. reflexivity.
Qed.

Lemma calc_crc16_app data rest :
  calc_crc16_ (data ++ rest) (length data + length rest)
  = fold_left crc16_byte rest (calc_crc16_ data (length data)).
Proof.
  unfold calc_crc16_.
  rewrite <- length_app, !take_ge by lia. apply fold_left_app.
Qed.

(** X2. The CRC of a message followed by its own CRC, low byte first as
    the frames carry it, is 0. *)
Theorem crc16_of_framed_message_is_zero data :
  Forall is_u8 data ->
  calc_crc16_
    (data ++ [calc_crc16_ data (length data) mod 256;
              calc_crc16_ data (length data) / 256])
    (length data + 2)
  = 0.
Proof.
  intros Hdata.
  rewrite (calc_crc16_app data [_; _]). cbn [fold_left].
  apply crc16_byte_trailer. apply calc_crc16_u16. exact Hdata.
Qed.

Lemma crc16_of_framed_message_is_zero_witness :
  calc_crc16_
    ([126; 3; 16; 0; 0; 40]
       ++ [calc_crc16_ [126; 3; 16; 0; 0; 40] 6 mod 256;
           calc_crc16_ [126; 3; 16; 0; 0; 40] 6 / 256])
    8
  = 0.
Proof.
  apply (crc16_of_framed_message_is_zero [126; 3; 16; 0; 0; 40]).
  repeat constructor; lia.
Defined.

(** ** Receiving an RTU frame *)

Lemma nth_app_last_two (body : list Z) lo hi :
  nth (length body) (body ++ [lo; hi]) 0 = lo
  /\ nth (S (length body)) (body ++ [lo; hi]) 0 = hi.
Proof.
  split.
  - rewrite app_nth2, Nat.sub_diag by lia. reflexivity.
  - rewrite app_nth2 by lia.
    replace (S (length body) - length body)%nat with 1%nat by lia. reflexivity.
Qed.

(** [read_rtu_response_] on a receive buffer that holds a message and
    two trailer bytes: the frame is taken when the trailer is the CRC of
    the message, low byte first, and refused with -1 otherwise; either
    way the bytes have left the buffer. *)
Lemma read_rtu_response_framed body lo hi st :
  Forall is_u8 body -> is_u8 lo -> is_u8 hi ->
  (3 <= length body <= 254)%nat ->
  uart_rx_ st = body ++ [lo; hi] ->
  read_rtu_response_ 256 st
  = (if (lo =? calc_crc16_ body (length body) mod 256)
        && (hi =? calc_crc16_ body (length body) / 256)
     then Z.of_nat (length body + 2) else -1,
     body ++ [lo; hi], set_uart_rx_ [] st).
Proof.
  intros Hbody Hlo Hhi Hlen Hrx. unfold read_rtu_response_. rewrite Hrx.
  assert (Hl : length (body ++ [lo; hi]) = (length body + 2)%nat)
    by (rewrite length_app; reflexivity).
  rewrite take_ge, drop_ge by lia. rewrite Hl.
  destruct (Nat.ltb_spec (length body + 2) 5) as [? | _]; [lia |].
  replace (length body + 2 - 2)%nat with (length body) by lia.
  replace (length body + 2 - 1)%nat with (S (length body)) by lia.
  rewrite calc_crc16_prefix by reflexivity.
  destruct (nth_app_last_two body lo hi) as [-> ->].
  pose proof (calc_crc16_u16 body (length body) Hbody) as Hcrc.
  set (crc := calc_crc16_ body (length body)) in *.
  rewrite Z.lor_comm, lor_shiftl_8 by (unfold is_u8 in *; lia || assumption).
  rewrite u16_small by (unfold is_u8, is_u16 in *; lia).
  pose proof (Z.div_mod crc 256 ltac:(lia)) as Hdm.
  pose proof (Z.mod_pos_bound crc 256 ltac:(lia)) as Hm.
  unfold is_u8, is_u16 in *.
  destruct (Z.eqb_spec crc (256 * hi + lo)) as [Heq | Hne]; cbn [negb].
  - assert (hi = crc / 256) by (apply Z.div_unique with lo; lia).
    assert (lo = crc mod 256) by (apply Z.mod_unique with hi; lia).
    destruct (Z.eqb_spec lo (crc mod 256)); [| contradiction].
    destruct (Z.eqb_spec hi (crc / 256)); [| contradiction].
    reflexivity.
  - destruct (Z.eqb_spec lo (crc mod 256)); [| reflexivity].
    destruct (Z.eqb_spec hi (crc / 256)); [| reflexivity].
    lia.
Qed.

(** X3. [read_rtu_response_] accepts a frame of 5 to 256 bytes (its
    length is returned) exactly when its last two bytes are the CRC of
    the bytes before them, low byte first; any other trailer gives -1.
    In both cases the frame has left the receive buffer. *)
Theorem read_rtu_response_checks_trailer body lo hi st :
  Forall is_u8 body -> is_u8 lo -> is_u8 hi ->
  (3 <= length body <= 254)%nat ->
  uart_rx_ st = body ++ [lo; hi] ->
  let crc := calc_crc16_ body (length body) in
  let result := read_rtu_response_ 256 st in
  fst (fst result)
  = (if (lo =? crc mod 256) && (hi =? crc / 256) then Z.of_nat (length body + 2) else -1)
  /\ snd (fst result) = body ++ [lo; hi]
  /\ uart_rx_ (snd result) = [].
Proof.
  intros Hbody Hlo Hhi Hlen Hrx crc result. subst result.
  rewrite (read_rtu_response_framed body lo hi st) by assumption.
  repeat split.
Qed.

(** The response of the example, 85 bytes, is accepted. *)
Lemma read_rtu_response_checks_trailer_witness :
  fst (fst (read_rtu_response_ 256 example_response_arrived)) = 85
  /\ snd (fst (read_rtu_response_ 256 example_response_arrived))
     = rtu_response example_port_block
  /\ uart_rx_ (snd (read_rtu_response_ 256 example_response_arrived)) = [].
Proof.
  apply (read_rtu_response_checks_trailer
           ([126; 3; 80] ++ words_be example_port_block)
           (calc_crc16_ ([126; 3; 80] ++ words_be example_port_block) 83 mod 256)
           (calc_crc16_ ([126; 3; 80] ++ words_be example_port_block) 83 / 256)
           example_response_arrived).
  - apply Forall_forall. intros x Hx.
    assert (H : forallb (fun b => (0 <=? b) && (b <? 256))
                  ([126; 3; 80] ++ words_be example_port_block) = true)
      by (vm_compute; reflexivity).
    rewrite forallb_forall in H. apply list_elem_of_In in Hx. specialize (H x Hx).
    unfold is_u8. lia.
  - vm_compute. split; [discriminate | reflexivity].
  - vm_compute. split; [discriminate | reflexivity].
  - vm_compute. lia.
  - vm_compute. reflexivity.
Defined.

(** ** Strings, written and read back *)

Lemma cstr_nonzero str : Forall (fun c => c <> 0) (cstr str).
Proof.
  induction str as [| c str IH]; simpl; [constructor |].
  destruct (Nat.eqb_spec (nat_of_ascii c) 0); constructor; [lia | exact IH].
Qed.

Lemma map_nth_seq_pad (s : list Z) m :
  map (fun i => nth i s 0) (seq 0 m) = take m s ++ replicate (m - length s) 0.
Proof.
  induction m as [| m IH]; [reflexivity |].
  rewrite seq_S, map_app, IH. cbn [map Nat.add].
  destruct (Nat.lt_ge_cases m (length s)) as [Hlt | Hge].
  - replace (m - length s)%nat with 0%nat by lia.
    replace (S m - length s)%nat with 0%nat by lia.
    cbn [replicate]. rewrite !app_nil_r.
    destruct (lookup_lt_is_Some_2 s m Hlt) as [x Hx].
    rewrite (take_S_r s m x Hx). f_equal.
    rewrite nth_lookup, Hx. reflexivity.
  - rewrite nth_overflow by lia.
    rewrite !take_ge by lia.
    replace (S m - length s)%nat with (S (m - length s)) by lia.
    rewrite <- app_assoc. f_equal.
    rewrite replicate_S_end. reflexivity.
Qed.

Lemma until_nul_pad (t : list Z) k :
  Forall (fun c => c <> 0) t -> until_nul (t ++ replicate k 0) = t.
Proof.
  induction 1 as [| c t Hc _ IH]; cbn [app until_nul].
  - destruct k; reflexivity.
  - destruct (Z.eqb_spec c 0); [contradiction | rewrite IH; reflexivity].
Qed.

Lemma pack_reg_bytes s k :
  Forall is_u8 s ->
  pack_reg s k / 256 = nth (2 * k) s 0 /\ pack_reg s k mod 256 = nth (2 * k + 1) s 0.
Proof.
  intros Hs. unfold pack_reg.
  pose proof (nth_is_u8 s (2 * k) Hs) as H0.
  pose proof (nth_is_u8 s (2 * k + 1) Hs) as H1.
  unfold is_u8 in *. split.
  - symmetry. apply Z.div_unique with (nth (2 * k + 1) s 0); lia.
  - symmetry. apply Z.mod_unique with (nth (2 * k) s 0); lia.
Qed.

Lemma flat_map_pack_reg s n :
  Forall is_u8 s ->
  flat_map (fun k => [pack_reg s k / 256; pack_reg s k mod 256]) (seq 0 n)
  = map (fun i => nth i s 0) (seq 0 (2 * n)).
Proof.
  intros Hs. induction n as [| n IH]; [reflexivity |].
  rewrite seq_S, flat_map_app, IH. cbn [flat_map Nat.add app].
  replace (2 * S n)%nat with (S (S (2 * n))) by lia.
  rewrite (seq_S (S (2 * n))), (seq_S (2 * n)), !map_app. cbn [map Nat.add].
  destruct (pack_reg_bytes s n Hs) as [-> ->].
  rewrite <- app_assoc. replace (2 * n + 1)%nat with (S (2 * n)) by lia. reflexivity.
Qed.

Lemma flat_map_ext_In {A B} (f g : A -> list B) (l : list A) :
  (forall x, In x l -> f x = g x) -> flat_map f l = flat_map g l.
Proof.
  induction l as [| x l IH]; intros H; [reflexivity |].
  cbn [flat_map]. rewrite (H x) by (left; reflexivity).
  rewrite IH by (intros y Hy; apply H; right; exact Hy). reflexivity.
Qed.

(** X4. A string written by [write_string_regs] reads back from the
    registers as its first [2 * max_regs] characters; a longer string
    is cut, without a terminating NUL. *)
Theorem write_string_regs_reads_back base str max_regs regs :
  (base + max_regs <= length regs)%nat ->
  string_of_regs (write_string_regs base str max_regs regs) base max_regs
  = take (2 * max_regs) (cstr str).
Proof.
  intros Hlen. rewrite write_string_regs_spec by exact Hlen.
  unfold string_of_regs.
  rewrite (flat_map_ext_In _ (fun k => [pack_reg (cstr str) k / 256; pack_reg (cstr str) k mod 256])).
  - rewrite flat_map_pack_reg by apply cstr_range.
    rewrite map_nth_seq_pad. apply until_nul_pad.
    apply Forall_take, cstr_nonzero.
  - intros k Hk. apply in_seq in Hk.
    rewrite reg_middle by (rewrite ?length_take; unfold pack_string;
                           rewrite ?length_map, ?length_seq; lia).
    unfold pack_string.
    rewrite (nth_indep _ 0 (pack_reg (cstr str) 0)) by (rewrite length_map, length_seq; lia).
    rewrite map_nth, seq_nth by lia. reflexivity.
Qed.

Lemma write_string_regs_reads_back_witness :
  string_of_regs (write_string_regs 4 "Fronius" 16 (replicate 178 0)) 4 16
  = take (2 * 16) (cstr "Fronius").
Proof.
  apply (write_string_regs_reads_back 4 "Fronius" 16 (replicate 178 0)).
  simpl. lia.
Defined.

(** ** Configuration *)

Lemma cstr_char_range str : Forall (fun c => 0 < c < 256) (cstr str).
Proof.
  induction str as [| c str IH]; simpl; [constructor |].
  destruct (Nat.eqb_spec (nat_of_ascii c) 0); constructor; [| exact IH].
  pose proof (nat_ascii_bounded c). lia.
Qed.

Lemma cstr_of_cstr l : Forall (fun c => 0 < c < 256) l -> cstr (of_cstr l) = l.
Proof.
  induction 1 as [| c l Hc _ IH]; [reflexivity |].
  cbn [of_cstr]. destruct (Z.eqb_spec c 0); [lia |].
  cbn [cstr]. rewrite nat_ascii_embedding by lia.
  destruct (Nat.eqb_spec (Z.to_nat c) 0); [lia |].
  rewrite Z2Nat.id by lia. rewrite IH. reflexivity.
Qed.

(** [strncpy] keeps the first [n] characters. *)
Lemma cstr_strncpy src n : cstr (strncpy src n) = take n (cstr src).
Proof.
  unfold strncpy. apply cstr_of_cstr. apply Forall_take, cstr_char_range.
Qed.

(** X5. [add_rtu_source] appends one source while fewer than 8 are
    configured and does nothing otherwise.  The entry holds the numbers
    as given, [connected_phase] only for a single-phase source, and of
    the strings what the arrays hold: 31, 23 and 32 characters.  It is
    not valid yet. *)
Theorem add_rtu_source_stores port ph rp cp mppt nm mdl ser st :
  let st' := add_rtu_source port ph rp cp mppt nm mdl ser st in
  if (num_sources_ st <? MAX_RTU_SOURCES)%nat then
    exists s,
      sources_ st' = sources_ st ++ [s]
      /\ num_sources_ st' = S (num_sources_ st)
      /\ (port_number s, phases s, rated_power_w s, mppt_inputs s) = (port, ph, rp, mppt)
      /\ connected_phase s = (if ph =? 1 then cp else 0)
      /\ cstr (name s) = take 31 (cstr nm)
      /\ cstr (model s) = take 23 (cstr mdl)
      /\ cstr (serial_number s) = take 32 (cstr ser)
      /\ data_valid s = false
  else st' = st.
Proof.
  intros st'. subst st'. unfold add_rtu_source.
  destruct (Nat.ltb_spec (num_sources_ st) MAX_RTU_SOURCES) as [Hlt | Hge].
  - destruct (Nat.leb_spec MAX_RTU_SOURCES (num_sources_ st)) as [? | _]; [lia |].
    eexists. split; [reflexivity |].
    split; [unfold num_sources_; cbn [sources_ set_sources_];
            rewrite length_app; cbn [length]; lia |].
    cbn [port_number phases rated_power_w mppt_inputs connected_phase name model
         serial_number data_valid new_source].
    rewrite !cstr_strncpy. repeat split; reflexivity.
  - destruct (Nat.leb_spec MAX_RTU_SOURCES (num_sources_ st)) as [_ | ?]; [reflexivity | lia].
Qed.

(** ** The ratings summed by [setup()] *)

Lemma setup_ratings_fold srcs : forall c,
  is_u16 (agg_rated_power_w c) ->
  let c' :=
    fold_left
      (fun c s =>
         {| unit_id := unit_id c;
            agg_phases := agg_phases c;
            agg_rated_power_w := u16 (agg_rated_power_w c + rated_power_w s);
            rated_voltage_v := rated_voltage_v c;
            rated_current_a :=
              if 0 <? rated_voltage_v c
              then F32.add (rated_current_a c)
                     (F32.div (F32.of_Z (rated_power_w s)) (F32.of_Z (rated_voltage_v c)))
              else rated_current_a c;
            manufacturer := manufacturer c;
            model_name := model_name c;
            agg_serial_number := agg_serial_number c |})
      srcs c in
  agg_rated_power_w c' = u16 (agg_rated_power_w c + sum_rated_power srcs)
  /\ unit_id c' = unit_id c /\ agg_phases c' = agg_phases c
  /\ rated_voltage_v c' = rated_voltage_v c
  /\ manufacturer c' = manufacturer c /\ model_name c' = model_name c
  /\ agg_serial_number c' = agg_serial_number c
  /\ (rated_voltage_v c <= 0 -> rated_current_a c' = rated_current_a c).
Proof.
  induction srcs as [| s srcs IH]; intros c Hc; cbn [fold_left sum_rated_power fold_right].
  - rewrite Z.add_0_r, u16_small by exact Hc. repeat split; reflexivity.
  - match goal with
    | |- context [fold_left ?f srcs ?c1] => specialize (IH c1)
    end.
    cbn [agg_rated_power_w unit_id agg_phases rated_voltage_v manufacturer model_name
         agg_serial_number rated_current_a] in IH.
    destruct (IH (u16_range _)) as (H1 & H2 & H3 & H4 & H5 & H6 & H7 & H8).
    rewrite H1, H2, H3, H4, H5, H6, H7.
    repeat split.
    + unfold u16. rewrite Z.add_mod_idemp_l by lia. f_equal.
      unfold sum_rated_power. lia.
    + intros Hv. rewrite H8 by exact Hv.
      destruct (Z.ltb_spec 0 (rated_voltage_v c)); [lia | reflexivity].
Qed.

Lemma reg_fill_ne base n v regs j :
  (j < base \/ base + n <= j)%nat -> reg (fill base n v regs) j = reg regs j.
Proof.
  intros Hj. unfold fill.
  assert (H : forall l, (forall i, In i l -> (i < n)%nat) -> forall r,
             reg (fold_left (fun r i => <[(base + i)%nat := v]> r) l r) j = reg r j).
  { induction l as [| i l IH]; intros Hl r; [reflexivity |].
    cbn [fold_left]. rewrite IH by (intros k Hk; apply Hl; right; exact Hk).
    apply reg_insert_ne. specialize (Hl i (or_introl eq_refl)). lia. }
  apply H. intros i Hi. apply in_seq in Hi. lia.
Qed.

Lemma length_fill base n v regs : length (fill base n v regs) = length regs.
Proof.
  unfold fill. generalize (seq 0 n). intros l. revert regs.
  induction l as [| i l IH]; intros regs; [reflexivity |].
  cbn [fold_left]. rewrite IH, length_insert. reflexivity.
Qed.

Lemma length_write_string_char base s regs i :
  length (write_string_char base s regs i) = length regs.
Proof.
  unfold write_string_char. destruct (_ =? _)%nat; apply length_insert.
Qed.

Lemma length_write_string_regs base str n regs :
  length (write_string_regs base str n regs) = length regs.
Proof.
  unfold write_string_regs.
  match goal with |- context [seq 0 ?k] => generalize (seq 0 k) end.
  intros l. rewrite <- (length_fill base n 0 regs). generalize (fill base n 0 regs).
  induction l as [| i l IH]; intros r; [reflexivity |].
  cbn [fold_left]. rewrite IH. apply length_write_string_char.
Qed.

Lemma reg_write_string_regs_ne base str n regs j :
  (j < base \/ base + n <= j)%nat ->
  reg (write_string_regs base str n regs) j = reg regs j.
Proof.
  intros Hj. unfold write_string_regs.
  rewrite <- (reg_fill_ne base n 0 regs j Hj). generalize (fill base n 0 regs).
  set (len := if (n * 2 <? length (cstr str))%nat then (n * 2)%nat else length (cstr str)).
  assert (Hlen : (len <= 2 * n)%nat).
  { unfold len. destruct (Nat.ltb_spec (n * 2) (length (cstr str))); lia. }
  assert (H : forall l, (forall i, In i l -> (i < len)%nat) -> forall r,
             reg (fold_left (write_string_char base (cstr str)) l r) j = reg r j).
  { induction l as [| i l IH]; intros Hl r; [reflexivity |].
    cbn [fold_left]. rewrite IH by (intros k Hk; apply Hl; right; exact Hk).
    specialize (Hl i (or_introl eq_refl)).
    assert (i / 2 < n)%nat by (apply Nat.Div0.div_lt_upper_bound; lia).
    unfold write_string_char. destruct (_ =? _)%nat; apply reg_insert_ne; lia. }
  intros r. apply H. intros i Hi. apply in_seq in Hi. lia.
Qed.

(** The register at [j] after a chain of writes to other registers. *)
Ltac skip_writes :=
  repeat first
    [ rewrite reg_insert_ne by (cbv; lia)
    | rewrite reg_fill_ne by (cbv; lia)
    | rewrite reg_write_string_regs_ne by (cbv; lia) ].

Ltac length_of_writes :=
  repeat first
    [ rewrite length_insert
    | rewrite length_fill
    | rewrite length_write_string_regs ].

Lemma setup_ratings_spec cfg srcs :
  agg_rated_power_w (setup_ratings cfg srcs) = sum_rated_power srcs mod 65536
  /\ unit_id (setup_ratings cfg srcs) = unit_id cfg
  /\ agg_phases (setup_ratings cfg srcs) = agg_phases cfg
  /\ rated_voltage_v (setup_ratings cfg srcs) = rated_voltage_v cfg
  /\ (rated_voltage_v cfg <= 0 -> rated_current_a (setup_ratings cfg srcs) = F32.zero).
Proof.
  unfold setup_ratings.
  match goal with
  | |- context [fold_left _ srcs ?c0] =>
      pose proof (setup_ratings_fold srcs c0) as H
  end.
  cbn [agg_rated_power_w unit_id agg_phases rated_voltage_v manufacturer model_name
       agg_serial_number rated_current_a] in H.
  destruct H as (H1 & H2 & H3 & H4 & _ & _ & _ & H8); [unfold is_u16; lia |].
  rewrite H1, H2, H3, H4. repeat split. exact H8.
Qed.

(** X6. [setup()] adds up the rated powers of the sources in 16 bits: the
    configuration, [WRtg] and [VARtg] hold the sum modulo 65536.  The
    sources are left as they are. *)
Theorem setup_sums_rated_power st :
  length (register_map_ st) = TOTAL_REGS ->
  agg_rated_power_w (agg_config_ (setup st)) = sum_rated_power (sources_ st) mod 65536
  /\ reg (register_map_ (setup st)) (OFF_M120 + 2 + 1)
     = sum_rated_power (sources_ st) mod 65536
  /\ reg (register_map_ (setup st)) (OFF_M120 + 2 + 3)
     = sum_rated_power (sources_ st) mod 65536
  /\ sources_ (setup st) = sources_ st.
Proof.
  intros Hlen.
  destruct (setup_ratings_spec (agg_config_ st) (sources_ st)) as (Hsum & _).
  unfold setup, build_static_registers_. cbv zeta.
  cbn [register_map_ set_register_map_ agg_config_ set_agg_config_ sources_].
  split; [exact Hsum |]. split; [| split; [| reflexivity]].
  - skip_writes. rewrite reg_insert_eq; [exact Hsum |].
    length_of_writes. rewrite Hlen. cbv; lia.
  - skip_writes. rewrite reg_insert_eq; [exact Hsum |].
    length_of_writes. rewrite Hlen. cbv; lia.
Qed.

(** 40 kW and 30 kW: the sum, 70000 W, does not fit 16 bits, and the
    registers show 4464. *)
Lemma setup_sums_rated_power_witness :
  sum_rated_power (sources_ example_large_ratings) mod 65536 = 4464
  /\ (agg_rated_power_w (agg_config_ (setup example_large_ratings))
      = sum_rated_power (sources_ example_large_ratings) mod 65536
      /\ reg (register_map_ (setup example_large_ratings)) (OFF_M120 + 2 + 1)
         = sum_rated_power (sources_ example_large_ratings) mod 65536
      /\ reg (register_map_ (setup example_large_ratings)) (OFF_M120 + 2 + 3)
         = sum_rated_power (sources_ example_large_ratings) mod 65536
      /\ sources_ (setup example_large_ratings) = sources_ example_large_ratings).
Proof.
  split.
  - vm_compute. reflexivity.
  - apply (setup_sums_rated_power example_large_ratings).
    vm_compute. reflexivity.
Defined.

(** ** Checking a property of bytes by enumeration *)

Lemma forall_below (P : Z -> bool) (n : nat) :
  forallb P (map Z.of_nat (seq 0 n)) = true ->
  forall z, 0 <= z < Z.of_nat n -> P z = true.
Proof.
  intros H z Hz. rewrite forallb_forall in H. apply H.
  rewrite <- (Z2Nat.id z) by lia. apply in_map. apply in_seq. lia.
Qed.

(** [fc | 0x80] sets bit 7 of a byte. *)
Lemma lor_128 fc :
  is_u8 fc -> u8 (Z.lor fc 128) = if fc <? 128 then fc + 128 else fc.
Proof.
  intros Hfc. apply Z.eqb_eq.
  apply (forall_below
           (fun fc => u8 (Z.lor fc 128) =? (if fc <? 128 then fc + 128 else fc)) 256);
    [vm_compute; reflexivity | exact Hfc].
Qed.

(** ** What a register write leaves alone *)

Lemma fold_insert_frame (g : nat -> Z) off : forall (l : list nat) regs,
  let regs' := fold_left (fun r i => <[(off + i)%nat := g i]> r) l regs in
  length regs' = length regs
  /\ take off regs' = take off regs
  /\ (forall hi, (forall i, In i l -> (off + i < hi)%nat) -> drop hi regs' = drop hi regs)
  /\ (Forall is_u16 regs -> (forall i, In i l -> is_u16 (g i)) -> Forall is_u16 regs').
Proof.
  induction l as [| i l IH]; intros regs; cbn [fold_left].
  - repeat split; auto.
  - specialize (IH (<[(off + i)%nat := g i]> regs)). cbv zeta in IH.
    destruct IH as (H1 & H2 & H3 & H4). repeat split.
    + rewrite H1. apply length_insert.
    + rewrite H2. apply take_insert_ge. lia.
    + intros hi Hhi. rewrite H3 by (intros k Hk; apply Hhi; right; exact Hk).
      apply drop_insert_lt. apply Hhi. left; reflexivity.
    + intros Hregs Hg. apply H4.
      * apply Forall_insert; [exact Hregs | apply Hg; left; reflexivity].
      * intros k Hk. apply Hg. right; exact Hk.
Qed.

(** [write_sunspec_registers_] changes the register image and the trace
    and nothing else; of the image only offsets 152 to 175, and on the
    trace it leaves no socket event.  When it returns [false] nothing
    has changed. *)
Lemma write_sunspec_registers_frame start count values st :
  exists evs regs,
    snd (write_sunspec_registers_ start count values st)
    = emit evs (set_register_map_ regs st)
    /\ tcp_sent evs = []
    /\ (fst (write_sunspec_registers_ start count values st) = false ->
        evs = [] /\ regs = register_map_ st)
    /\ length regs = length (register_map_ st)
    /\ take 152 regs = take 152 (register_map_ st)
    /\ drop 176 regs = drop 176 (register_map_ st)
    /\ (Forall is_u16 (register_map_ st) -> Forall is_u16 values -> Forall is_u16 regs).
Proof.
  assert (Hsame : exists evs regs,
             st = emit evs (set_register_map_ regs st)
             /\ tcp_sent evs = []
             /\ (evs = [] /\ regs = register_map_ st)
             /\ length regs = length (register_map_ st)
             /\ take 152 regs = take 152 (register_map_ st)
             /\ drop 176 regs = drop 176 (register_map_ st)
             /\ (Forall is_u16 (register_map_ st) -> Forall is_u16 values ->
                 Forall is_u16 regs)).
  { exists [], (register_map_ st). repeat split; auto.
    destruct st. unfold emit, set_register_map_. cbn. rewrite app_nil_r. reflexivity. }
  unfold write_sunspec_registers_.
  destruct (start <? SUNSPEC_BASE).
  { destruct Hsame as (evs & regs & H1 & H2 & H3 & H4).
    exists evs, regs. cbn [fst snd]. tauto. }
  destruct (Z.ltb_spec (u16 (start - SUNSPEC_BASE)) (Z.of_nat (OFF_M123 + 2))) as [Hlo | Hlo];
    cbn [orb].
  { destruct Hsame as (evs & regs & H1 & H2 & H3 & H4).
    exists evs, regs. cbn [fst snd]. tauto. }
  destruct (Z.ltb_spec (Z.of_nat OFF_END) (u16 (start - SUNSPEC_BASE) + count)) as [Hhi | Hhi].
  { destruct Hsame as (evs & regs & H1 & H2 & H3 & H4).
    exists evs, regs. cbn [fst snd]. tauto. }
  clear Hsame. cbv zeta.
  set (off := Z.to_nat (u16 (start - SUNSPEC_BASE))).
  set (n := Z.to_nat count).
  change (Z.of_nat (OFF_M123 + 2)) with 152 in Hlo. change (Z.of_nat OFF_END) with 176 in Hhi.
  destruct (fold_insert_frame (fun i => nth i values 0) off (seq 0 n) (register_map_ st))
    as (H1 & H2 & H3 & H4).
  set (regs := fold_left (fun r i => <[(off + i)%nat := nth i values 0]> r) (seq 0 n)
                 (register_map_ st)) in *.
  assert (Hoff : (152 <= off)%nat) by (unfold off; lia).
  assert (Htake : take 152 regs = take 152 (register_map_ st)).
  { replace 152%nat with (Nat.min 152 off) by lia.
    rewrite <- !take_take, H2. reflexivity. }
  assert (Hdrop : drop 176 regs = drop 176 (register_map_ st)).
  { apply H3. intros i Hi. apply in_seq in Hi. unfold off, n in *. lia. }
  assert (Hu16 : Forall is_u16 (register_map_ st) -> Forall is_u16 values ->
                 Forall is_u16 regs).
  { intros Hr Hv. apply H4; [exact Hr |]. intros i _.
    destruct (Nat.lt_ge_cases i (length values)) as [Hi | Hi].
    - rewrite Forall_lookup in Hv. destruct (lookup_lt_is_Some_2 values i Hi) as [x Hx].
      rewrite nth_lookup, Hx. exact (Hv i x Hx).
    - rewrite nth_overflow by lia. unfold is_u16; lia. }
  cbn [register_map_ set_register_map_].
  destruct (write_touches_control off n).
  - rewrite forward_power_limit_emit. cbn [dtu_address_ sources_ set_register_map_ fst snd].
    eexists _, regs. split; [reflexivity |].
    split; [apply forward_events_tcp |]. split; [discriminate |]. tauto.
  - exists [], regs. cbn [fst snd]. rewrite emit_nil.
    split; [reflexivity |]. split; [reflexivity |]. split; [discriminate |]. tauto.
Qed.

(** ** What a TCP request leaves alone *)

Ltac unfold_tcp_updates :=
  unfold count_tcp_error, send_tcp_error_, send_tcp_response_;
  cbn [emit set_tcp_error_count_ set_tcp_activity_ set_register_map_
       tcp_port_ poll_interval_ms_ rtu_timeout_ms_ dtu_address_ agg_config_ sources_
       tcp_request_count_ tcp_error_count_ last_tcp_activity_ms_ current_poll_source_
       last_poll_time_ rtu_busy_ rtu_request_time_ register_map_ agg_power_w_
       agg_current_a_ agg_voltage_v_ agg_frequency_hz_ agg_energy_kwh_ uart_rx_ trace_].

Lemma be16_values_u16 buf n :
  Forall is_u16 (map (fun i => be16 buf (13 + i * 2)) (seq 0 n)).
Proof.
  generalize (seq 0 n). intros l.
  induction l as [| i l IH]; constructor; [apply be16_range | exact IH].
Qed.

(** Whatever a client sends, the request changes nothing of the image
    but offsets 152 to 175, and neither the sources, the state of the
    poller nor the settings. *)
Lemma process_tcp_request_frame now client_fd buf st :
  length (register_map_ (process_tcp_request_ now client_fd buf st))
  = length (register_map_ st)
  /\ take 152 (register_map_ (process_tcp_request_ now client_fd buf st))
     = take 152 (register_map_ st)
  /\ drop 176 (register_map_ (process_tcp_request_ now client_fd buf st))
     = drop 176 (register_map_ st)
  /\ poller_state (process_tcp_request_ now client_fd buf st) = poller_state st
  /\ settings (process_tcp_request_ now client_fd buf st) = settings st
  /\ (Forall is_u16 (register_map_ st) ->
      Forall is_u16 (register_map_ (process_tcp_request_ now client_fd buf st))).
Proof.
  unfold process_tcp_request_, poller_state, settings. cbv zeta.
  set (st1 := set_tcp_activity_ now (u32 (tcp_request_count_ st + 1)) st).
  destruct (_ <? 8); [repeat split; auto |].
  destruct (negb _); [repeat split; auto |].
  destruct (negb _); [repeat split; auto |].
  destruct (_ =? 3).
  { destruct (_ <? 12); [repeat split; auto |].
    destruct (125 <? _); [repeat split; auto |].
    destruct (read_sunspec_registers_ _ _ _); repeat split; auto. }
  destruct (_ =? 6).
  { destruct (_ <? 12); [repeat split; auto |].
    destruct (write_sunspec_registers_frame (be16 buf 8) 1 [be16 buf 10] st1)
      as (evs & regs & Hst & _ & _ & Hlen & Htake & Hdrop & Hu16).
    assert (Hv : Forall is_u16 [be16 buf 10]) by (repeat constructor; apply be16_range).
    destruct (write_sunspec_registers_ _ _ _ _) as [[|] st2]; cbn [snd] in Hst; subst st2;
      unfold_tcp_updates; rewrite Hlen, Htake, Hdrop; repeat split; auto. }
  destruct (_ =? 16).
  { destruct (_ <? 13); [repeat split; auto |].
    destruct (_ || _); [repeat split; auto |].
    destruct (write_sunspec_registers_frame (be16 buf 8) (be16 buf 10)
                (map (fun i => be16 buf (13 + i * 2)) (seq 0 (Z.to_nat (be16 buf 10)))) st1)
      as (evs & regs & Hst & _ & _ & Hlen & Htake & Hdrop & Hu16).
    pose proof (be16_values_u16 buf (Z.to_nat (be16 buf 10))) as Hv.
    destruct (write_sunspec_registers_ _ _ _ _) as [[|] st2]; cbn [snd] in Hst; subst st2;
      unfold_tcp_updates; rewrite Hlen, Htake, Hdrop; repeat split; auto. }
  repeat split; auto.
Qed.

(** X7. Whatever a client sends, the request changes nothing of the image
    but offsets 152 to 175 (the payload of Model 123) and keeps its
    length.  It changes neither the sources, the members of the poller
    (its index, its times, [rtu_busy_]; nothing is read from the
    receive buffer) nor the settings and the aggregate values. *)
Theorem tcp_request_writes_only_controls now client_fd buf st :
  length (register_map_ (process_tcp_request_ now client_fd buf st))
  = length (register_map_ st)
  /\ take 152 (register_map_ (process_tcp_request_ now client_fd buf st))
     = take 152 (register_map_ st)
  /\ drop 176 (register_map_ (process_tcp_request_ now client_fd buf st))
     = drop 176 (register_map_ st)
  /\ poller_state (process_tcp_request_ now client_fd buf st) = poller_state st
  /\ settings (process_tcp_request_ now client_fd buf st) = settings st.
Proof.
  destruct (process_tcp_request_frame now client_fd buf st) as (H1 & H2 & H3 & H4 & H5 & _).
  repeat split; assumption.
Qed.

(** ** The shape of a response *)

Lemma be16_bytes buf i :
  Forall is_u8 buf -> be16 buf i = 256 * nth i buf 0 + nth (S i) buf 0.
Proof.
  intros H. unfold be16.
  pose proof (nth_is_u8 buf i H) as H0. pose proof (nth_is_u8 buf (S i) H) as H1.
  rewrite lor_shiftl_8 by (unfold is_u8 in *; lia || assumption).
  apply u16_small. unfold is_u8, is_u16 in *. lia.
Qed.

Lemma mbap_frame_header buf unit fc data :
  Forall is_u8 buf -> Z.of_nat (length data) <= 253 ->
  response_header buf unit (mbap_frame (be16 buf 0) unit fc data)
  /\ nth 7 (mbap_frame (be16 buf 0) unit fc data) 0 = fc.
Proof.
  intros Hbuf Hlen. unfold response_header, mbap_frame. cbv zeta.
  rewrite be16_bytes by exact Hbuf.
  pose proof (nth_is_u8 buf 0 Hbuf) as H0. pose proof (nth_is_u8 buf 1 Hbuf) as H1.
  unfold is_u8 in *.
  cbn [app take firstn nth length].
  replace ((256 * nth 0 buf 0 + nth 1 buf 0) / 256) with (nth 0 buf 0)
    by (apply Z.div_unique with (nth 1 buf 0); lia).
  replace ((256 * nth 0 buf 0 + nth 1 buf 0) mod 256) with (nth 1 buf 0)
    by (apply Z.mod_unique with (nth 0 buf 0); lia).
  rewrite (Z.div_small (2 + Z.of_nat (length data))) by lia.
  rewrite (Z.mod_small (2 + Z.of_nat (length data))) by lia.
  repeat split. lia.
Qed.

(** A frame sent by [send_tcp_response_] for the request [buf]. *)
Lemma send_tcp_response_header client_fd buf unit fc data st :
  Forall is_u8 buf -> Z.of_nat (length data) <= 253 ->
  exists f,
    send_tcp_response_ client_fd (be16 buf 0) unit fc data st = emit [TcpSend client_fd f] st
    /\ response_header buf unit f /\ nth 7 f 0 = fc.
Proof.
  intros Hbuf Hlen. eexists. split.
  - apply send_tcp_response_frame; [apply be16_range | lia].
  - apply mbap_frame_header; assumption.
Qed.

Lemma flat_map_put_be16_length ws : length (flat_map put_be16 ws) = (2 * length ws)%nat.
Proof.
  induction ws as [| w ws IH]; [reflexivity |].
  cbn [flat_map]. rewrite length_app, IH, put_be16_length. cbn [length]. lia.
Qed.

Ltac no_response :=
  exists []; split; [rewrite app_nil_r; reflexivity | left; split; reflexivity].

(** X8. A request is answered with at most one frame, sent to the client
    it came from.  The frame carries the transaction id of the request,
    protocol 0, a length field that counts the bytes after it, and the
    unit id; its function code is that of the request, or, for an
    exception, that of the request with bit 7 set, and the error counter
    goes up by one exactly in that case. *)
Theorem one_response_per_request now client_fd buf st :
  Forall is_u8 buf ->
  let st' := process_tcp_request_ now client_fd buf st in
  let fc := nth 7 buf 0 in
  exists evs,
    trace_ st' = trace_ st ++ evs
    /\ ((tcp_sent evs = [] /\ tcp_error_count_ st' = tcp_error_count_ st)
        \/ exists f,
             tcp_sent evs = [(client_fd, f)]
             /\ response_header buf (unit_id (agg_config_ st)) f
             /\ ((nth 7 f 0 = fc /\ fc < 128
                  /\ tcp_error_count_ st' = tcp_error_count_ st)
                 \/ (nth 7 f 0 = (if fc <? 128 then fc + 128 else fc)
                     /\ tcp_error_count_ st' = u32 (tcp_error_count_ st + 1)))).
Proof.
  intros Hbuf st' fc. subst st'. unfold process_tcp_request_. cbv zeta.
  set (st1 := set_tcp_activity_ now (u32 (tcp_request_count_ st + 1)) st).
  pose proof (nth_is_u8 buf 7 Hbuf) as Hfc. fold fc in Hfc |- *.
  destruct (_ <? 8); [no_response |].
  destruct (negb _); [no_response |].
  change (agg_config_ st1) with (agg_config_ st).
  destruct (Z.eqb_spec (nth 6 buf 0) (unit_id (agg_config_ st))) as [Hunit | _];
    cbn [negb]; [| no_response].
  rewrite <- Hunit.
  assert (Herr : forall code st2 evs,
             st2 = emit evs (set_register_map_ (register_map_ st2) st1) ->
             tcp_sent evs = [] ->
             exists evs',
               trace_ (count_tcp_error
                         (send_tcp_error_ client_fd (be16 buf 0) (nth 6 buf 0) fc code st2))
               = trace_ st ++ evs'
               /\ ((tcp_sent evs' = []
                    /\ tcp_error_count_
                         (count_tcp_error
                            (send_tcp_error_ client_fd (be16 buf 0) (nth 6 buf 0) fc code st2))
                       = tcp_error_count_ st)
                   \/ exists f,
                        tcp_sent evs' = [(client_fd, f)]
                        /\ response_header buf (nth 6 buf 0) f
                        /\ ((nth 7 f 0 = fc /\ fc < 128
                             /\ tcp_error_count_
                                  (count_tcp_error
                                     (send_tcp_error_ client_fd (be16 buf 0) (nth 6 buf 0)
                                        fc code st2))
                                = tcp_error_count_ st)
                            \/ (nth 7 f 0 = (if fc <? 128 then fc + 128 else fc)
                                /\ tcp_error_count_
                                     (count_tcp_error
                                        (send_tcp_error_ client_fd (be16 buf 0)
                                           (nth 6 buf 0) fc code st2))
                                   = u32 (tcp_error_count_ st + 1))))).
  { intros code st2 evs Hst2 Hevs. unfold send_tcp_error_.
    destruct (send_tcp_response_header client_fd buf (nth 6 buf 0) (u8 (Z.lor fc 128))
                [code] st2 Hbuf) as (f & Hf & Hhdr & H7); [cbn; lia |].
    rewrite Hf, Hst2. exists (evs ++ [TcpSend client_fd f]).
    split; [unfold_tcp_updates; rewrite app_assoc; reflexivity |].
    right. exists f. rewrite tcp_sent_app, Hevs.
    split; [reflexivity |]. split; [exact Hhdr |].
    right. split; [rewrite H7; apply lor_128; exact Hfc | reflexivity]. }
  assert (Hok : forall data st2 evs,
             fc < 128 -> Z.of_nat (length data) <= 253 ->
             st2 = emit evs (set_register_map_ (register_map_ st2) st1) ->
             tcp_sent evs = [] ->
             exists evs',
               trace_ (send_tcp_response_ client_fd (be16 buf 0) (nth 6 buf 0) fc data st2)
               = trace_ st ++ evs'
               /\ ((tcp_sent evs' = []
                    /\ tcp_error_count_
                         (send_tcp_response_ client_fd (be16 buf 0) (nth 6 buf 0) fc data st2)
                       = tcp_error_count_ st)
                   \/ exists f,
                        tcp_sent evs' = [(client_fd, f)]
                        /\ response_header buf (nth 6 buf 0) f
                        /\ ((nth 7 f 0 = fc /\ fc < 128
                             /\ tcp_error_count_
                                  (send_tcp_response_ client_fd (be16 buf 0) (nth 6 buf 0)
                                     fc data st2)
                                = tcp_error_count_ st)
                            \/ (nth 7 f 0 = (if fc <? 128 then fc + 128 else fc)
                                /\ tcp_error_count_
                                     (send_tcp_response_ client_fd (be16 buf 0)
                                        (nth 6 buf 0) fc data st2)
                                   = u32 (tcp_error_count_ st + 1))))).
  { intros data st2 evs Hlow Hlen Hst2 Hevs.
    destruct (send_tcp_response_header client_fd buf (nth 6 buf 0) fc data st2 Hbuf Hlen)
      as (f & Hf & Hhdr & H7).
    rewrite Hf, Hst2. exists (evs ++ [TcpSend client_fd f]).
    split; [unfold_tcp_updates; rewrite app_assoc; reflexivity |].
    right. exists f. rewrite tcp_sent_app, Hevs.
    split; [reflexivity |]. split; [exact Hhdr |].
    left. split; [exact H7 |]. split; [exact Hlow | reflexivity]. }
  assert (Hst1 : st1 = emit [] (set_register_map_ (register_map_ st1) st1)).
  { unfold st1. destruct st. unfold emit, set_register_map_, set_tcp_activity_. cbn.
    rewrite app_nil_r. reflexivity. }
  destruct (Z.eqb_spec fc 3) as [H3 | _].
  { destruct (_ <? 12); [no_response |].
    destruct (Z.ltb_spec 125 (be16 buf 10)) as [_ | Hcount];
      [apply (Herr 3 st1 []); [exact Hst1 | reflexivity] |].
    destruct (read_sunspec_registers_ _ _ _) as [values |] eqn:Hread;
      [| apply (Herr 2 st1 []); [exact Hst1 | reflexivity]].
    apply (Hok _ st1 []); [lia | | exact Hst1 | reflexivity].
    unfold read_sunspec_registers_ in Hread.
    destruct (be16 buf 8 <? SUNSPEC_BASE); [discriminate |].
    destruct (Z.of_nat TOTAL_REGS <? u16 (be16 buf 8 - SUNSPEC_BASE) + be16 buf 10);
      [discriminate |].
    injection Hread as <-.
    cbn [length]. rewrite flat_map_put_be16_length, length_take.
    pose proof (be16_range buf 10) as Hc. unfold is_u16 in Hc. lia. }
  destruct (Z.eqb_spec fc 6) as [H6 | _].
  { destruct (_ <? 12); [no_response |].
    destruct (write_sunspec_registers_frame (be16 buf 8) 1 [be16 buf 10] st1)
      as (evs & regs & Hst & Hevs & Hfalse & _).
    destruct (write_sunspec_registers_ _ _ _ _) as [[|] st2]; cbn [fst snd] in Hst, Hfalse.
    - apply (Hok _ st2 evs); [lia | cbn; lia | | exact Hevs].
      rewrite Hst. reflexivity.
    - apply (Herr 2 st2 evs); [| exact Hevs]. rewrite Hst. reflexivity. }
  destruct (Z.eqb_spec fc 16) as [H16 | _].
  { destruct (_ <? 13); [no_response |].
    destruct (_ || _); [apply (Herr 3 st1 []); [exact Hst1 | reflexivity] |].
    destruct (write_sunspec_registers_frame (be16 buf 8) (be16 buf 10)
                (map (fun i => be16 buf (13 + i * 2)) (seq 0 (Z.to_nat (be16 buf 10)))) st1)
      as (evs & regs & Hst & Hevs & Hfalse & _).
    destruct (write_sunspec_registers_ _ _ _ _) as [[|] st2]; cbn [fst snd] in Hst, Hfalse.
    - apply (Hok _ st2 evs); [lia | cbn; lia | | exact Hevs].
      rewrite Hst. reflexivity.
    - apply (Herr 2 st2 evs); [| exact Hevs]. rewrite Hst. reflexivity. }
  apply (Herr 1 st1 []); [exact Hst1 | reflexivity].
Qed.

(** A read of the two registers at 40000. *)
Lemma one_response_per_request_witness :
  let st' := process_tcp_request_ 1000 7 read_suns_request example_one_source in
  let fc := nth 7 read_suns_request 0 in
  exists evs,
    trace_ st' = trace_ example_one_source ++ evs
    /\ ((tcp_sent evs = [] /\ tcp_error_count_ st' = tcp_error_count_ example_one_source)
        \/ exists f,
             tcp_sent evs = [(7, f)]
             /\ response_header read_suns_request
                  (unit_id (agg_config_ example_one_source)) f
             /\ ((nth 7 f 0 = fc /\ fc < 128
                  /\ tcp_error_count_ st' = tcp_error_count_ example_one_source)
                 \/ (nth 7 f 0 = (if fc <? 128 then fc + 128 else fc)
                     /\ tcp_error_count_ st'
                        = u32 (tcp_error_count_ example_one_source + 1)))).
Proof.
  apply (one_response_per_request 1000 7 read_suns_request example_one_source).
  unfold read_suns_request, is_u8. repeat constructor; lia.
Defined.

(** ** Requests that are not served *)

(** X9. A request for the configured unit with a function code other
    than 3, 6 and 16 is answered with exception 1 (illegal function);
    the frame carries the function code with bit 7 set.  The error is
    counted, and neither the image nor the UART is touched. *)
Theorem unsupported_function_code_exception now client_fd buf st :
  8 <= Z.of_nat (length buf) ->
  be16 buf 2 = 0 ->
  nth 6 buf 0 = unit_id (agg_config_ st) ->
  is_u8 (nth 7 buf 0) ->
  nth 7 buf 0 <> 3 -> nth 7 buf 0 <> 6 -> nth 7 buf 0 <> 16 ->
  let fc := nth 7 buf 0 in
  let st' := process_tcp_request_ now client_fd buf st in
  trace_ st'
  = trace_ st
    ++ [TcpSend client_fd
          (mbap_frame (be16 buf 0) (unit_id (agg_config_ st))
             (if fc <? 128 then fc + 128 else fc) [1])]
  /\ tcp_error_count_ st' = u32 (tcp_error_count_ st + 1)
  /\ register_map_ st' = register_map_ st.
Proof.
  intros Hlen Hproto Hunit Hfc H3 H6 H16 fc st'. subst st' fc.
  unfold process_tcp_request_. cbv zeta.
  destruct (Z.ltb_spec (Z.of_nat (length buf)) 8) as [? | _]; [lia |].
  rewrite Hproto. cbn [negb Z.eqb].
  cbn [agg_config_ set_tcp_activity_]. rewrite Hunit, Z.eqb_refl. cbn [negb].
  destruct (Z.eqb_spec (nth 7 buf 0) 3) as [? | _]; [contradiction |].
  destruct (Z.eqb_spec (nth 7 buf 0) 6) as [? | _]; [contradiction |].
  destruct (Z.eqb_spec (nth 7 buf 0) 16) as [? | _]; [contradiction |].
  unfold send_tcp_error_. rewrite lor_128 by exact Hfc.
  rewrite send_tcp_response_frame by (apply be16_range || (cbn; lia)).
  repeat split.
Qed.

(** A client asks unit 126 for function 4 (Read Input Registers). *)
Lemma unsupported_function_code_exception_witness :
  trace_ (process_tcp_request_ 1000 7 [0; 9; 0; 0; 0; 6; 126; 4; 156; 64; 0; 2]
            example_one_source)
  = trace_ example_one_source ++ [TcpSend 7 [0; 9; 0; 0; 0; 3; 126; 132; 1]]
  /\ tcp_error_count_
       (process_tcp_request_ 1000 7 [0; 9; 0; 0; 0; 6; 126; 4; 156; 64; 0; 2]
          example_one_source)
     = u32 (tcp_error_count_ example_one_source + 1)
  /\ register_map_
       (process_tcp_request_ 1000 7 [0; 9; 0; 0; 0; 6; 126; 4; 156; 64; 0; 2]
          example_one_source)
     = register_map_ example_one_source.
Proof.
  apply (unsupported_function_code_exception 1000 7
           [0; 9; 0; 0; 0; 6; 126; 4; 156; 64; 0; 2] example_one_source).
  - simpl. lia.
  - reflexivity.
  - reflexivity.
  - unfold is_u8. simpl. lia.
  - simpl. lia.
  - simpl. lia.
  - simpl. lia.
Defined.

(** X10. A request for the configured unit that stops before the fields
    of its function code (fewer than 12 bytes for functions 3 and 6,
    fewer than 13 for function 16) is counted as a request and then
    dropped: nothing is sent, no error is counted and nothing else
    changes. *)
Theorem truncated_request_is_dropped now client_fd buf st :
  8 <= Z.of_nat (length buf) ->
  be16 buf 2 = 0 ->
  nth 6 buf 0 = unit_id (agg_config_ st) ->
  ((nth 7 buf 0 = 3 \/ nth 7 buf 0 = 6) /\ Z.of_nat (length buf) < 12)
  \/ (nth 7 buf 0 = 16 /\ Z.of_nat (length buf) < 13) ->
  process_tcp_request_ now client_fd buf st
  = set_tcp_activity_ now (u32 (tcp_request_count_ st + 1)) st.
Proof.
  intros Hlen Hproto Hunit Hfc.
  unfold process_tcp_request_. cbv zeta.
  destruct (Z.ltb_spec (Z.of_nat (length buf)) 8) as [? | _]; [lia |].
  rewrite Hproto. cbn [negb Z.eqb].
  cbn [agg_config_ set_tcp_activity_]. rewrite Hunit, Z.eqb_refl. cbn [negb].
  destruct Hfc as [[[-> | ->] Hshort] | [-> Hshort]]; cbn [Z.eqb Pos.eqb].
  - destruct (Z.ltb_spec (Z.of_nat (length buf)) 12); [reflexivity | lia].
  - destruct (Z.ltb_spec (Z.of_nat (length buf)) 12); [reflexivity | lia].
  - destruct (Z.ltb_spec (Z.of_nat (length buf)) 13); [reflexivity | lia].
Qed.

(** A Write Multiple Registers request of 12 bytes. *)
Lemma truncated_request_is_dropped_witness :
  process_tcp_request_ 1000 7 [0; 9; 0; 0; 0; 6; 126; 16; 156; 221; 0; 1] example_one_source
  = set_tcp_activity_ 1000 (u32 (tcp_request_count_ example_one_source + 1))
      example_one_source.
Proof.
  apply (truncated_request_is_dropped 1000 7 [0; 9; 0; 0; 0; 6; 126; 16; 156; 221; 0; 1]
           example_one_source).
  - simpl. lia.
  - reflexivity.
  - reflexivity.
  - right. split; [reflexivity | simpl; lia].
Defined.

(** ** One buffer, one request *)

Lemma be16_app_l (req extra : list Z) i :
  (S i < length req)%nat -> be16 (req ++ extra) i = be16 req i.
Proof.
  intros Hi. unfold be16. rewrite !app_nth1 by lia. reflexivity.
Qed.

(** X11. Of a received buffer only the first request is looked at: bytes
    that follow a whole request (a second request in the same TCP
    segment, say) change nothing of what the component does. *)
Theorem trailing_bytes_are_ignored now client_fd req extra st :
  request_complete req = true ->
  process_tcp_request_ now client_fd (req ++ extra) st
  = process_tcp_request_ now client_fd req st.
Proof.
  intros Hwhole. unfold request_complete in Hwhole. cbv zeta in Hwhole.
  apply andb_prop in Hwhole. destruct Hwhole as [H8 Hfc].
  apply Z.leb_le in H8.
  unfold process_tcp_request_. cbv zeta.
  rewrite length_app, Nat2Z.inj_add.
  rewrite !(be16_app_l req extra 0), !(be16_app_l req extra 2) by lia.
  rewrite !(app_nth1 req extra 0 (n := 6)), !(app_nth1 req extra 0 (n := 7)) by lia.
  destruct (Z.ltb_spec (Z.of_nat (length req) + Z.of_nat (length extra)) 8) as [? | _];
    [lia |].
  destruct (Z.ltb_spec (Z.of_nat (length req)) 8) as [? | _]; [lia |].
  destruct (negb (be16 req 2 =? 0)); [reflexivity |].
  destruct (negb (nth 6 req 0 =? _)); [reflexivity |].
  destruct (Z.eqb_spec (nth 7 req 0) 3) as [H3 | _].
  { cbn [orb] in Hfc. apply Z.leb_le in Hfc.
    rewrite !(be16_app_l req extra 8), !(be16_app_l req extra 10) by lia.
    destruct (Z.ltb_spec (Z.of_nat (length req) + Z.of_nat (length extra)) 12) as [? | _];
      [lia |].
    destruct (Z.ltb_spec (Z.of_nat (length req)) 12) as [? | _]; [lia |].
    reflexivity. }
  destruct (Z.eqb_spec (nth 7 req 0) 6) as [H6 | _].
  { cbn [orb] in Hfc. apply Z.leb_le in Hfc.
    rewrite !(be16_app_l req extra 8), !(be16_app_l req extra 10) by lia.
    destruct (Z.ltb_spec (Z.of_nat (length req) + Z.of_nat (length extra)) 12) as [? | _];
      [lia |].
    destruct (Z.ltb_spec (Z.of_nat (length req)) 12) as [? | _]; [lia |].
    reflexivity. }
  cbn [orb] in Hfc.
  destruct (Z.eqb_spec (nth 7 req 0) 16) as [H16 | _]; [| reflexivity].
  apply Z.leb_le in Hfc.
  pose proof (be16_range req 10) as Hcnt. unfold is_u16 in Hcnt.
  rewrite !(be16_app_l req extra 8), !(be16_app_l req extra 10) by lia.
  destruct (Z.ltb_spec (Z.of_nat (length req) + Z.of_nat (length extra)) 13) as [? | _];
    [lia |].
  destruct (Z.ltb_spec (Z.of_nat (length req)) 13) as [? | _]; [lia |].
  destruct (Z.ltb_spec (Z.of_nat (length req) + Z.of_nat (length extra))
              (13 + be16 req 10 * 2)) as [? | _]; [lia |].
  destruct (Z.ltb_spec (Z.of_nat (length req)) (13 + be16 req 10 * 2)) as [? | _]; [lia |].
  cbn [orb].
  assert (Hvals : map (fun i => be16 (req ++ extra) (13 + i * 2))
                    (seq 0 (Z.to_nat (be16 req 10)))
                  = map (fun i => be16 req (13 + i * 2)) (seq 0 (Z.to_nat (be16 req 10)))).
  { apply map_ext_in. intros i Hi. apply in_seq in Hi. apply be16_app_l. lia. }
  rewrite Hvals. reflexivity.
Qed.

(** A read request followed by a second one in the same buffer. *)
Lemma trailing_bytes_are_ignored_witness :
  process_tcp_request_ 1000 7
    ([0; 1; 0; 0; 0; 6; 126; 3; 156; 64; 0; 2] ++ [0; 2; 0; 0; 0; 6; 126; 3; 156; 66; 0; 2])
    example_one_source
  = process_tcp_request_ 1000 7 [0; 1; 0; 0; 0; 6; 126; 3; 156; 64; 0; 2] example_one_source.
Proof.
  apply (trailing_bytes_are_ignored 1000 7 [0; 1; 0; 0; 0; 6; 126; 3; 156; 64; 0; 2]
           [0; 2; 0; 0; 0; 6; 126; 3; 156; 66; 0; 2] example_one_source).
  reflexivity.
Defined.

(** ** Requests built by a client *)

Lemma be16_at (pre post : list Z) w i :
  is_u16 w -> i = length pre -> be16 (pre ++ w / 256 :: w mod 256 :: post) i = w.
Proof.
  intros Hw ->. pose proof (be16_put_be16 w pre post Hw) as H.
  rewrite put_be16_bytes in H by exact Hw. exact H.
Qed.

Lemma words_be_cons w ws : words_be (w :: ws) = w / 256 :: w mod 256 :: words_be ws.
Proof. reflexivity. Qed.

Lemma words_be_app a b : words_be (a ++ b) = words_be a ++ words_be b.
Proof. unfold words_be. apply flat_map_app. Qed.

(** The word at position [i] of a list of words sent high byte first. *)
Lemma be16_words_be (pre post ws : list Z) i :
  Forall is_u16 ws -> (i < length ws)%nat ->
  be16 (pre ++ words_be ws ++ post) (length pre + i * 2) = nth i ws 0.
Proof.
  intros Hws Hi.
  rewrite <- (take_drop i ws) at 1. rewrite words_be_app, <- !app_assoc, app_assoc.
  destruct (drop i ws) as [| w rest] eqn:Hd.
  { apply (f_equal length) in Hd. rewrite length_drop in Hd. cbn in Hd. lia. }
  assert (Hw : nth i ws 0 = w).
  { rewrite <- (take_drop i ws), Hd, app_nth2 by (rewrite length_take; lia).
    rewrite length_take. replace (i - i `min` length ws)%nat with 0%nat by lia.
    reflexivity. }
  rewrite Hw, words_be_cons. cbn [app].
  apply be16_at.
  - pose proof (Forall_drop is_u16 i ws Hws) as Hdrop. rewrite Hd in Hdrop.
    inversion Hdrop; assumption.
  - rewrite length_app, words_be_length, length_take. lia.
Qed.

(** The fields of a request as [process_tcp_request_] reads them. *)
Lemma request_fields txn unit fc w1 w2 rest :
  is_u16 txn -> is_u16 w1 -> is_u16 w2 ->
  let buf := mbap_frame txn unit fc (words_be [w1; w2] ++ rest) in
  Z.of_nat (length buf) = 12 + Z.of_nat (length rest)
  /\ be16 buf 0 = txn /\ be16 buf 2 = 0 /\ nth 6 buf 0 = unit /\ nth 7 buf 0 = fc
  /\ be16 buf 8 = w1 /\ be16 buf 10 = w2.
Proof.
  intros Htxn H1 H2 buf. subst buf. unfold mbap_frame. cbv zeta.
  set (n := 2 + Z.of_nat (length (words_be [w1; w2] ++ rest))).
  rewrite !words_be_cons. cbn [words_be flat_map app].
  split; [cbn [length]; lia |].
  split; [apply (be16_at [] _ txn 0 Htxn eq_refl) |].
  split; [reflexivity |]. split; [reflexivity |]. split; [reflexivity |].
  split.
  - apply (be16_at [txn / 256; txn mod 256; 0; 0; n / 256; n mod 256; unit; fc] _ w1 8 H1
             eq_refl).
  - apply (be16_at [txn / 256; txn mod 256; 0; 0; n / 256; n mod 256; unit; fc;
                    w1 / 256; w1 mod 256] _ w2 10 H2 eq_refl).
Qed.

(** A Read Holding Registers request for registers of the image is
    answered with the words the image holds. *)
Lemma process_read_request now client_fd txn start count st :
  is_u16 txn -> is_u16 start -> 0 <= count <= 125 ->
  40000 <= start -> start - 40000 + count <= 178 ->
  length (register_map_ st) = TOTAL_REGS ->
  Forall is_u16 (register_map_ st) ->
  process_tcp_request_ now client_fd
    (read_request txn (unit_id (agg_config_ st)) start count) st
  = emit [TcpSend client_fd
            (mbap_frame txn (unit_id (agg_config_ st)) 3
               (2 * count
                :: words_be (take (Z.to_nat count)
                               (drop (Z.to_nat (start - 40000)) (register_map_ st)))))]
      (set_tcp_activity_ now (u32 (tcp_request_count_ st + 1)) st).
Proof.
  intros Htxn Hstart Hcount Hlo Hhi Himg Hwords.
  assert (Hc : is_u16 count) by (unfold is_u16; lia).
  destruct (request_fields txn (unit_id (agg_config_ st)) 3 start count [] Htxn Hstart Hc)
    as (Hlen & H0 & H2 & H6 & H7 & H8 & H10).
  rewrite app_nil_r in *. fold (read_request txn (unit_id (agg_config_ st)) start count) in *.
  set (buf := read_request txn (unit_id (agg_config_ st)) start count) in *.
  cbn [length] in Hlen.
  unfold process_tcp_request_. cbv zeta.
  rewrite H0, H2, H6, H7, H8, H10.
  destruct (Z.ltb_spec (Z.of_nat (length buf)) 8) as [? | _]; [lia |].
  cbn [negb Z.eqb Pos.eqb]. cbn [agg_config_ set_tcp_activity_].
  rewrite Z.eqb_refl. cbn [negb].
  destruct (Z.ltb_spec (Z.of_nat (length buf)) 12) as [? | _]; [lia |].
  destruct (Z.ltb_spec 125 count) as [? | _]; [lia |].
  unfold read_sunspec_registers_, SUNSPEC_BASE.
  destruct (Z.ltb_spec start 40000) as [? | _]; [lia |].
  rewrite u16_small by (unfold is_u16 in *; lia).
  change (Z.of_nat TOTAL_REGS) with 178.
  destruct (Z.ltb_spec 178 (start - 40000 + count)) as [? | _]; [lia |].
  cbn [register_map_ set_tcp_activity_].
  set (words := take (Z.to_nat count) (drop (Z.to_nat (start - 40000)) (register_map_ st))).
  assert (Hw : Forall is_u16 words) by (apply Forall_take, Forall_drop; exact Hwords).
  assert (Hlw : length words = Z.to_nat count).
  { unfold words. rewrite length_take, length_drop, Himg. unfold TOTAL_REGS. lia. }
  rewrite flat_map_put_be16 by exact Hw.
  replace (u8 (count * 2)) with (2 * count) by (rewrite u8_small; unfold is_u8; lia).
  apply send_tcp_response_frame; [exact Htxn |].
  cbn [length]. rewrite words_be_length, Hlw. lia.
Qed.

(** ** Writing, then reading *)

Lemma settings_unit_id st st' : settings st' = settings st -> agg_config_ st' = agg_config_ st.
Proof. unfold settings. intros H. injection H as _ _ _ _ H _. exact H. Qed.

Lemma read_back_words (regs values : list Z) off :
  (off <= length regs)%nat ->
  take (length values) (drop off (take off regs ++ values ++ drop (off + length values) regs))
  = values.
Proof.
  intros Hoff.
  rewrite drop_app_length' by (rewrite length_take; lia).
  rewrite take_app_length. reflexivity.
Qed.

(** X12. Registers written with Write Multiple Registers read back as
    written: the write is answered with an echo of address and count,
    and a following Read Holding Registers of the same range with the
    values, high byte first. *)
Theorem written_registers_read_back now1 now2 fd1 fd2 txn1 txn2 start values st :
  is_u16 txn1 -> is_u16 txn2 -> Forall is_u16 values ->
  40152 <= start -> start + Z.of_nat (length values) <= 40176 ->
  length (register_map_ st) = TOTAL_REGS ->
  Forall is_u16 (register_map_ st) ->
  let unit := unit_id (agg_config_ st) in
  let n := Z.of_nat (length values) in
  let st1 :=
    process_tcp_request_ now1 fd1 (write_multiple_request txn1 unit start values) st in
  let st2 := process_tcp_request_ now2 fd2 (read_request txn2 unit start n) st1 in
  tcp_sent (trace_ st2)
  = tcp_sent (trace_ st)
    ++ [(fd1, mbap_frame txn1 unit 16 (words_be [start; n]));
        (fd2, mbap_frame txn2 unit 3 (2 * n :: words_be values))].
Proof.
  intros Htxn1 Htxn2 Hvals Hlo Hhi Himg Hwords unit n st1 st2.
  assert (Hstart : is_u16 start) by (unfold is_u16; lia).
  assert (Hn : is_u16 n) by (unfold is_u16, n; lia).
  destruct (request_fields txn1 unit 16 start n ([2 * n] ++ words_be values)
              Htxn1 Hstart Hn) as (Hlen & H0 & H2 & H6 & H7 & H8 & H10).
  unfold write_multiple_request in st1. fold n in st1.
  set (buf := mbap_frame txn1 unit 16 (words_be [start; n] ++ [2 * n] ++ words_be values))
    in *.
  rewrite length_app, words_be_length in Hlen. cbn [length] in Hlen.
  assert (Hv : write_values buf = values).
  { unfold write_values. rewrite H7, H10. change (16 =? 6) with false. cbv iota.
    unfold n. rewrite Nat2Z.id. rewrite <- (map_nth_seq values) at 2.
    apply map_ext_in. intros i Hi. apply in_seq in Hi.
    set (pre := [txn1 / 256; txn1 mod 256; 0; 0;
                 (2 + Z.of_nat (length (words_be [start; n] ++ [2 * n] ++ words_be values)))
                   / 256;
                 (2 + Z.of_nat (length (words_be [start; n] ++ [2 * n] ++ words_be values)))
                   mod 256;
                 unit; 16; start / 256; start mod 256; n / 256; n mod 256; 2 * n]).
    assert (Hbuf : buf = pre ++ words_be values ++ []).
    { rewrite app_nil_r. reflexivity. }
    rewrite Hbuf. change (13 + i * 2)%nat with (length pre + i * 2)%nat.
    apply (be16_words_be pre [] values i Hvals). lia. }
  assert (Hwhole : write_complete buf = true).
  { unfold write_complete. rewrite H7, H10. change (16 =? 6) with false. cbv iota.
    apply andb_true_intro. unfold n in *. split; lia. }
  pose proof (write_request_whole now1 fd1 buf st H2 H6 (or_intror H7) Hwhole Himg) as Hw.
  cbv zeta in Hw. rewrite Hv, H0, H7, H8, H10 in Hw. fold st1 n in Hw.
  assert (Hin : in_model_123 start n = true).
  { unfold in_model_123. apply andb_true_intro. split; [apply andb_true_intro; split |]; lia. }
  rewrite Hin in Hw. destruct Hw as [Hregs Hsent].
  destruct (process_tcp_request_frame now1 fd1 buf st) as (Hl1 & _ & _ & _ & Hset & Hu16).
  fold st1 in Hl1, Hset, Hu16.
  pose proof (settings_unit_id _ _ Hset) as Hcfg.
  subst st2. unfold unit at 1. rewrite <- Hcfg.
  rewrite process_read_request;
    [| assumption | assumption | unfold n; lia | lia | unfold n in *; lia
     | rewrite Hl1; exact Himg | apply Hu16; exact Hwords].
  cbn [trace_ emit set_tcp_activity_]. rewrite tcp_sent_app, Hsent, <- app_assoc.
  rewrite Hcfg, Hregs. unfold n at 3. rewrite Nat2Z.id.
  rewrite read_back_words by (rewrite Himg; unfold TOTAL_REGS; lia).
  reflexivity.
Qed.

(** A limit of 50 % is written and enabled, then the four registers are
    read back. *)
Lemma written_registers_read_back_witness :
  let values := [500; 65535; 65535; 1] in
  let unit := unit_id (agg_config_ example_one_source) in
  let n := Z.of_nat (length values) in
  let st1 :=
    process_tcp_request_ 1000 7 (write_multiple_request 10 unit 40157 values)
      example_one_source in
  let st2 := process_tcp_request_ 2000 7 (read_request 11 unit 40157 n) st1 in
  tcp_sent (trace_ st2)
  = tcp_sent (trace_ example_one_source)
    ++ [(7, mbap_frame 10 unit 16 (words_be [40157; n]));
        (7, mbap_frame 11 unit 3 (2 * n :: words_be values))].
Proof.
  apply (written_registers_read_back 1000 2000 7 7 10 11 40157 [500; 65535; 65535; 1]
           example_one_source).
  - unfold is_u16. lia.
  - unfold is_u16. lia.
  - unfold is_u16. repeat constructor; lia.
  - lia.
  - simpl. lia.
  - vm_compute. reflexivity.
  - apply Forall_is_u16_of_forallb. vm_compute. reflexivity.
Defined.

(** ** The time a forwarded limit takes *)

Lemma total_delay_app a b : total_delay (a ++ b) = total_delay a + total_delay b.
Proof.
  unfold total_delay. induction a as [| e a IH]; [reflexivity |].
  cbn [app fold_right]. rewrite IH. destruct e; lia.
Qed.

(** Per source [forward_power_limit_] writes two frames when the limit
    is enabled and one otherwise, and waits 100 ms after each. *)
Lemma forward_events_delay dtu pct_raw enabled srcs :
  length (uart_written (forward_events dtu pct_raw enabled srcs))
  = ((if enabled then 2 else 1) * length srcs)%nat
  /\ total_delay (forward_events dtu pct_raw enabled srcs)
     = 100 * Z.of_nat (length (uart_written (forward_events dtu pct_raw enabled srcs))).
Proof.
  unfold forward_events. induction srcs as [| s srcs [IH1 IH2]];
    [destruct enabled; split; reflexivity |].
  cbn [flat_map]. rewrite uart_written_app, total_delay_app, length_app, IH1, IH2, IH1.
  unfold forward_power_limit_source. destruct enabled; cbn [uart_written flat_map app length
    total_delay fold_right]; split; lia.
Qed.

(** X13. A Write Single Register to [WMaxLimPct] (40157) or [WMaxLim_Ena]
    (40160) is answered only after the limit has gone out to every
    source: the UART frames, each followed by a flush and a delay of
    100 ms, come before the echo in the trace.  With the limit enabled
    that is 200 ms for each source, otherwise 100 ms. *)
Theorem control_write_is_answered_after_forwarding now client_fd buf st :
  12 <= Z.of_nat (length buf) ->
  be16 buf 2 = 0 ->
  nth 6 buf 0 = unit_id (agg_config_ st) ->
  nth 7 buf 0 = 6 ->
  be16 buf 8 = 40157 \/ be16 buf 8 = 40160 ->
  length (register_map_ st) = TOTAL_REGS ->
  let st' := process_tcp_request_ now client_fd buf st in
  let enabled := reg (register_map_ st') 160 =? 1 in
  let fwd :=
    forward_events (dtu_address_ st) (reg (register_map_ st') 157) enabled (sources_ st) in
  trace_ st'
  = trace_ st ++ fwd
    ++ [TcpSend client_fd
          (mbap_frame (be16 buf 0) (unit_id (agg_config_ st)) 6
             (words_be [be16 buf 8; be16 buf 10]))]
  /\ total_delay fwd = (if enabled then 200 else 100) * Z.of_nat (num_sources_ st).
Proof.
  intros Hlen Hproto Hunit Hfc Hreg Himg st' enabled fwd.
  pose proof (be16_range buf 0) as Htxn.
  pose proof (be16_range buf 8) as Hstart.
  pose proof (be16_range buf 10) as Hval.
  assert (Hin : in_model_123 (be16 buf 8) 1 = true) by (destruct Hreg as [-> | ->]; reflexivity).
  assert (Hcov : covers_control (be16 buf 8 - 40000) 1 = true)
    by (destruct Hreg as [-> | ->]; reflexivity).
  pose proof (write_sunspec_registers_spec (be16 buf 8) 1 [be16 buf 10]
                (set_tcp_activity_ now (u32 (tcp_request_count_ st + 1)) st)
                Hstart ltac:(lia) eq_refl Himg) as Hw.
  rewrite Hin, Hcov in Hw. cbv zeta in Hw.
  cbn [register_map_ set_tcp_activity_ dtu_address_ sources_] in Hw.
  assert (Hst' : st'
                 = send_tcp_response_ client_fd (be16 buf 0) (nth 6 buf 0) 6
                     (put_be16 (be16 buf 8) ++ put_be16 (be16 buf 10))
                     (snd (write_sunspec_registers_ (be16 buf 8) 1 [be16 buf 10]
                             (set_tcp_activity_ now (u32 (tcp_request_count_ st + 1)) st)))).
  { subst st'. unfold process_tcp_request_. cbv zeta.
    destruct (Z.ltb_spec (Z.of_nat (length buf)) 8) as [? | _]; [lia |].
    rewrite Hproto. cbn [negb Z.eqb].
    cbn [agg_config_ set_tcp_activity_]. rewrite Hunit, Z.eqb_refl. cbn [negb].
    rewrite Hfc. cbn [Z.eqb Pos.eqb].
    destruct (Z.ltb_spec (Z.of_nat (length buf)) 12) as [? | _]; [lia |].
    rewrite Hw. reflexivity. }
  rewrite Hw in Hst'. cbn [snd] in Hst'.
  rewrite !put_be16_bytes in Hst' by assumption.
  rewrite send_tcp_response_frame in Hst' by (exact Htxn || (cbn; lia)).
  assert (Hregs : register_map_ st'
                  = take (Z.to_nat (be16 buf 8 - 40000)) (register_map_ st)
                      ++ [be16 buf 10]
                      ++ drop (Z.to_nat (be16 buf 8 - 40000) + 1) (register_map_ st)).
  { rewrite Hst'. reflexivity. }
  subst fwd enabled. rewrite Hregs. split.
  - rewrite Hst'. cbn [trace_ emit set_register_map_ set_tcp_activity_].
    rewrite Hunit, <- app_assoc. reflexivity.
  - destruct (forward_events_delay (dtu_address_ st)
                (reg (take (Z.to_nat (be16 buf 8 - 40000)) (register_map_ st)
                        ++ [be16 buf 10]
                        ++ drop (Z.to_nat (be16 buf 8 - 40000) + 1) (register_map_ st)) 157)
                (reg (take (Z.to_nat (be16 buf 8 - 40000)) (register_map_ st)
                        ++ [be16 buf 10]
                        ++ drop (Z.to_nat (be16 buf 8 - 40000) + 1) (register_map_ st)) 160
                 =? 1)
                (sources_ st)) as [H1 H2].
    rewrite H2, H1. unfold num_sources_.
    destruct (_ =? 1); lia.
Qed.

(** Enabling the limit on the example with one source: the two frames
    go out, with 200 ms of delay, before the echo. *)
Lemma control_write_is_answered_after_forwarding_witness :
  let st' := process_tcp_request_ 1000 7 enable_limit_request example_one_source in
  let enabled := reg (register_map_ st') 160 =? 1 in
  let fwd :=
    forward_events (dtu_address_ example_one_source) (reg (register_map_ st') 157)
      enabled (sources_ example_one_source) in
  trace_ st'
  = trace_ example_one_source ++ fwd
    ++ [TcpSend 7
          (mbap_frame (be16 enable_limit_request 0)
             (unit_id (agg_config_ example_one_source)) 6
             (words_be [be16 enable_limit_request 8; be16 enable_limit_request 10]))]
  /\ total_delay fwd
     = (if enabled then 200 else 100) * Z.of_nat (num_sources_ example_one_source).
Proof.
  apply (control_write_is_answered_after_forwarding 1000 7 enable_limit_request
           example_one_source).
  - vm_compute. discriminate.
  - vm_compute. reflexivity.
  - vm_compute. reflexivity.
  - vm_compute. reflexivity.
  - right. vm_compute. reflexivity.
  - vm_compute. reflexivity.
Defined.

(** ** What the aggregator writes *)

Lemma is_u16_state b : is_u16 (if b : bool then 4 else 2).
Proof. destruct b; unfold is_u16; lia. Qed.

Ltac case_conditions :=
  repeat match goal with
         | |- context [if ?b then _ else _] => destruct b
         end.

Ltac is_u16_value :=
  first [ apply u16_range
        | unfold int16_reg; apply u16_range
        | unfold F32.to_u16; apply u16_range
        | unfold power_factor_reg, int16_reg; apply u16_range
        | apply is_u16_state
        | unfold is_u16; lia ].

Lemma write_aggregate_shape ph a r :
  length (write_aggregate ph a r) = length r
  /\ (Forall is_u16 r -> Forall is_u16 (write_aggregate ph a r)).
Proof.
  unfold write_aggregate. cbv zeta. split.
  - case_conditions; rewrite !length_insert; reflexivity.
  - intros Hr.
    destruct (ph =? 3), (F32.gtb (total_va a) F32.zero), (negb (F32.isnan (max_temp a))),
      (F32.gtb (total_dc_power a) F32.zero);
      repeat (apply Forall_insert; [| is_u16_value]); exact Hr.
Qed.

Ltac in_aggregate_offsets :=
  cbv [aggregate_offsets map In];
  solve [repeat (first [left; reflexivity | right])].

Lemma write_aggregate_frame ph a r j :
  ~ In j aggregate_offsets -> reg (write_aggregate ph a r) j = reg r j.
Proof.
  intros Hj. unfold write_aggregate. cbv zeta.
  case_conditions;
    repeat (rewrite reg_insert_ne by (intros <-; apply Hj; in_aggregate_offsets));
    reflexivity.
Qed.

(** The image after [aggregate_and_update_registers_]. *)
Lemma aggregate_register_map st :
  register_map_ (aggregate_and_update_registers_ st)
  = if valid_count (aggregate_totals st) =? 0
    then <[(OFF_INV + 2 + INV_St)%nat := 2]> (register_map_ st)
    else write_aggregate (agg_phases (agg_config_ st)) (aggregate_totals st)
           (register_map_ st).
Proof.
  unfold aggregate_and_update_registers_, aggregate_totals.
  destruct (aggregate_sources acc_init (sources_ st)) as [a srcs]. cbn [fst].
  destruct (valid_count a =? 0); reflexivity.
Qed.

Lemma aggregate_image st :
  length (register_map_ (aggregate_and_update_registers_ st)) = length (register_map_ st)
  /\ (Forall is_u16 (register_map_ st) ->
      Forall is_u16 (register_map_ (aggregate_and_update_registers_ st)))
  /\ (forall j, ~ In j aggregate_offsets ->
      reg (register_map_ (aggregate_and_update_registers_ st)) j = reg (register_map_ st) j).
Proof.
  rewrite aggregate_register_map.
  destruct (valid_count (aggregate_totals st) =? 0).
  - split; [apply length_insert |]. split.
    + intros H. apply Forall_insert; [exact H | unfold is_u16; lia].
    + intros j Hj. apply reg_insert_ne. intros <-. apply Hj. in_aggregate_offsets.
  - destruct (write_aggregate_shape (agg_phases (agg_config_ st)) (aggregate_totals st)
                (register_map_ st)) as [H1 H2].
    split; [exact H1 |]. split; [exact H2 |].
    intros j Hj. apply write_aggregate_frame. exact Hj.
Qed.

Lemma aggregate_other_members st :
  (tcp_port_ (aggregate_and_update_registers_ st),
   poll_interval_ms_ (aggregate_and_update_registers_ st),
   rtu_timeout_ms_ (aggregate_and_update_registers_ st),
   dtu_address_ (aggregate_and_update_registers_ st),
   agg_config_ (aggregate_and_update_registers_ st))
  = (tcp_port_ st, poll_interval_ms_ st, rtu_timeout_ms_ st, dtu_address_ st, agg_config_ st)
  /\ tcp_counters (aggregate_and_update_registers_ st) = tcp_counters st
  /\ (current_poll_source_ (aggregate_and_update_registers_ st),
      last_poll_time_ (aggregate_and_update_registers_ st),
      rtu_busy_ (aggregate_and_update_registers_ st),
      rtu_request_time_ (aggregate_and_update_registers_ st),
      uart_rx_ (aggregate_and_update_registers_ st))
     = (current_poll_source_ st, last_poll_time_ st, rtu_busy_ st, rtu_request_time_ st,
        uart_rx_ st)
  /\ trace_ (aggregate_and_update_registers_ st) = trace_ st.
Proof.
  unfold aggregate_and_update_registers_, tcp_counters.
  destruct (aggregate_sources acc_init (sources_ st)) as [a srcs].
  destruct (valid_count a =? 0); repeat split.
Qed.

(** ** The paths through the poller *)

Lemma update_source_members i f st :
  register_map_ (update_source i f st) = register_map_ st
  /\ trace_ (update_source i f st) = trace_ st
  /\ agg_config_ (update_source i f st) = agg_config_ st
  /\ (current_poll_source_ (update_source i f st), last_poll_time_ (update_source i f st),
      rtu_busy_ (update_source i f st), rtu_request_time_ (update_source i f st),
      uart_rx_ (update_source i f st))
     = (current_poll_source_ st, last_poll_time_ st, rtu_busy_ st, rtu_request_time_ st,
        uart_rx_ st)
  /\ length (sources_ (update_source i f st)) = length (sources_ st).
Proof.
  unfold update_source. destruct (sources_ st !! i); repeat split.
  cbn [sources_ set_sources_]. apply length_insert.
Qed.

Lemma update_source_sources i f st s :
  sources_ st !! i = Some s ->
  sources_ (update_source i f st) = <[i := f s]> (sources_ st).
Proof. intros H. unfold update_source. rewrite H. reflexivity. Qed.

(** The state after the pending bytes have been read. *)
Lemma read_rtu_response_state max_len st :
  snd (read_rtu_response_ max_len st) = set_uart_rx_ (drop max_len (uart_rx_ st)) st.
Proof.
  unfold read_rtu_response_. case_conditions; reflexivity.
Qed.

(** The ways a call of [poll_rtu_sources_] can go while a response is
    awaited: still waiting; a failure, a timeout or a CRC error counted
    for [sources_[current_poll_source_]]; a port block stored there and
    aggregated. *)
Lemma poll_busy_cases now st :
  (num_sources_ st =? 0)%nat = false -> rtu_busy_ st = true ->
  let st1 := set_uart_rx_ (drop 256 (uart_rx_ st)) st in
  let cur := current_poll_source_ st in
  poll_rtu_sources_ now st = st1
  \/ (exists fail timeout crc,
        ((fail, timeout, crc) = (1, 0, 0) \/ (fail, timeout, crc) = (1, 0, 1)
         \/ (fail, timeout, crc) = (0, 1, 0))
        /\ poll_rtu_sources_ now st
           = set_rtu_busy_ false (update_source cur (count_poll_failure fail timeout crc) st1))
  \/ (exists reg_data,
        poll_rtu_sources_ now st
        = set_rtu_busy_ false
            (aggregate_and_update_registers_
               (update_source cur (store_port_block now reg_data) st1))).
Proof.
  intros Hn Hbusy st1 cur. unfold poll_rtu_sources_. rewrite Hn, Hbusy.
  pose proof (read_rtu_response_state 256 st) as Hst.
  destruct (read_rtu_response_ 256 st) as [[n resp] st2]. cbn [snd] in Hst. subst st2.
  fold st1. change (current_poll_source_ st1) with cur.
  destruct (0 <? n).
  - unfold handle_rtu_response. change (current_poll_source_ st1) with cur.
    destruct (_ && _).
    + destruct (34 <=? _).
      * right. right. eexists. reflexivity.
      * right. left. exists 1, 0, 0. split; [left; reflexivity | reflexivity].
    + right. left. exists 1, 0, 0. split; [left; reflexivity |].
      destruct (_ && _); reflexivity.
  - destruct (n =? -1).
    + right. left. exists 1, 0, 1. split; [right; left; reflexivity | reflexivity].
    + destruct (_ <? _).
      * right. left. exists 0, 1, 0. split; [right; right; reflexivity | reflexivity].
      * left. reflexivity.
Qed.

(** The ways a call can go while no response is awaited: nothing, or a
    request for the port of [sources_[current_poll_source_]]. *)
Lemma poll_idle_cases now st :
  rtu_busy_ st = false ->
  poll_rtu_sources_ now st = st
  \/ exists s,
       sources_ st !! current_poll_source_ st = Some s
       /\ (num_sources_ st =? 0)%nat = false
       /\ (u32 (now - last_poll_time_ st)
             <? poll_interval_ms_ st / Z.of_nat (num_sources_ st)) = false
       /\ poll_rtu_sources_ now st
          = set_poll_state_ ((current_poll_source_ st + 1) mod num_sources_ st)%nat
              now true now
              (send_rtu_request_ (dtu_address_ st) 3
                 (u16 (HM_DATA_BASE + port_number s * HM_PORT_STRIDE)) HM_PORT_REGS st).
Proof.
  intros Hbusy. unfold poll_rtu_sources_. rewrite Hbusy.
  destruct (num_sources_ st =? 0)%nat eqn:Hn; [left; reflexivity |].
  destruct (_ <? _) eqn:Hwait; [left; reflexivity |].
  destruct (sources_ st !! current_poll_source_ st) as [s |] eqn:Hs; [| left; reflexivity].
  right. exists s. repeat split.
Qed.

Lemma poll_no_sources now st :
  (num_sources_ st =? 0)%nat = true -> poll_rtu_sources_ now st = st.
Proof. intros H. unfold poll_rtu_sources_. rewrite H. reflexivity. Qed.

(** The image after a call of the poller is the one before, or the one
    the aggregator has left. *)
Lemma poll_register_map now st :
  register_map_ (poll_rtu_sources_ now st) = register_map_ st
  \/ exists st0,
       register_map_ st0 = register_map_ st
       /\ register_map_ (poll_rtu_sources_ now st)
          = register_map_ (aggregate_and_update_registers_ st0).
Proof.
  destruct (num_sources_ st =? 0)%nat eqn:Hn; [left; rewrite poll_no_sources; auto |].
  destruct (rtu_busy_ st) eqn:Hbusy.
  - destruct (poll_busy_cases now st Hn Hbusy) as [-> | [(f & t & c & _ & ->) | (rd & ->)]].
    + left. reflexivity.
    + left. cbn [register_map_ set_rtu_busy_ set_poll_state_].
      destruct (update_source_members (current_poll_source_ st) (count_poll_failure f t c)
                  (set_uart_rx_ (drop 256 (uart_rx_ st)) st)) as (-> & _). reflexivity.
    + right. eexists. split; [| reflexivity].
      destruct (update_source_members (current_poll_source_ st) (store_port_block now rd)
                  (set_uart_rx_ (drop 256 (uart_rx_ st)) st)) as (-> & _). reflexivity.
  - destruct (poll_idle_cases now st Hbusy) as [-> | (s & _ & _ & _ & ->)];
      left; reflexivity.
Qed.

(** ** The image stays an array of 178 words *)

Lemma poll_image_ok now st :
  image_ok (register_map_ st) -> image_ok (register_map_ (poll_rtu_sources_ now st)).
Proof.
  intros [Hlen Hwords].
  destruct (poll_register_map now st) as [-> | (st0 & H0 & ->)]; [split; assumption |].
  destruct (aggregate_image st0) as (H1 & H2 & _).
  split; [rewrite H1, H0; exact Hlen | apply H2; rewrite H0; exact Hwords].
Qed.

(** Once the image holds 178 words of 16 bits it does so after every
    pass of [loop()], whatever a client sends and whatever arrives on
    the UART. *)
Lemma loop_image_ok now now_poll client_fd buf st :
  image_ok (register_map_ st)
  -> image_ok (register_map_ (loop now now_poll client_fd buf st)).
Proof.
  intros Hok. unfold loop. apply poll_image_ok.
  destruct buf as [b |]; [| exact Hok].
  destruct (process_tcp_request_frame now client_fd b st) as (Hlen & _ & _ & _ & _ & Hwords).
  destruct Hok as [H1 H2]. split; [rewrite Hlen; exact H1 | apply Hwords; exact H2].
Qed.

(** ** The register blocks in a run

    [add_rtu_source] clears [raw_regs] and no function assigns to it, so
    the aggregator reads zeros from every source: [total_va] is 0 and
    the branch that writes [INV_PF] is never taken. *)

Lemma aggregate_source_zero_block a s :
  raw_regs s = replicate MODEL_103_SIZE 0 ->
  total_va a = F32.zero ->
  total_va (fst (aggregate_source a s)) = F32.zero.
Proof.
  intros Hr Ha. unfold aggregate_source.
  destruct (data_valid s); cbn [negb]; [| exact Ha].
  rewrite Hr. cbv zeta.
  destruct (phases s =? 3); cbn [fst total_va]; rewrite Ha; vm_compute; reflexivity.
Qed.

Lemma aggregate_sources_zero_blocks srcs : forall a,
  Forall (fun r => r = replicate MODEL_103_SIZE 0) (map raw_regs srcs) ->
  total_va a = F32.zero ->
  total_va (fst (aggregate_sources a srcs)) = F32.zero.
Proof.
  induction srcs as [| s srcs IH]; intros a Hz Ha; cbn [aggregate_sources]; [exact Ha |].
  cbn [map] in Hz. inversion Hz as [| ? ? Hs Hrest]; subst.
  pose proof (aggregate_source_zero_block a s Hs Ha) as H1.
  destruct (aggregate_source a s) as [a1 s1]. cbn [fst] in H1.
  specialize (IH a1 Hrest H1).
  destruct (aggregate_sources a1 srcs) as [a2 rest]. exact IH.
Qed.

(** With zeros in every block the aggregation leaves [total_va] at 0
    and does not write [INV_PF]. *)
Lemma zero_blocks_leave_power_factor st :
  zero_blocks st ->
  total_va (aggregate_totals st) = F32.zero
  /\ reg (register_map_ (aggregate_and_update_registers_ st)) (OFF_INV + 2 + INV_PF)
     = reg (register_map_ st) (OFF_INV + 2 + INV_PF).
Proof.
  intros Hz.
  pose proof (aggregate_sources_zero_blocks (sources_ st) acc_init Hz eq_refl) as Hva.
  split; [exact Hva |].
  unfold aggregate_and_update_registers_.
  destruct (aggregate_sources acc_init (sources_ st)) as [a srcs]. cbn [fst] in Hva.
  destruct (valid_count a =? 0).
  - cbn [register_map_ set_register_map_ set_agg_values_ set_sources_].
    apply reg_insert_ne. cbv. lia.
  - cbn [register_map_ set_register_map_ set_agg_values_ set_sources_ agg_config_].
    unfold write_aggregate. rewrite Hva.
    change (F32.gtb F32.zero F32.zero) with false. cbv iota.
    repeat match goal with
           | |- context [if ?b then _ else _] => destruct b
           end;
      repeat (rewrite reg_insert_ne by (cbv; lia)); reflexivity.
Qed.

(** Configuration, setup, requests and polling keep the blocks at zero. *)
Lemma zero_blocks_kept st :
  zero_blocks st ->
  (forall port ph rp cp mppt nm mdl ser,
      zero_blocks (add_rtu_source port ph rp cp mppt nm mdl ser st))
  /\ zero_blocks (setup st)
  /\ (forall now client_fd buf, zero_blocks (process_tcp_request_ now client_fd buf st))
  /\ (forall now, zero_blocks (poll_rtu_sources_ now st)).
Proof.
  intros Hz. repeat split.
  - intros. unfold add_rtu_source. destruct (_ <=? _)%nat; [exact Hz |].
    unfold zero_blocks. cbn [sources_ set_sources_]. rewrite map_app.
    apply Forall_app. split; [exact Hz |]. constructor; [reflexivity | constructor].
  - exact Hz.
  - intros now client_fd buf.
    destruct (process_tcp_request_frame now client_fd buf st) as (_ & _ & _ & Hp & _).
    unfold poller_state in Hp. unfold zero_blocks.
    replace (sources_ (process_tcp_request_ now client_fd buf st)) with (sources_ st)
      by congruence.
    exact Hz.
  - intros now. unfold zero_blocks. rewrite poll_rtu_sources_raw_regs. exact Hz.
Qed.

(** In a pass of [loop()] on such a state [INV_PF] is not written. *)
Lemma power_factor_is_never_written now now_poll client_fd buf st :
  zero_blocks st ->
  reg (register_map_ (loop now now_poll client_fd buf st)) (OFF_INV + 2 + INV_PF)
  = reg (register_map_ st) (OFF_INV + 2 + INV_PF)
  /\ zero_blocks (loop now now_poll client_fd buf st).
Proof.
  intros Hz. unfold loop.
  set (st1 := match buf with
              | Some b => process_tcp_request_ now client_fd b st
              | None => st
              end).
  assert (Hz1 : zero_blocks st1).
  { unfold st1. destruct buf as [b |]; [| exact Hz].
    apply (zero_blocks_kept st Hz). }
  assert (H1 : reg (register_map_ st1) (OFF_INV + 2 + INV_PF)
               = reg (register_map_ st) (OFF_INV + 2 + INV_PF)).
  { unfold st1. destruct buf as [b |]; [| reflexivity].
    destruct (process_tcp_request_frame now client_fd b st) as (_ & Ht & _).
    unfold reg. rewrite !nth_lookup.
    rewrite <- (lookup_take_lt (register_map_ (process_tcp_request_ now client_fd b st))
                  152) by (cbv; lia).
    rewrite Ht, lookup_take_lt by (cbv; lia). reflexivity. }
  split; [| apply (zero_blocks_kept st1 Hz1)].
  rewrite <- H1.
  destruct (num_sources_ st1 =? 0)%nat eqn:Hn; [rewrite poll_no_sources; auto |].
  destruct (rtu_busy_ st1) eqn:Hbusy.
  - destruct (poll_busy_cases now_poll st1 Hn Hbusy)
      as [-> | [(f & t & c & _ & ->) | (rd & ->)]].
    + reflexivity.
    + cbn [register_map_ set_rtu_busy_ set_poll_state_].
      destruct (update_source_members (current_poll_source_ st1) (count_poll_failure f t c)
                  (set_uart_rx_ (drop 256 (uart_rx_ st1)) st1)) as (-> & _). reflexivity.
    + cbn [register_map_ set_rtu_busy_ set_poll_state_].
      match goal with
      | |- context [aggregate_and_update_registers_ ?s0] => set (st0 := s0)
      end.
      assert (Hz0 : zero_blocks st0).
      { unfold zero_blocks, st0. rewrite update_source_raw_regs; [exact Hz1 |].
        intros s. unfold store_port_block. reflexivity. }
      destruct (zero_blocks_leave_power_factor st0 Hz0) as [_ ->].
      unfold st0.
      destruct (update_source_members (current_poll_source_ st1)
                  (store_port_block now_poll rd)
                  (set_uart_rx_ (drop 256 (uart_rx_ st1)) st1)) as (-> & _). reflexivity.
  - destruct (poll_idle_cases now_poll st1 Hbusy) as [-> | (s & _ & _ & _ & ->)];
      reflexivity.
Qed.

(** X14. The poller assigns to the measurement registers of the inverter
    model and to nothing else: the headers, the scale factors, Models 1,
    120 and 123 and the end marker are as before the call. *)
Theorem poller_writes_only_measurements now st j :
  ~ In j aggregate_offsets ->
  reg (register_map_ (poll_rtu_sources_ now st)) j = reg (register_map_ st) j.
Proof.
  intros Hj.
  destruct (poll_register_map now st) as [-> | (st0 & H0 & ->)]; [reflexivity |].
  destruct (aggregate_image st0) as (_ & _ & H). rewrite H by exact Hj.
  rewrite H0. reflexivity.
Qed.

(** The scale factor of the current, at offset 76, when the response of
    the example is taken in. *)
Lemma poller_writes_only_measurements_witness :
  reg (register_map_ (poll_rtu_sources_ 5100 example_response_arrived)) 76
  = reg (register_map_ example_response_arrived) 76.
Proof.
  apply (poller_writes_only_measurements 5100 example_response_arrived 76).
  intros H. vm_compute in H.
  repeat (destruct H as [H | H]; [discriminate H |]). exact H.
Defined.

(** ** What polling does to the sources *)

Lemma Forall2_refl_list {A} (R : A -> A -> Prop) (l : list A) :
  (forall x, R x x) -> Forall2 R l l.
Proof. intros H. induction l; constructor; auto. Qed.

Lemma Forall2_trans_list {A} (R : A -> A -> Prop) (l1 l2 l3 : list A) :
  (forall x y z, R x y -> R y z -> R x z) ->
  Forall2 R l1 l2 -> Forall2 R l2 l3 -> Forall2 R l1 l3.
Proof.
  intros Ht H12. revert l3. induction H12 as [| x y l1 l2 Hxy _ IH]; intros l3 H23;
    inversion H23; subst; constructor; eauto.
Qed.

Lemma Forall2_insert_r {A} (R : A -> A -> Prop) (l : list A) i x y :
  (forall z, R z z) -> l !! i = Some x -> R x y -> Forall2 R l (<[i := y]> l).
Proof.
  intros Hr. revert i. induction l as [| z l IH]; intros [| i] Hx Hxy; cbn in *;
    try discriminate.
  - injection Hx as ->. constructor; [exact Hxy | apply Forall2_refl_list; exact Hr].
  - constructor; [apply Hr | apply IH; assumption].
Qed.

Lemma aggregate_sources_related (R : RtuSource -> RtuSource -> Prop) :
  (forall a s, R s (snd (aggregate_source a s))) ->
  forall srcs a, Forall2 R srcs (snd (aggregate_sources a srcs)).
Proof.
  intros H. induction srcs as [| s srcs IH]; intros a; cbn [aggregate_sources].
  - constructor.
  - pose proof (H a s) as Hs. destruct (aggregate_source a s) as [a1 s1]. cbn [snd] in Hs.
    specialize (IH a1). destruct (aggregate_sources a1 srcs) as [a2 rest]. cbn [snd] in *.
    constructor; assumption.
Qed.

Lemma aggregate_sources_of st :
  sources_ (aggregate_and_update_registers_ st)
  = snd (aggregate_sources acc_init (sources_ st)).
Proof.
  unfold aggregate_and_update_registers_.
  destruct (aggregate_sources acc_init (sources_ st)) as [a srcs].
  destruct (valid_count a =? 0); reflexivity.
Qed.

Lemma update_source_related (R : RtuSource -> RtuSource -> Prop) i f st :
  (forall s, R s s) -> (forall s, R s (f s)) ->
  Forall2 R (sources_ st) (sources_ (update_source i f st)).
Proof.
  intros Hr Hf. unfold update_source.
  destruct (sources_ st !! i) as [s |] eqn:Hs; [| apply Forall2_refl_list; exact Hr].
  cbn [sources_ set_sources_]. apply (Forall2_insert_r R _ i s); auto.
Qed.

(** A relation between the sources before and after a call of the
    poller: it is enough that every assignment to a source respects it. *)
Lemma poll_sources_related (R : RtuSource -> RtuSource -> Prop) :
  (forall s, R s s) ->
  (forall x y z, R x y -> R y z -> R x z) ->
  (forall s fail timeout crc, R s (count_poll_failure fail timeout crc s)) ->
  (forall s now reg_data, R s (store_port_block now reg_data s)) ->
  (forall a s, R s (snd (aggregate_source a s))) ->
  forall now st, Forall2 R (sources_ st) (sources_ (poll_rtu_sources_ now st)).
Proof.
  intros Hr Ht Hfail Hstore Hagg now st.
  destruct (num_sources_ st =? 0)%nat eqn:Hn;
    [rewrite poll_no_sources by exact Hn; apply Forall2_refl_list; exact Hr |].
  destruct (rtu_busy_ st) eqn:Hbusy.
  - destruct (poll_busy_cases now st Hn Hbusy) as [-> | [(f & t & c & _ & ->) | (rd & ->)]].
    + apply Forall2_refl_list; exact Hr.
    + cbn [sources_ set_rtu_busy_ set_poll_state_].
      apply (update_source_related R _ _ (set_uart_rx_ _ st)); auto.
    + cbn [sources_ set_rtu_busy_ set_poll_state_]. rewrite aggregate_sources_of.
      eapply Forall2_trans_list; [exact Ht | | apply aggregate_sources_related; exact Hagg].
      apply (update_source_related R _ _ (set_uart_rx_ _ st)); auto.
  - destruct (poll_idle_cases now st Hbusy) as [-> | (s & _ & _ & _ & ->)];
      apply Forall2_refl_list; exact Hr.
Qed.

Lemma aggregate_source_keeps a s :
  source_config (snd (aggregate_source a s)) = source_config s
  /\ source_counters (snd (aggregate_source a s)) = source_counters s
  /\ source_dc_side (snd (aggregate_source a s)) = source_dc_side s
  /\ (serial_number (snd (aggregate_source a s)), serial_from_dtu (snd (aggregate_source a s)),
      data_valid (snd (aggregate_source a s)), last_poll_ms (snd (aggregate_source a s)),
      initial_model1_read (snd (aggregate_source a s)))
     = (serial_number s, serial_from_dtu s, data_valid s, last_poll_ms s,
        initial_model1_read s).
Proof.
  unfold aggregate_source. destruct (data_valid s) eqn:Hv; cbn [negb].
  - cbv iota. destruct (phases s =? 3); cbn [snd]; rewrite <- ?Hv; repeat split.
  - cbn [snd]. rewrite Hv. repeat split.
Qed.

Lemma Forall2_map_eq {A B} (f : A -> B) (l l' : list A) :
  Forall2 (fun s s' => f s' = f s) l l' -> map f l' = map f l.
Proof.
  induction 1 as [| x y l l' Hxy _ IH]; [reflexivity |].
  cbn [map]. rewrite Hxy, IH. reflexivity.
Qed.

(** X15. Polling never changes what [add_rtu_source] has configured: the
    number of sources, and for each of them port, phases, connected
    phase, rated power, MPPT inputs, name and model stay as they are; a
    serial number that was configured is not replaced by the one the
    DTU reports. *)
Theorem polling_keeps_configuration now st :
  map source_config (sources_ (poll_rtu_sources_ now st)) = map source_config (sources_ st)
  /\ Forall2 keeps_configured_serial (sources_ st) (sources_ (poll_rtu_sources_ now st)).
Proof.
  split.
  - apply Forall2_map_eq.
    apply (poll_sources_related (fun s s' => source_config s' = source_config s)).
    + reflexivity.
    + intros x y z H1 H2. congruence.
    + reflexivity.
    + reflexivity.
    + intros a s. apply aggregate_source_keeps.
  - apply (poll_sources_related keeps_configured_serial); unfold keeps_configured_serial.
    + reflexivity.
    + intros x y z H1 H2 Hx. rewrite H2, H1; [reflexivity | exact Hx |].
      rewrite H1 by exact Hx. exact Hx.
    + reflexivity.
    + intros s now' rd Hs. cbn [serial_number store_port_block].
      rewrite Hs, andb_false_r. reflexivity.
    + intros a s _. destruct (aggregate_source_keeps a s) as (_ & _ & _ & H).
      injection H as H _. exact H.
Qed.

(** X16. Nothing in the poller clears [data_valid]: a source that is
    valid before a call of the poller is valid after it, whether the
    call sends, waits, takes a response in, or counts a failure, a CRC
    error or a timeout. *)
Theorem valid_source_stays_valid now st :
  Forall2 stays_valid (sources_ st) (sources_ (poll_rtu_sources_ now st)).
Proof.
  apply (poll_sources_related stays_valid); unfold stays_valid.
  - auto.
  - auto.
  - auto.
  - reflexivity.
  - intros a s Hs. destruct (aggregate_source_keeps a s) as (_ & _ & _ & H).
    injection H as _ _ H _ _. rewrite H. exact Hs.
Qed.

(** ** The poller and the bus *)

Lemma poll_num_sources now st :
  num_sources_ (poll_rtu_sources_ now st) = num_sources_ st.
Proof.
  unfold num_sources_.
  pose proof (poll_sources_related (fun _ _ => True)
                (fun _ => I) (fun _ _ _ _ _ => I) (fun _ _ _ _ => I) (fun _ _ _ => I)
                (fun _ _ => I) now st) as H.
  symmetry. exact (Forall2_length _ _ _ H).
Qed.

(** X17. [current_poll_source_] stays an index into the configured
    sources, and the number of sources does not change. *)
Theorem poll_index_stays_in_range now st :
  (current_poll_source_ st < num_sources_ st)%nat ->
  (current_poll_source_ (poll_rtu_sources_ now st) < num_sources_ (poll_rtu_sources_ now st))%nat
  /\ num_sources_ (poll_rtu_sources_ now st) = num_sources_ st.
Proof.
  intros Hcur. rewrite poll_num_sources. split; [| reflexivity].
  destruct (num_sources_ st =? 0)%nat eqn:Hn; [rewrite poll_no_sources; auto |].
  destruct (rtu_busy_ st) eqn:Hbusy.
  - destruct (poll_busy_cases now st Hn Hbusy) as [-> | [(f & t & c & _ & ->) | (rd & ->)]].
    + exact Hcur.
    + cbn [current_poll_source_ set_rtu_busy_ set_poll_state_].
      destruct (update_source_members (current_poll_source_ st) (count_poll_failure f t c)
                  (set_uart_rx_ (drop 256 (uart_rx_ st)) st)) as (_ & _ & _ & H & _).
      injection H as -> _ _ _ _. exact Hcur.
    + cbn [current_poll_source_ set_rtu_busy_ set_poll_state_].
      destruct (aggregate_other_members
                  (update_source (current_poll_source_ st) (store_port_block now rd)
                     (set_uart_rx_ (drop 256 (uart_rx_ st)) st))) as (_ & _ & H & _).
      injection H as -> _ _ _ _.
      destruct (update_source_members (current_poll_source_ st) (store_port_block now rd)
                  (set_uart_rx_ (drop 256 (uart_rx_ st)) st)) as (_ & _ & _ & H & _).
      injection H as -> _ _ _ _. exact Hcur.
  - destruct (poll_idle_cases now st Hbusy) as [-> | (s & _ & _ & _ & ->)]; [exact Hcur |].
    cbn [current_poll_source_ set_poll_state_].
    apply Nat.mod_upper_bound. apply Nat.eqb_neq in Hn. exact Hn.
Qed.

Lemma poll_index_stays_in_range_witness :
  (current_poll_source_ (poll_rtu_sources_ 5000 example_two_sources)
   < num_sources_ (poll_rtu_sources_ 5000 example_two_sources))%nat
  /\ num_sources_ (poll_rtu_sources_ 5000 example_two_sources)
     = num_sources_ example_two_sources.
Proof.
  apply (poll_index_stays_in_range 5000 example_two_sources).
  vm_compute. lia.
Defined.

(** X18. A call of the poller puts at most one frame on the UART, a
    request that it flushes, and only when no response is awaited; it
    sends nothing on a socket.  While [rtu_busy_] is set it writes
    nothing at all. *)
Theorem poller_writes_only_when_idle now st :
  trace_ (poll_rtu_sources_ now st) = trace_ st
  \/ (rtu_busy_ st = false
      /\ rtu_busy_ (poll_rtu_sources_ now st) = true
      /\ exists frame,
           trace_ (poll_rtu_sources_ now st) = trace_ st ++ [UartWrite frame; UartFlush]).
Proof.
  destruct (num_sources_ st =? 0)%nat eqn:Hn; [left; rewrite poll_no_sources; auto |].
  destruct (rtu_busy_ st) eqn:Hbusy.
  - left.
    destruct (poll_busy_cases now st Hn Hbusy) as [-> | [(f & t & c & _ & ->) | (rd & ->)]].
    + reflexivity.
    + cbn [trace_ set_rtu_busy_ set_poll_state_].
      destruct (update_source_members (current_poll_source_ st) (count_poll_failure f t c)
                  (set_uart_rx_ (drop 256 (uart_rx_ st)) st)) as (_ & -> & _). reflexivity.
    + cbn [trace_ set_rtu_busy_ set_poll_state_].
      destruct (aggregate_other_members
                  (update_source (current_poll_source_ st) (store_port_block now rd)
                     (set_uart_rx_ (drop 256 (uart_rx_ st)) st))) as (_ & _ & _ & ->).
      destruct (update_source_members (current_poll_source_ st) (store_port_block now rd)
                  (set_uart_rx_ (drop 256 (uart_rx_ st)) st)) as (_ & -> & _). reflexivity.
  - destruct (poll_idle_cases now st Hbusy) as [-> | (s & _ & _ & _ & ->)];
      [left; reflexivity |].
    right. split; [reflexivity |]. split; [reflexivity |].
    eexists. reflexivity.
Qed.

(** X19. With no response awaited the poller does nothing until
    [poll_interval_ms_ / num_sources_] milliseconds have passed since
    the last request (the difference is taken modulo 2^32, as the clock
    wraps).  Then it empties the receive buffer, sends one request that
    a receiver reads as Read Holding Registers of the 40 registers from
    0x1000 + 40 * port of the DTU, sets [rtu_busy_] and the two times,
    and moves on to the next source, the first after the last. *)
Theorem poll_request now st s :
  rtu_busy_ st = false ->
  sources_ st !! current_poll_source_ st = Some s ->
  is_u8 (dtu_address_ st) -> is_u8 (port_number s) ->
  let st' := poll_rtu_sources_ now st in
  if u32 (now - last_poll_time_ st) <? poll_interval_ms_ st / Z.of_nat (num_sources_ st)
  then st' = st
  else exists frame,
      trace_ st' = trace_ st ++ [UartWrite frame; UartFlush]
      /\ decode_rtu_frame frame
         = Some (ReadHoldingRegisters (dtu_address_ st) (4096 + 40 * port_number s) 40)
      /\ (rtu_busy_ st', rtu_request_time_ st', last_poll_time_ st') = (true, now, now)
      /\ uart_rx_ st' = []
      /\ current_poll_source_ st' = ((current_poll_source_ st + 1) mod num_sources_ st)%nat
      /\ sources_ st' = sources_ st
      /\ register_map_ st' = register_map_ st.
Proof.
  intros Hbusy Hs Hdtu Hport st'. subst st'.
  assert (Hn : (num_sources_ st =? 0)%nat = false).
  { apply Nat.eqb_neq. unfold num_sources_. intros H0.
    apply length_zero_iff_nil in H0. rewrite H0 in Hs. discriminate. }
  unfold poll_rtu_sources_. rewrite Hn, Hbusy.
  destruct (_ <? _); [reflexivity |]. rewrite Hs.
  unfold send_rtu_request_.
  eexists. split; [reflexivity |]. split; [| repeat split].
  unfold HM_DATA_BASE, HM_PORT_STRIDE, HM_PORT_REGS.
  rewrite u16_small by (unfold is_u8, is_u16 in *; lia).
  rewrite decode_rtu_frame_of_rtu_frame by (unfold is_u8, is_u16 in *; lia).
  f_equal. f_equal. lia.
Qed.

(** The first request of the example: port 0 of DTU 126. *)
Lemma poll_request_witness :
  exists frame,
    trace_ (poll_rtu_sources_ 5000 example_one_source)
    = trace_ example_one_source ++ [UartWrite frame; UartFlush]
    /\ decode_rtu_frame frame = Some (ReadHoldingRegisters 126 (4096 + 40 * 0) 40)
    /\ (rtu_busy_ (poll_rtu_sources_ 5000 example_one_source),
        rtu_request_time_ (poll_rtu_sources_ 5000 example_one_source),
        last_poll_time_ (poll_rtu_sources_ 5000 example_one_source)) = (true, 5000, 5000)
    /\ uart_rx_ (poll_rtu_sources_ 5000 example_one_source) = []
    /\ current_poll_source_ (poll_rtu_sources_ 5000 example_one_source)
       = ((current_poll_source_ example_one_source + 1) mod num_sources_ example_one_source)%nat
    /\ sources_ (poll_rtu_sources_ 5000 example_one_source) = sources_ example_one_source
    /\ register_map_ (poll_rtu_sources_ 5000 example_one_source)
       = register_map_ example_one_source.
Proof.
  apply (poll_request 5000 example_one_source
           (new_source 0 1 800 1 2 "inv1" "HMS-800-2T" "")).
  - reflexivity.
  - reflexivity.
  - unfold is_u8. simpl. lia.
  - unfold is_u8. simpl. lia.
Defined.

(** X20. Fewer than 5 pending bytes are not a frame: the poller reads them
    out of the receive buffer and drops them, and writes nothing.  The
    wait ends when more than [rtu_timeout_ms_] milliseconds (modulo
    2^32) have passed since the request: the timeout is counted for
    [sources_[current_poll_source_]] and [rtu_busy_] is cleared;
    until then the sources are as they were. *)
Theorem short_fragment_is_discarded now st s :
  rtu_busy_ st = true ->
  sources_ st !! current_poll_source_ st = Some s ->
  (length (uart_rx_ st) < 5)%nat ->
  let st' := poll_rtu_sources_ now st in
  uart_rx_ st' = []
  /\ register_map_ st' = register_map_ st
  /\ trace_ st' = trace_ st
  /\ (if rtu_timeout_ms_ st <? u32 (now - rtu_request_time_ st)
      then rtu_busy_ st' = false
           /\ sources_ st'
              = <[current_poll_source_ st := count_poll_failure 0 1 0 s]> (sources_ st)
      else rtu_busy_ st' = true /\ sources_ st' = sources_ st).
Proof.
  intros Hbusy Hs Hshort st'. subst st'.
  assert (Hn : (num_sources_ st =? 0)%nat = false).
  { apply Nat.eqb_neq. unfold num_sources_. intros H0.
    apply length_zero_iff_nil in H0. rewrite H0 in Hs. discriminate. }
  unfold poll_rtu_sources_. rewrite Hn, Hbusy.
  unfold read_rtu_response_. rewrite take_ge, drop_ge by lia.
  destruct (Nat.ltb_spec (length (uart_rx_ st)) 5) as [_ | ?]; [| lia].
  cbn [Z.ltb Z.compare Z.eqb].
  cbn [rtu_timeout_ms_ rtu_request_time_ current_poll_source_ set_uart_rx_].
  destruct (_ <? _).
  - cbn [uart_rx_ register_map_ trace_ rtu_busy_ sources_ set_rtu_busy_ set_poll_state_].
    destruct (update_source_members (current_poll_source_ st) (count_poll_failure 0 1 0)
                (set_uart_rx_ [] st)) as (-> & -> & _ & H & _).
    injection H as _ _ _ _ ->.
    rewrite (update_source_sources _ _ _ s) by exact Hs. repeat split.
  - repeat split; assumption.
Qed.

(** One byte arrives 3001 ms after the request. *)
Lemma short_fragment_is_discarded_witness :
  uart_rx_ (poll_rtu_sources_ 8001 (set_uart_rx_ [126] example_poll_in_flight)) = []
  /\ register_map_ (poll_rtu_sources_ 8001 (set_uart_rx_ [126] example_poll_in_flight))
     = register_map_ (set_uart_rx_ [126] example_poll_in_flight)
  /\ trace_ (poll_rtu_sources_ 8001 (set_uart_rx_ [126] example_poll_in_flight))
     = trace_ (set_uart_rx_ [126] example_poll_in_flight)
  /\ rtu_busy_ (poll_rtu_sources_ 8001 (set_uart_rx_ [126] example_poll_in_flight)) = false
  /\ sources_ (poll_rtu_sources_ 8001 (set_uart_rx_ [126] example_poll_in_flight))
     = <[0%nat := count_poll_failure 0 1 0 (new_source 0 1 800 1 2 "inv1" "HMS-800-2T" "")]>
         (sources_ (set_uart_rx_ [126] example_poll_in_flight)).
Proof.
  apply (short_fragment_is_discarded 8001 (set_uart_rx_ [126] example_poll_in_flight)
           (new_source 0 1 800 1 2 "inv1" "HMS-800-2T" "")).
  - reflexivity.
  - reflexivity.
  - simpl. lia.
Defined.

(** ** The poll statistics *)

Lemma aggregate_sources_map {A} (f : RtuSource -> A) :
  (forall a s, f (snd (aggregate_source a s)) = f s) ->
  forall srcs a, map f (snd (aggregate_sources a srcs)) = map f srcs.
Proof.
  intros H srcs a. apply Forall2_map_eq.
  apply (aggregate_sources_related (fun s s' => f s' = f s)). exact H.
Qed.

Lemma map_insert {A B} (f : A -> B) (l : list A) i x :
  map f (<[i := x]> l) = <[i := f x]> (map f l).
Proof. apply (list_fmap_insert f l i x). Qed.

(** X21. A poll that ends is counted once, for
    [sources_[current_poll_source_]]: a call of the poller while a
    response is awaited either keeps waiting and leaves all statistics
    alone, or clears [rtu_busy_] and adds one to exactly one of
    [poll_success_count], [poll_fail_count] and [poll_timeout_count] of
    that source, and to [crc_error_count] only together with
    [poll_fail_count]. *)
Theorem poll_outcome_is_counted_once now st s :
  rtu_busy_ st = true ->
  sources_ st !! current_poll_source_ st = Some s ->
  counters_in_range s ->
  let st' := poll_rtu_sources_ now st in
  let ok := poll_success_count s in
  let fail := poll_fail_count s in
  let timeout := poll_timeout_count s in
  let crc := crc_error_count s in
  (rtu_busy_ st' = true
   /\ map source_counters (sources_ st') = map source_counters (sources_ st))
  \/ (rtu_busy_ st' = false
      /\ exists c,
           map source_counters (sources_ st')
           = <[current_poll_source_ st := c]> (map source_counters (sources_ st))
           /\ In c [(u32 (ok + 1), fail, timeout, crc);
                    (ok, u32 (fail + 1), timeout, crc);
                    (ok, u32 (fail + 1), timeout, u32 (crc + 1));
                    (ok, fail, u32 (timeout + 1), crc)]).
Proof.
  intros Hbusy Hs (Hok & Hfail & Htime & Hcrc) st' ok fail timeout crc. subst st'.
  assert (Hn : (num_sources_ st =? 0)%nat = false).
  { apply Nat.eqb_neq. unfold num_sources_. intros H0.
    apply length_zero_iff_nil in H0. rewrite H0 in Hs. discriminate. }
  assert (Hid : forall x, 0 <= x < 4294967296 -> u32 (x + 0) = x).
  { intros x Hx. unfold u32. rewrite Z.add_0_r. apply Z.mod_small. exact Hx. }
  destruct (poll_busy_cases now st Hn Hbusy) as [-> | [(f & t & c & Hftc & ->) | (rd & ->)]].
  - left. split; [exact Hbusy | reflexivity].
  - right. split; [reflexivity |].
    cbn [sources_ set_rtu_busy_ set_poll_state_].
    rewrite (update_source_sources _ _ (set_uart_rx_ _ st) s) by exact Hs.
    cbn [sources_ set_uart_rx_]. rewrite map_insert. eexists. split; [reflexivity |].
    unfold source_counters. cbn [poll_success_count poll_fail_count poll_timeout_count
                                 crc_error_count count_poll_failure].
    fold ok fail timeout crc.
    destruct Hftc as [H | [H | H]]; injection H as -> -> ->.
    + right. left. unfold fail, timeout, crc. rewrite !Hid by assumption. reflexivity.
    + right. right. left. unfold fail, timeout, crc. rewrite !Hid by assumption. reflexivity.
    + right. right. right. left. unfold fail, timeout, crc. rewrite !Hid by assumption.
      reflexivity.
  - right. split; [reflexivity |].
    cbn [sources_ set_rtu_busy_ set_poll_state_]. rewrite aggregate_sources_of.
    rewrite (aggregate_sources_map source_counters)
      by (intros a x; apply aggregate_source_keeps).
    rewrite (update_source_sources _ _ (set_uart_rx_ _ st) s) by exact Hs.
    cbn [sources_ set_uart_rx_]. rewrite map_insert. eexists. split; [reflexivity |].
    left. reflexivity.
Qed.

(** The response to the first request of the example arrives. *)
Lemma poll_outcome_is_counted_once_witness :
  (rtu_busy_ (poll_rtu_sources_ 5100 example_response_arrived) = true
   /\ map source_counters (sources_ (poll_rtu_sources_ 5100 example_response_arrived))
      = map source_counters (sources_ example_response_arrived))
  \/ (rtu_busy_ (poll_rtu_sources_ 5100 example_response_arrived) = false
      /\ exists c,
           map source_counters (sources_ (poll_rtu_sources_ 5100 example_response_arrived))
           = <[current_poll_source_ example_response_arrived := c]>
               (map source_counters (sources_ example_response_arrived))
           /\ In c [(u32 (0 + 1), 0, 0, 0); (0, u32 (0 + 1), 0, 0);
                    (0, u32 (0 + 1), 0, u32 (0 + 1)); (0, 0, u32 (0 + 1), 0)]).
Proof.
  apply (poll_outcome_is_counted_once 5100 example_response_arrived
           (new_source 0 1 800 1 2 "inv1" "HMS-800-2T" "")).
  - reflexivity.
  - reflexivity.
  - unfold counters_in_range. simpl. lia.
Defined.

(** ** A successful poll *)

Lemma words_be_u8 ws : Forall is_u16 ws -> Forall is_u8 (words_be ws).
Proof.
  induction 1 as [| w ws Hw _ IH]; [constructor |].
  rewrite words_be_cons. unfold is_u16, is_u8 in *.
  constructor; [| constructor; [| exact IH]].
  - split; [apply Z.div_pos; lia | apply Z.div_lt_upper_bound; lia].
  - apply Z.mod_pos_bound. lia.
Qed.

Lemma reg_take (l : list Z) n k : (k < n)%nat -> reg (take n l) k = reg l k.
Proof.
  intros Hk. unfold reg. rewrite !nth_lookup, lookup_take_lt by exact Hk. reflexivity.
Qed.

(** The registers [poll_rtu_sources_] takes out of a response. *)
Lemma response_registers addr block trailer :
  Forall is_u16 block -> (length block <= 125)%nat ->
  let resp := [addr; 3; 2 * Z.of_nat (length block)] ++ words_be block ++ trailer in
  nth 1 resp 0 = 3
  /\ nth 2 resp 0 / 2 = Z.of_nat (length block)
  /\ map (fun i => be16 resp (3 + i * 2))
       (seq 0 (Z.to_nat (Z.min (nth 2 resp 0 / 2) 64)))
     = take 64 block.
Proof.
  intros Hblock Hlen resp.
  assert (H2 : nth 2 resp 0 / 2 = Z.of_nat (length block)).
  { subst resp. cbn [app nth]. rewrite Z.mul_comm. apply Z.div_mul. lia. }
  split; [reflexivity |]. split; [exact H2 |]. rewrite H2.
  set (m := Z.to_nat (Z.min (Z.of_nat (length block)) 64)).
  assert (Hm : m = Nat.min (length block) 64) by (unfold m; lia).
  rewrite (map_ext_in _ (fun i => nth i block 0)).
  - rewrite map_nth_seq_pad. replace (m - length block)%nat with 0%nat by lia.
    cbn [replicate]. rewrite app_nil_r, Hm.
    destruct (Nat.le_ge_cases (length block) 64) as [Hle | Hge].
    + rewrite Nat.min_l, !take_ge by lia. reflexivity.
    + rewrite Nat.min_r by lia. reflexivity.
  - intros i Hi. apply in_seq in Hi.
    apply (be16_words_be [addr; 3; 2 * Z.of_nat (length block)] trailer block i Hblock). lia.
Qed.

Lemma aggregate_sources_lookup srcs : forall a i s,
  srcs !! i = Some s ->
  exists a', snd (aggregate_sources a srcs) !! i = Some (snd (aggregate_source a' s)).
Proof.
  induction srcs as [| x srcs IH]; intros a i s Hs; [discriminate |].
  cbn [aggregate_sources].
  destruct (aggregate_source a x) as [a1 x1] eqn:Hx.
  specialize (IH a1). destruct (aggregate_sources a1 srcs) as [a2 rest]. cbn [snd] in *.
  destruct i as [| i]; cbn in *.
  - injection Hs as ->. exists a. rewrite Hx. reflexivity.
  - apply IH. exact Hs.
Qed.

(** The state after a response with a right CRC and at least 34
    registers has been read. *)
Lemma poll_good_response now addr block st :
  rtu_busy_ st = true -> (num_sources_ st =? 0)%nat = false ->
  is_u8 addr -> Forall is_u16 block -> (34 <= length block <= 125)%nat ->
  uart_rx_ st = rtu_read_response addr block ->
  poll_rtu_sources_ now st
  = set_rtu_busy_ false
      (aggregate_and_update_registers_
         (update_source (current_poll_source_ st) (store_port_block now (take 64 block))
            (set_uart_rx_ [] st))).
Proof.
  intros Hbusy Hn Haddr Hblock Hlen Hrx.
  unfold rtu_read_response in Hrx. cbv zeta in Hrx.
  set (body := [addr; 3; 2 * Z.of_nat (length block)] ++ words_be block) in *.
  assert (Hbody : Forall is_u8 body).
  { unfold body. cbn [app]. unfold is_u8 in *.
    repeat (constructor; [lia |]). apply words_be_u8. exact Hblock. }
  assert (Hlb : length body = (3 + 2 * length block)%nat).
  { unfold body. rewrite length_app, words_be_length. reflexivity. }
  pose proof (calc_crc16_u16 body (length body) Hbody) as Hcrc.
  assert (Hlo : is_u8 (calc_crc16_ body (length body) mod 256))
    by (unfold is_u8; apply Z.mod_pos_bound; lia).
  assert (Hhi : is_u8 (calc_crc16_ body (length body) / 256)).
  { unfold is_u8, is_u16 in *.
    split; [apply Z.div_pos; lia | apply Z.div_lt_upper_bound; lia]. }
  assert (Hlen' : (3 <= length body <= 254)%nat) by lia.
  pose proof (read_rtu_response_framed body _ _ st Hbody Hlo Hhi Hlen' Hrx) as Hread.
  rewrite !Z.eqb_refl in Hread. cbn [andb] in Hread.
  unfold poll_rtu_sources_. rewrite Hn, Hbusy, Hread.
  destruct (Z.ltb_spec 0 (Z.of_nat (length body + 2))) as [_ | ?]; [| lia].
  unfold handle_rtu_response.
  unfold body. rewrite <- app_assoc.
  destruct (response_registers addr block
              [calc_crc16_ body (length body) mod 256; calc_crc16_ body (length body) / 256]
              Hblock ltac:(lia)) as (H1 & H2 & H3).
  cbv zeta in H1, H2, H3. fold body in H1, H2, H3 |- *.
  rewrite H1, H3, H2.
  destruct (Z.leb_spec 5 (Z.of_nat (length body + 2))) as [_ | ?]; [| lia].
  cbn [andb Z.eqb Pos.eqb].
  destruct (Z.leb_spec 34 (Z.of_nat (length block))) as [_ | ?]; [| lia].
  reflexivity.
Qed.

(** X22. A response with a right CRC that carries 34 to 125 registers is
    taken as the port block of [sources_[current_poll_source_]],
    whatever address it comes from: the source becomes valid, the time
    and the success counter are updated, and the PV voltage, current and
    power, the production of the day, the alarm code, the link status
    and the operating status are those of the block (registers 8, 9,
    12, 13-14, 31, 32 and 30).  [rtu_busy_] is cleared. *)
Theorem successful_poll_decodes_port_block now addr block st s :
  rtu_busy_ st = true ->
  sources_ st !! current_poll_source_ st = Some s ->
  is_u8 addr -> Forall is_u16 block -> (34 <= length block <= 125)%nat ->
  uart_rx_ st = rtu_read_response addr block ->
  let st' := poll_rtu_sources_ now st in
  rtu_busy_ st' = false
  /\ exists s',
       sources_ st' !! current_poll_source_ st = Some s'
       /\ data_valid s' = true
       /\ last_poll_ms s' = now
       /\ source_counters s'
          = (u32 (poll_success_count s + 1), poll_fail_count s, poll_timeout_count s,
             crc_error_count s)
       /\ source_dc_side s'
          = (F32.of_Z (reg block 8),
             F32.div (F32.of_Z (reg block 9)) F32.two,
             F32.of_Z (reg block 12),
             F32.of_Z (u32_of_words (reg block 13) (reg block 14)),
             reg block 31,
             Z.land (reg block 32) 255,
             reg block 30).
Proof.
  intros Hbusy Hs Haddr Hblock Hlen Hrx st'. subst st'.
  assert (Hn : (num_sources_ st =? 0)%nat = false).
  { apply Nat.eqb_neq. unfold num_sources_. intros H0.
    apply length_zero_iff_nil in H0. rewrite H0 in Hs. discriminate. }
  rewrite (poll_good_response now addr block st) by assumption.
  split; [reflexivity |].
  cbn [sources_ set_rtu_busy_ set_poll_state_]. rewrite aggregate_sources_of.
  rewrite (update_source_sources _ _ (set_uart_rx_ [] st) s) by exact Hs.
  cbn [sources_ set_uart_rx_].
  assert (Hcur : (current_poll_source_ st < length (sources_ st))%nat)
    by (apply lookup_lt_is_Some; eauto).
  destruct (aggregate_sources_lookup
              (<[current_poll_source_ st := store_port_block now (take 64 block) s]>
                 (sources_ st))
              acc_init (current_poll_source_ st) (store_port_block now (take 64 block) s))
    as [a' Ha']; [apply list_lookup_insert_eq; exact Hcur |].
  eexists. split; [exact Ha' |].
  destruct (aggregate_source_keeps a' (store_port_block now (take 64 block) s))
    as (_ & Hc & Hd & Hm).
  injection Hm as _ _ Hvalid Htime _.
  rewrite Hvalid, Htime, Hc, Hd.
  unfold source_dc_side, source_counters.
  cbn [data_valid last_poll_ms poll_success_count poll_fail_count poll_timeout_count
       crc_error_count pv_voltage_v pv_current_a pv_power_w today_energy_wh alarm_code
       link_status operating_status store_port_block].
  unfold HM_PV_VOLTAGE, HM_PV_CURRENT, HM_PV_POWER, HM_TODAY_PROD_H, HM_TODAY_PROD_L,
    HM_ALARM_CODE, HM_LINK_STATUS, HM_OPERATING_STATUS.
  rewrite !reg_take by lia. repeat split.
Qed.

(** The response of the example: 650 W from 35 V and 10 A. *)
Lemma successful_poll_decodes_port_block_witness :
  rtu_busy_ (poll_rtu_sources_ 5100 example_response_arrived) = false
  /\ exists s',
       sources_ (poll_rtu_sources_ 5100 example_response_arrived)
         !! current_poll_source_ example_response_arrived = Some s'
       /\ data_valid s' = true
       /\ last_poll_ms s' = 5100
       /\ source_counters s' = (u32 (0 + 1), 0, 0, 0)
       /\ source_dc_side s'
          = (F32.of_Z (reg example_port_block 8),
             F32.div (F32.of_Z (reg example_port_block 9)) F32.two,
             F32.of_Z (reg example_port_block 12),
             F32.of_Z (u32_of_words (reg example_port_block 13) (reg example_port_block 14)),
             reg example_port_block 31,
             Z.land (reg example_port_block 32) 255,
             reg example_port_block 30).
Proof.
  apply (successful_poll_decodes_port_block 5100 126 example_port_block
           example_response_arrived (new_source 0 1 800 1 2 "inv1" "HMS-800-2T" "")).
  - reflexivity.
  - reflexivity.
  - unfold is_u8. lia.
  - apply Forall_is_u16_of_forallb. vm_compute. reflexivity.
  - simpl. lia.
  - vm_compute. reflexivity.
Defined.

(** ** The serial number reported by the DTU *)

Lemma of_cstr_pad cs k : of_cstr (cs ++ replicate k 0) = of_cstr cs.
Proof.
  induction cs as [| c cs IH]; cbn [app of_cstr].
  - destruct k; reflexivity.
  - rewrite IH. reflexivity.
Qed.

Lemma rev_replicate {A} (x : A) k : rev (replicate k x) = replicate k x.
Proof.
  induction k as [| k IH]; [reflexivity |].
  cbn [replicate rev]. rewrite IH. symmetry. apply replicate_S_end.
Qed.

(** Trailing NULs and spaces become NULs; what stands before them, when
    it does not end in one of the two, is kept. *)
Lemma trim_front_padding (pad l : list Z) :
  Forall (fun c => c = 0 \/ c = 32) pad ->
  trim_front (pad ++ l) = replicate (length pad) 0 ++ trim_front l.
Proof.
  induction 1 as [| c pad Hc _ IH]; [reflexivity |].
  cbn [app trim_front length replicate].
  destruct Hc as [-> | ->]; cbn [Z.eqb Pos.eqb orb]; rewrite IH; reflexivity.
Qed.

Lemma trim_trailing_padding (body pad : list Z) :
  body = [] \/ (List.last body 0 <> 0 /\ List.last body 0 <> 32) ->
  Forall (fun c => c = 0 \/ c = 32) pad ->
  trim_trailing (body ++ pad) = body ++ replicate (length pad) 0.
Proof.
  intros Hbody Hpad. unfold trim_trailing.
  rewrite rev_app_distr, trim_front_padding, length_rev
    by (apply Forall_rev; exact Hpad).
  rewrite rev_app_distr, rev_replicate. f_equal.
  destruct Hbody as [-> | [H0 H32]]; [reflexivity |].
  destruct body as [| b0 body']; [reflexivity |].
  set (body := b0 :: body') in *.
  assert (Hne : body <> []) by discriminate.
  rewrite (app_removelast_last 0 Hne) at 1.
  rewrite rev_unit. cbn [trim_front].
  rewrite (proj2 (Z.eqb_neq _ _) H0), (proj2 (Z.eqb_neq _ _) H32). cbn [orb].
  rewrite <- rev_unit, <- app_removelast_last by exact Hne.
  apply rev_involutive.
Qed.

Lemma of_cstr_until_nul l : of_cstr (until_nul l) = of_cstr l.
Proof.
  induction l as [| c l IH]; [reflexivity |].
  cbn [until_nul of_cstr]. destruct (Z.eqb_spec c 0) as [-> | Hc]; [reflexivity |].
  cbn [of_cstr]. rewrite (proj2 (Z.eqb_neq _ _) Hc), IH. reflexivity.
Qed.

Lemma cstr_of_bytes l : Forall is_u8 l -> cstr (of_cstr l) = until_nul l.
Proof.
  induction 1 as [| c l Hc _ IH]; [reflexivity |].
  cbn [of_cstr until_nul]. destruct (Z.eqb_spec c 0) as [-> | Hnz]; [reflexivity |].
  unfold is_u8 in Hc. cbn [cstr]. rewrite nat_ascii_embedding by lia.
  destruct (Nat.eqb_spec (Z.to_nat c) 0); [lia |].
  rewrite Z2Nat.id by lia. rewrite IH. reflexivity.
Qed.

Lemma length_until_nul l : (length (until_nul l) <= length l)%nat.
Proof.
  induction l as [| c l IH]; cbn [until_nul length]; [lia |].
  destruct (c =? 0); cbn [length]; lia.
Qed.

(** A string of fewer than [n] bytes is copied whole. *)
Lemma strncpy_of_bytes l n :
  Forall is_u8 l -> (length l <= n)%nat -> strncpy (of_cstr l) n = of_cstr l.
Proof.
  intros Hl Hn. unfold strncpy. rewrite (cstr_of_bytes l Hl).
  rewrite take_ge by (pose proof (length_until_nul l); lia).
  apply of_cstr_until_nul.
Qed.

Lemma serial_chars_of_pack reg_data cs :
  Forall is_u8 cs ->
  map (fun k => reg reg_data (HM_SN_START + k)) (seq 0 6) = map (pack_reg cs) (seq 0 6) ->
  serial_chars reg_data = map (fun i => nth i cs 0) (seq 0 12).
Proof.
  intros Hcs Hregs. unfold serial_chars.
  change 12%nat with (2 * 6)%nat. rewrite <- (flat_map_pack_reg cs 6 Hcs).
  apply flat_map_ext_In. intros k Hk.
  assert (Hr : reg reg_data (HM_SN_START + k) = pack_reg cs k).
  { apply in_seq in Hk.
    apply (f_equal (fun l => nth k l 0)) in Hregs.
    rewrite (nth_indep _ 0 (reg reg_data (HM_SN_START + 0))) in Hregs
      by (rewrite length_map, length_seq; lia).
    rewrite (map_nth (fun k => reg reg_data (HM_SN_START + k))), seq_nth in Hregs by lia.
    rewrite (nth_indep _ 0 (pack_reg cs 0)) in Hregs by (rewrite length_map, length_seq; lia).
    rewrite (map_nth (pack_reg cs)), seq_nth in Hregs by lia.
    exact Hregs. }
  rewrite Hr.
  destruct (pack_reg_bytes cs k Hcs) as [Hd Hm].
  pose proof (nth_is_u8 cs (2 * k) Hcs) as H0. unfold is_u8 in H0.
  rewrite Z.shiftr_div_pow2 by lia. change (2 ^ 8) with 256.
  change 255 with (Z.ones 8). rewrite !Z.land_ones by lia. change (2 ^ 8) with 256.
  rewrite Hd, Hm, (Z.mod_small (nth (2 * k) cs 0)) by lia. reflexivity.
Qed.

(** Any characters split into what the trimming keeps and the padding
    it blanks. *)
Lemma serial_bytes_split (chars : list Z) :
  exists body pad,
    chars = body ++ pad
    /\ Forall (fun c => c = 0 \/ c = 32) pad
    /\ (body = [] \/ (List.last body 0 <> 0 /\ List.last body 0 <> 32)).
Proof.
  induction chars as [| c chars IH] using rev_ind.
  - exists [], []. repeat split; [constructor | left; reflexivity].
  - destruct (Z.eq_dec c 0) as [H0 | H0]; [| destruct (Z.eq_dec c 32) as [H32 | H32]].
    + destruct IH as (body & pad & -> & Hpad & Hbody).
      exists body, (pad ++ [c]). rewrite app_assoc. repeat split; [| exact Hbody].
      apply Forall_app. split; [exact Hpad | constructor; [left; exact H0 | constructor]].
    + destruct IH as (body & pad & -> & Hpad & Hbody).
      exists body, (pad ++ [c]). rewrite app_assoc. repeat split; [| exact Hbody].
      apply Forall_app. split; [exact Hpad | constructor; [right; exact H32 | constructor]].
    + exists (chars ++ [c]), []. rewrite app_nil_r. repeat split; [constructor |].
      right. rewrite last_last. split; assumption.
Qed.

(** X23. The first port block of a source gives it the serial number the
    DTU reports in registers 1 to 6, two characters per register, high
    byte first: the trailing NULs and spaces are dropped and the
    characters up to the first NUL are stored in [serial_from_dtu], and
    in [serial_number] unless one was configured; when nothing but
    padding is reported, nothing is stored.  A source that has had its
    first block keeps both, whatever a later block carries. *)
Theorem serial_number_is_read_once now later reg_data reg_data' s t body pad :
  initial_model1_read s = false ->
  initial_model1_read t = true ->
  Forall is_u8 body ->
  Forall (fun c => c = 0 \/ c = 32) pad ->
  (length body + length pad = 12)%nat ->
  body = [] \/ (List.last body 0 <> 0 /\ List.last body 0 <> 32) ->
  map (fun k => reg reg_data (HM_SN_START + k)) (seq 0 6)
  = map (pack_reg (body ++ pad)) (seq 0 6) ->
  let sn := of_cstr body in
  let s1 := store_port_block now reg_data s in
  let t1 := store_port_block later reg_data' t in
  initial_model1_read s1 = true
  /\ serial_from_dtu s1 = (if str_empty sn then serial_from_dtu s else sn)
  /\ serial_number s1
     = (if negb (str_empty sn) && str_empty (serial_number s)
        then sn else serial_number s)
  /\ serial_from_dtu t1 = serial_from_dtu t
  /\ serial_number t1 = serial_number t.
Proof.
  intros Hfirst Hlater Hbody Hpad Hlen Hlast Hregs sn s1 t1.
  assert (Hbytes : Forall is_u8 (body ++ pad)).
  { apply Forall_app. split; [exact Hbody |].
    eapply Forall_impl; [exact Hpad |]. intros c [-> | ->]; unfold is_u8; lia. }
  assert (Hsn : of_cstr (trim_trailing (serial_chars reg_data)) = sn).
  { rewrite (serial_chars_of_pack reg_data (body ++ pad) Hbytes Hregs).
    rewrite map_nth_seq_pad, take_ge by (rewrite length_app; lia).
    replace (12 - length (body ++ pad))%nat with 0%nat by (rewrite length_app; lia).
    cbn [replicate]. rewrite app_nil_r.
    rewrite trim_trailing_padding by assumption.
    apply of_cstr_pad. }
  assert (Hcopy : strncpy sn 32 = sn) by (apply strncpy_of_bytes; [exact Hbody | lia]).
  split; [reflexivity |].
  subst t1 s1.
  cbn [initial_model1_read serial_from_dtu serial_number store_port_block].
  rewrite Hsn, Hcopy, Hfirst, Hlater. cbn [negb andb].
  destruct (str_empty sn); cbn [negb andb]; repeat split; reflexivity.
Qed.

(** The DTU reports "1123354759" followed by two spaces; the block that
    follows carries another serial number. *)
Lemma serial_number_is_read_once_witness :
  let s := new_source 0 1 800 1 2 "inv1" "HMS-800-2T" "" in
  let body := [49; 49; 50; 51; 51; 53; 52; 55; 53; 57] in
  let sn := of_cstr body in
  let s1 := store_port_block 5100 example_padded_block s in
  let t1 := store_port_block 10100 example_port_block s1 in
  sn = "1123354759"%string
  /\ (initial_model1_read s1 = true
      /\ serial_from_dtu s1 = (if str_empty sn then serial_from_dtu s else sn)
      /\ serial_number s1
         = (if negb (str_empty sn) && str_empty (serial_number s)
            then sn else serial_number s)
      /\ serial_from_dtu t1 = serial_from_dtu s1
      /\ serial_number t1 = serial_number s1).
Proof.
  split; [reflexivity |].
  apply (serial_number_is_read_once 5100 10100 example_padded_block example_port_block
           (new_source 0 1 800 1 2 "inv1" "HMS-800-2T" "")
           (store_port_block 5100 example_padded_block
              (new_source 0 1 800 1 2 "inv1" "HMS-800-2T" ""))
           [49; 49; 50; 51; 51; 53; 52; 55; 53; 57] [32; 32]).
  - reflexivity.
  - reflexivity.
  - unfold is_u8. repeat constructor; lia.
  - repeat constructor; (left; reflexivity) || (right; reflexivity).
  - reflexivity.
  - right. cbn [List.last]. split; discriminate.
  - vm_compute. reflexivity.
Defined.

(** ** What the aggregate registers hold *)

Lemma aggregate_source_invalid a s :
  data_valid s = false -> aggregate_source a s = (a, s).
Proof. intros H. unfold aggregate_source. rewrite H. reflexivity. Qed.

Lemma aggregate_sources_invalid srcs : forall a,
  existsb data_valid srcs = false -> aggregate_sources a srcs = (a, srcs).
Proof.
  induction srcs as [| s srcs IH]; intros a H; [reflexivity |].
  cbn [existsb] in H. apply orb_false_iff in H. destruct H as [Hs Hrest].
  cbn [aggregate_sources]. rewrite (aggregate_source_invalid a s Hs), (IH a Hrest).
  reflexivity.
Qed.

Lemma aggregate_source_totals a s :
  data_valid s = true ->
  any_producing (fst (aggregate_source a s)) = any_producing a || source_producing s
  /\ total_energy_wh (fst (aggregate_source a s))
     = u32 (total_energy_wh a + source_energy_wh s)
  /\ valid_count (fst (aggregate_source a s)) = valid_count a + 1.
Proof.
  intros Hv. unfold aggregate_source, source_producing, source_power, source_energy_wh.
  rewrite Hv. cbn [negb andb]. cbv iota zeta.
  destruct (phases s =? 3); cbn [fst any_producing total_energy_wh valid_count];
    (split; [| split; reflexivity]);
    destruct (negb _ && _); [rewrite orb_true_r | rewrite orb_false_r
                            | rewrite orb_true_r | rewrite orb_false_r]; reflexivity.
Qed.

Lemma aggregate_sources_totals srcs : forall a,
  0 <= total_energy_wh a < 4294967296 ->
  any_producing (fst (aggregate_sources a srcs))
  = any_producing a || existsb source_producing srcs
  /\ total_energy_wh (fst (aggregate_sources a srcs))
     = u32 (total_energy_wh a + sum_energy_wh srcs)
  /\ (existsb data_valid srcs = true ->
      valid_count a < valid_count (fst (aggregate_sources a srcs))).
Proof.
  induction srcs as [| s srcs IH]; intros a Ha.
  - cbn [aggregate_sources fst existsb sum_energy_wh fold_right].
    rewrite orb_false_r, Z.add_0_r. unfold u32. rewrite Z.mod_small by exact Ha.
    repeat split. discriminate.
  - cbn [aggregate_sources existsb sum_energy_wh fold_right].
    destruct (data_valid s) eqn:Hv.
    + destruct (aggregate_source_totals a s Hv) as (H1 & H2 & H3).
      destruct (aggregate_source a s) as [a1 s1]. cbn [fst] in H1, H2, H3.
      assert (Ha1 : 0 <= total_energy_wh a1 < 4294967296)
        by (rewrite H2; unfold u32; apply Z.mod_pos_bound; lia).
      pose proof (aggregate_sources_valid_count srcs a1) as [Hmono _].
      destruct (IH a1 Ha1) as (I1 & I2 & _).
      destruct (aggregate_sources a1 srcs) as [a2 rest]. cbn [fst] in *.
      rewrite I1, I2, H1, H2.
      split; [| split].
      * symmetry. apply orb_assoc.
      * unfold u32. rewrite Z.add_mod_idemp_l by lia. f_equal.
        fold (sum_energy_wh srcs). lia.
      * intros _. lia.
    + rewrite (aggregate_source_invalid a s Hv).
      destruct (IH a Ha) as (I1 & I2 & I3).
      destruct (aggregate_sources a srcs) as [a2 rest]. cbn [fst] in *.
      rewrite I1, I2. split; [| split].
      * assert (Hsp : source_producing s = false)
          by (unfold source_producing; rewrite Hv; reflexivity).
        rewrite Hsp. reflexivity.
      * fold (sum_energy_wh srcs). rewrite Z.add_0_l. reflexivity.
      * cbn [orb]. exact I3.
Qed.

(** X24. With no valid source (in particular with no source at all) the
    aggregator writes the operating state 2 and nothing else to the
    image, sets the aggregate power, current, voltage and frequency to
    0 and keeps the aggregate energy and the sources as they are. *)
Theorem aggregation_without_valid_sources st :
  existsb data_valid (sources_ st) = false ->
  let st' := aggregate_and_update_registers_ st in
  register_map_ st' = <[(OFF_INV + 2 + INV_St)%nat := 2]> (register_map_ st)
  /\ sources_ st' = sources_ st
  /\ (agg_power_w_ st', agg_current_a_ st', agg_voltage_v_ st', agg_frequency_hz_ st')
     = (F32.zero, F32.zero, F32.zero, F32.zero)
  /\ agg_energy_kwh_ st' = agg_energy_kwh_ st.
Proof.
  intros H st'. subst st'. unfold aggregate_and_update_registers_.
  rewrite (aggregate_sources_invalid (sources_ st) acc_init H).
  cbn [valid_count acc_init Z.eqb]. repeat split.
Qed.

(** The example before any response has arrived. *)
Lemma aggregation_without_valid_sources_witness :
  register_map_ (aggregate_and_update_registers_ example_one_source)
  = <[(OFF_INV + 2 + INV_St)%nat := 2]> (register_map_ example_one_source)
  /\ sources_ (aggregate_and_update_registers_ example_one_source)
     = sources_ example_one_source
  /\ (agg_power_w_ (aggregate_and_update_registers_ example_one_source),
      agg_current_a_ (aggregate_and_update_registers_ example_one_source),
      agg_voltage_v_ (aggregate_and_update_registers_ example_one_source),
      agg_frequency_hz_ (aggregate_and_update_registers_ example_one_source))
     = (F32.zero, F32.zero, F32.zero, F32.zero)
  /\ agg_energy_kwh_ (aggregate_and_update_registers_ example_one_source)
     = agg_energy_kwh_ example_one_source.
Proof.
  apply (aggregation_without_valid_sources example_one_source).
  reflexivity.
Defined.

Lemma write_aggregate_state ph a r :
  length r = TOTAL_REGS ->
  reg (write_aggregate ph a r) (OFF_INV + 2 + INV_St) = if any_producing a then 4 else 2.
Proof.
  intros Hlen. unfold write_aggregate. cbv zeta.
  destruct (ph =? 3), (F32.gtb (total_va a) F32.zero), (negb (F32.isnan (max_temp a))),
    (F32.gtb (total_dc_power a) F32.zero);
    (rewrite reg_insert_eq; [reflexivity |]);
    rewrite !length_insert, Hlen; cbv; lia.
Qed.

(** X25. After aggregation the operating state register [INV_St] holds 4
    (MPPT) when some valid source reports a positive power in its
    register block, and 2 otherwise. *)
Theorem operating_state_register st :
  length (register_map_ st) = TOTAL_REGS ->
  reg (register_map_ (aggregate_and_update_registers_ st)) (OFF_INV + 2 + INV_St)
  = if existsb source_producing (sources_ st) then 4 else 2.
Proof.
  intros Hlen. rewrite aggregate_register_map. unfold aggregate_totals.
  pose proof (aggregate_sources_valid_count (sources_ st) acc_init) as [_ Hsame].
  destruct (aggregate_sources_totals (sources_ st) acc_init) as (Hprod & _ & _);
    [cbn; lia |].
  cbn [any_producing acc_init orb] in Hprod.
  destruct (Z.eqb_spec (valid_count (fst (aggregate_sources acc_init (sources_ st)))) 0)
    as [Hz | Hnz].
  - rewrite (Hsame Hz) in Hprod. cbn [any_producing acc_init] in Hprod.
    rewrite <- Hprod. apply reg_insert_eq. rewrite Hlen. cbv; lia.
  - rewrite write_aggregate_state by exact Hlen. rewrite Hprod. reflexivity.
Qed.

(** A block that reports 50 W. *)
Lemma operating_state_register_witness :
  reg (register_map_ (aggregate_and_update_registers_ (example_with_block 50 100)))
      (OFF_INV + 2 + INV_St)
  = if existsb source_producing (sources_ (example_with_block 50 100)) then 4 else 2.
Proof.
  apply (operating_state_register (example_with_block 50 100)).
  vm_compute. reflexivity.
Defined.

Lemma write_aggregate_energy ph a r :
  length r = TOTAL_REGS ->
  reg (write_aggregate ph a r) (OFF_INV + 2 + INV_WH) = u16 (Z.shiftr (total_energy_wh a) 16)
  /\ reg (write_aggregate ph a r) (OFF_INV + 2 + INV_WH + 1)
     = u16 (Z.land (total_energy_wh a) 65535).
Proof.
  intros Hlen. unfold write_aggregate. cbv zeta.
  destruct (ph =? 3), (F32.gtb (total_va a) F32.zero), (negb (F32.isnan (max_temp a))),
    (F32.gtb (total_dc_power a) F32.zero);
    (split;
     [repeat (rewrite reg_insert_ne by (cbv; lia));
      (rewrite reg_insert_eq; [reflexivity |]); rewrite !length_insert, Hlen; cbv; lia
     |repeat (rewrite reg_insert_ne by (cbv; lia));
      (rewrite reg_insert_eq; [reflexivity |]); rewrite !length_insert, Hlen; cbv; lia]).
Qed.

Lemma acc32_words e :
  0 <= e < 4294967296 ->
  65536 * u16 (Z.shiftr e 16) + u16 (Z.land e 65535) = e.
Proof.
  intros He. rewrite Z.shiftr_div_pow2 by lia.
  change 65535 with (Z.ones 16). rewrite Z.land_ones by lia.
  change (2 ^ 16) with 65536. unfold u16.
  rewrite (Z.mod_small (e / 65536))
    by (split; [apply Z.div_pos; lia | apply Z.div_lt_upper_bound; lia]).
  rewrite Z.mod_mod by lia. pose proof (Z.div_mod e 65536). lia.
Qed.

(** The pair [INV_WH] holds the sum of the energies as the aggregator
    converts them, each through a [float]. *)
Lemma energy_registers_converted_sum st :
  length (register_map_ st) = TOTAL_REGS ->
  existsb data_valid (sources_ st) = true ->
  65536 * reg (register_map_ (aggregate_and_update_registers_ st)) (OFF_INV + 2 + INV_WH)
  + reg (register_map_ (aggregate_and_update_registers_ st)) (OFF_INV + 2 + INV_WH + 1)
  = sum_energy_wh (sources_ st) mod 4294967296.
Proof.
  intros Hlen Hvalid. rewrite aggregate_register_map. unfold aggregate_totals.
  destruct (aggregate_sources_totals (sources_ st) acc_init) as (_ & Hsum & Hcount);
    [cbn; lia |].
  specialize (Hcount Hvalid). cbn [valid_count acc_init] in Hcount.
  cbn [total_energy_wh acc_init] in Hsum. rewrite Z.add_0_l in Hsum.
  destruct (Z.eqb_spec (valid_count (fst (aggregate_sources acc_init (sources_ st)))) 0)
    as [Hz | _]; [lia |].
  destruct (write_aggregate_energy (agg_phases (agg_config_ st))
              (fst (aggregate_sources acc_init (sources_ st))) (register_map_ st) Hlen)
    as [-> ->].
  rewrite acc32_words; [exact Hsum |].
  rewrite Hsum. unfold u32. apply Z.mod_pos_bound. lia.
Qed.

(** ** Integers that binary32 holds exactly *)

Lemma Zdigits2_unique x d :
  0 < x -> 2 ^ (d - 1) <= x < 2 ^ d -> Zdigits2 x = d.
Proof.
  intros Hx [Hlo Hhi].
  pose proof (Zdigits2_bounds x Hx) as [Blo Bhi].
  pose proof (Zdigits2_nonneg x) as Hn.
  assert (Hd : 0 <= d).
  { destruct (Z.lt_ge_cases d 0) as [Hneg | ?]; [| assumption].
    rewrite (Z.pow_neg_r 2 d) in Hhi by assumption. lia. }
  assert (H1 : Zdigits2 x - 1 < d).
  { apply (Z.pow_lt_mono_r_iff 2); [lia | lia | lia]. }
  assert (H2 : d - 1 < Zdigits2 x).
  { apply (Z.pow_lt_mono_r_iff 2); [lia | lia | lia]. }
  lia.
Qed.

(** One step of [shr] on an exact record with an even mantissa. *)
Lemma shr_1_exact m :
  0 <= m ->
  shr_1 {| shr_m := 2 * m; shr_r := false; shr_s := false |}
  = {| shr_m := m; shr_r := false; shr_s := false |}.
Proof.
  intros Hm. destruct m as [| p | p]; [reflexivity | reflexivity | lia].
Qed.

Lemma shr_iter_exact p : forall m,
  0 <= m ->
  SpecFloat.iter_pos shr_1 p
    {| shr_m := m * 2 ^ Z.pos p; shr_r := false; shr_s := false |}
  = {| shr_m := m; shr_r := false; shr_s := false |}.
Proof.
  induction p as [p IH | p IH |]; intros m Hm; cbn [SpecFloat.iter_pos].
  - change (Z.pos p~1) with (2 * Z.pos p + 1).
    replace (m * 2 ^ (2 * Z.pos p + 1)) with (2 * (m * 2 ^ Z.pos p * 2 ^ Z.pos p))
      by (replace (2 * Z.pos p + 1) with (1 + Z.pos p + Z.pos p) by lia;
          rewrite !Z.pow_add_r by lia; change (2 ^ 1) with 2; ring).
    assert (0 < 2 ^ Z.pos p) by (apply Z.pow_pos_nonneg; lia).
    rewrite shr_1_exact by nia.
    rewrite IH by nia. apply IH. exact Hm.
  - change (Z.pos p~0) with (2 * Z.pos p).
    replace (m * 2 ^ (2 * Z.pos p)) with (m * 2 ^ Z.pos p * 2 ^ Z.pos p)
      by (replace (2 * Z.pos p) with (Z.pos p + Z.pos p) by lia;
          rewrite !Z.pow_add_r by lia; ring).
    assert (0 < 2 ^ Z.pos p) by (apply Z.pow_pos_nonneg; lia).
    rewrite IH by nia. apply IH. exact Hm.
  - change (2 ^ 1) with 2. rewrite Z.mul_comm. apply shr_1_exact. exact Hm.
Qed.

(** Rounding a mantissa of 24 bits followed by [k] zero bits is exact. *)
Lemma binary_round_aux_exact (m : positive) ex k :
  2 ^ 23 <= Z.pos m < 2 ^ 24 -> 0 <= k -> -149 <= ex + k <= 104 ->
  binary_round_aux F32.prec F32.emax false (Z.pos m * 2 ^ k) ex loc_Exact
  = S754_finite false m (ex + k).
Proof.
  intros Hm Hk He.
  assert (Hp : 0 < 2 ^ k) by (apply Z.pow_pos_nonneg; lia).
  assert (Hd1 : Zdigits2 (Z.pos m * 2 ^ k) = 24 + k).
  { apply Zdigits2_unique; [nia |].
    replace (24 + k - 1) with (23 + k) by lia.
    rewrite !Z.pow_add_r by lia. nia. }
  assert (Hd2 : Zdigits2 (Z.pos m) = 24).
  { apply Zdigits2_unique; [lia |]. exact Hm. }
  unfold binary_round_aux, shr_fexp.
  rewrite Hd1, fexp_32.
  replace (Z.max (24 + k + ex - 24) (-149) - ex) with k by lia.
  cbn [shr_record_of_loc].
  assert (Hshr : shr {| shr_m := Z.pos m * 2 ^ k; shr_r := false; shr_s := false |} ex k
                 = ({| shr_m := Z.pos m; shr_r := false; shr_s := false |}, ex + k)).
  { destruct k as [| q | q]; [| | lia].
    - cbn [shr]. rewrite Z.mul_1_r, Z.add_0_r. reflexivity.
    - cbn [shr]. rewrite shr_iter_exact by lia. reflexivity. }
  rewrite Hshr. cbn [shr_m loc_of_shr_record round_nearest_even].
  rewrite Hd2, fexp_32.
  replace (Z.max (24 + (ex + k) - 24) (-149) - (ex + k)) with 0 by lia.
  cbn [shr shr_m].
  change (F32.emax - F32.prec) with 104.
  destruct (Z.leb_spec (ex + k) 104); [reflexivity | lia].
Qed.

Lemma pos_iter_xO p n : Z.pos (Pos.iter xO p n) = Z.pos p * 2 ^ Z.pos n.
Proof.
  induction n as [| n IH] using Pos.peano_ind.
  - cbn [Pos.iter]. change (2 ^ 1) with 2. lia.
  - rewrite Pos.iter_succ, Pos2Z.inj_succ, Z.pow_succ_r by lia.
    change (Z.pos (Pos.iter xO p n)~0) with (2 * Z.pos (Pos.iter xO p n)).
    rewrite IH. ring.
Qed.

(** [(float)e] for a positive [e] below 2^24: the mantissa is [e]
    shifted to 24 bits. *)
Lemma of_Z_exact e :
  0 < e < 2 ^ 24 ->
  exists m,
    Z.pos m = e * 2 ^ (24 - Zdigits2 e)
    /\ 2 ^ 23 <= Z.pos m < 2 ^ 24
    /\ F32.of_Z e = S754_finite false m (Zdigits2 e - 24).
Proof.
  intros He. destruct e as [| p | p]; try lia.
  pose proof (Zdigits2_bounds (Z.pos p) ltac:(lia)) as Hb.
  set (d := Zdigits2 (Z.pos p)) in *.
  assert (Hd : 1 <= d <= 24).
  { split.
    - destruct (Z.lt_ge_cases d 1) as [Hlt | ?]; [| assumption].
      pose proof (Zdigits2_nonneg (Z.pos p)). fold d in H.
      assert (d = 0) by lia. rewrite H0 in Hb. simpl in Hb. lia.
    - assert (d - 1 < 24); [| lia].
      apply (Z.pow_lt_mono_r_iff 2); lia. }
  unfold F32.of_Z, binary_normalize, binary_round.
  change (Z.pos (digits2_pos p)) with d.
  rewrite Z.add_0_r, fexp_32.
  replace (Z.max (d - 24) (-149)) with (d - 24) by lia.
  unfold shl_align. rewrite Z.sub_0_r.
  assert (Hscale : 2 ^ 23 <= Z.pos p * 2 ^ (24 - d) < 2 ^ 24).
  { assert (H0 : 0 < 2 ^ (24 - d)) by (apply Z.pow_pos_nonneg; lia).
    assert (H23 : 2 ^ 23 = 2 ^ (d - 1) * 2 ^ (24 - d))
      by (rewrite <- Z.pow_add_r by lia; f_equal; lia).
    assert (H24 : 2 ^ 24 = 2 ^ d * 2 ^ (24 - d))
      by (rewrite <- Z.pow_add_r by lia; f_equal; lia).
    rewrite H23, H24. nia. }
  destruct (d - 24) as [| q | q] eqn:Hq; try lia.
  - exists p. replace (24 - d) with 0 in * by lia.
    rewrite Z.mul_1_r in *. split; [reflexivity |]. split; [exact Hscale |].
    pose proof (binary_round_aux_exact p 0 0 Hscale ltac:(lia) ltac:(lia)) as H.
    rewrite Z.mul_1_r in H. exact H.
  - exists (Pos.iter xO p q).
    assert (Hq' : Z.pos q = 24 - d) by lia.
    assert (Hz : Z.pos (Pos.iter xO p q) = Z.pos p * 2 ^ (24 - d))
      by (rewrite pos_iter_xO, Hq'; reflexivity).
    assert (Hm : 2 ^ 23 <= Z.pos (Pos.iter xO p q) < 2 ^ 24)
      by (rewrite Hz; exact Hscale).
    split; [exact Hz |]. split; [exact Hm |].
    pose proof (binary_round_aux_exact (Pos.iter xO p q) (Z.neg q) 0 Hm
                  ltac:(lia) ltac:(lia)) as H.
    rewrite Z.mul_1_r, Z.add_0_r in H. exact H.
Qed.

(** A multiplication by 1 leaves such a float as it is. *)
Lemma mul_one_exact (m : positive) e :
  2 ^ 23 <= Z.pos m < 2 ^ 24 -> -149 <= e <= 104 ->
  F32.mul (S754_finite false m e) F32.one = S754_finite false m e.
Proof.
  intros Hm He. unfold F32.mul, F32.one, SFmul. cbn [xorb].
  rewrite Pos2Z.inj_mul. change (Z.pos 8388608) with (2 ^ 23).
  pose proof (binary_round_aux_exact m (e + -23) 23 Hm ltac:(lia) ltac:(lia)) as H.
  replace (e + -23 + 23) with e in H by lia. exact H.
Qed.

(** An integer below 2^24 goes through [float] and back unchanged. *)
Lemma u32_through_float e :
  0 <= e < 2 ^ 24 ->
  F32.to_u32 (F32.mul (F32.of_Z e) (F32.powf10 0)) = e.
Proof.
  intros He. cbn [F32.powf10].
  destruct (Z.eq_dec e 0) as [-> | Hne]; [reflexivity |].
  destruct (of_Z_exact e ltac:(lia)) as (m & Hmz & Hm & ->).
  pose proof (Zdigits2_bounds e ltac:(lia)) as Hb.
  set (d := Zdigits2 e) in *.
  assert (Hd : 1 <= d <= 24).
  { split.
    - destruct (Z.lt_ge_cases d 1) as [Hlt | ?]; [| assumption].
      pose proof (Zdigits2_nonneg e) as Hn. fold d in Hn.
      assert (Hz : d = 0) by lia. rewrite Hz in Hb. simpl in Hb. lia.
    - assert (d - 1 < 24); [| lia].
      apply (Z.pow_lt_mono_r_iff 2); lia. }
  rewrite mul_one_exact by (assumption || lia).
  unfold F32.to_u32, u32. cbn [F32.trunc].
  assert (Hval : match d - 24 with
                 | Z.neg p => Z.pos m / 2 ^ Z.pos p
                 | _ => Z.pos m * 2 ^ (d - 24)
                 end = e).
  { destruct (d - 24) as [| q | q] eqn:Hq; try lia.
    - replace (24 - d) with 0 in Hmz by lia. rewrite Hmz. simpl. lia.
    - assert (Hq' : Z.pos q = 24 - d) by lia. rewrite Hq', Hmz.
      apply Z.div_mul. assert (0 < 2 ^ (24 - d)) by (apply Z.pow_pos_nonneg; lia). lia. }
  rewrite Hval. apply Z.mod_small. lia.
Qed.

Lemma lor_shiftl_16 hi lo :
  0 <= hi -> is_u16 lo -> Z.lor (Z.shiftl hi 16) lo = 65536 * hi + lo.
Proof.
  intros Hhi [Hlo1 Hlo2].
  assert (Hdisjoint : Z.land (hi * 2 ^ 16) lo = 0).
  { apply Z.bits_inj'. intros n Hn. rewrite Z.land_spec, Z.bits_0.
    destruct (Z.lt_ge_cases n 16) as [Hlt | Hge].
    - rewrite Z.mul_pow2_bits_low by lia. reflexivity.
    - rewrite (Z.bits_above_log2 lo n), andb_false_r; [reflexivity | lia |].
      destruct (Z.eq_dec lo 0) as [-> | Hne]; [simpl; lia |].
      apply Z.lt_le_trans with 16; [| lia].
      apply Z.log2_lt_pow2; lia. }
  rewrite Z.shiftl_mul_pow2 by lia.
  rewrite <- Z.lxor_lor by exact Hdisjoint.
  rewrite <- Z.add_nocarry_lxor by exact Hdisjoint.
  change (2 ^ 16) with 65536. lia.
Qed.

(** The conversion through [float] gives back what such a block
    reports. *)
Lemma source_energy_exact s :
  energy_exact_in_float s -> source_energy_wh s = reported_energy_wh s.
Proof.
  intros (Hhi & Hlo & Hsf & Hsmall). unfold source_energy_wh, reported_energy_wh in *.
  cbv zeta. rewrite Hsf. change (s16 0) with 0.
  rewrite lor_shiftl_16 by (unfold is_u16 in *; lia || assumption).
  unfold is_u16 in *.
  unfold u32 at 1. rewrite Z.mod_small by lia.
  apply u32_through_float. change (2 ^ 24) with 16777216. lia.
Qed.

Lemma sum_energy_exact srcs :
  Forall (fun s => data_valid s = true -> energy_exact_in_float s) srcs ->
  sum_energy_wh srcs = sum_reported_energy srcs.
Proof.
  induction 1 as [| s srcs Hs _ IH]; [reflexivity |].
  unfold sum_energy_wh, sum_reported_energy in *. cbn [fold_right]. rewrite IH.
  destruct (data_valid s); [| reflexivity].
  rewrite (source_energy_exact s (Hs eq_refl)). reflexivity.
Qed.

Lemma energy_exact_of_test srcs :
  forallb (fun s => negb (data_valid s) || energy_exact_in_floatb s) srcs = true ->
  Forall (fun s => data_valid s = true -> energy_exact_in_float s) srcs.
Proof.
  induction srcs as [| s srcs IH]; cbn [forallb]; [constructor |].
  intros H. apply andb_true_iff in H. destruct H as [Hs Hrest].
  constructor; [| apply IH; exact Hrest].
  intros Hv. rewrite Hv in Hs. cbn [negb orb] in Hs.
  unfold energy_exact_in_floatb, is_u16b in Hs. unfold energy_exact_in_float, is_u16.
  repeat (apply andb_true_iff in Hs; destruct Hs as [Hs ?]). lia.
Qed.

(** Above 2^24 the conversion rounds: of 16777217 Wh, 16777216 enter
    the sum. *)
Lemma energy_above_2_24_is_rounded :
  data_valid example_large_energy = true
  /\ reported_energy_wh example_large_energy = 16777217
  /\ source_energy_wh example_large_energy = 16777216.
Proof.
  split; [reflexivity |]. split; vm_compute; reflexivity.
Qed.

(** X26. When at least one source is valid and the register block of
    every valid source reports its lifetime energy in Wh (scale factor
    0) with a value below 2^24, the register pair [INV_WH] holds, high
    word first, the sum of the reported energies modulo 2^32.  (Each
    energy goes through a [float]; a larger one is rounded on the
    way.) *)
Theorem energy_registers_hold_the_sum st :
  length (register_map_ st) = TOTAL_REGS ->
  existsb data_valid (sources_ st) = true ->
  Forall (fun s => data_valid s = true -> energy_exact_in_float s) (sources_ st) ->
  65536 * reg (register_map_ (aggregate_and_update_registers_ st)) (OFF_INV + 2 + INV_WH)
  + reg (register_map_ (aggregate_and_update_registers_ st)) (OFF_INV + 2 + INV_WH + 1)
  = sum_reported_energy (sources_ st) mod 4294967296.
Proof.
  intros Hlen Hvalid Hexact.
  rewrite <- (sum_energy_exact (sources_ st) Hexact).
  apply energy_registers_converted_sum; assumption.
Qed.

(** After the poll of the example the block of the source holds zeros
    and the pair holds 0.  With blocks that report 12340 Wh each, which
    no function stores, the pair of two sources holds 24680. *)
Lemma energy_registers_hold_the_sum_witness :
  let polled := poll_rtu_sources_ 5100 example_response_arrived in
  (65536 * reg (register_map_ (aggregate_and_update_registers_ polled))
             (OFF_INV + 2 + INV_WH)
   + reg (register_map_ (aggregate_and_update_registers_ polled))
         (OFF_INV + 2 + INV_WH + 1)
   = sum_reported_energy (sources_ polled) mod 4294967296)
  /\ sum_reported_energy (sources_ example_with_energy) = 24680
  /\ (65536 * reg (register_map_ (aggregate_and_update_registers_ example_with_energy))
                 (OFF_INV + 2 + INV_WH)
      + reg (register_map_ (aggregate_and_update_registers_ example_with_energy))
            (OFF_INV + 2 + INV_WH + 1)
      = sum_reported_energy (sources_ example_with_energy) mod 4294967296).
Proof.
  split; [| split; [vm_compute; reflexivity |]].
  - apply (energy_registers_hold_the_sum (poll_rtu_sources_ 5100 example_response_arrived)).
    + vm_compute. reflexivity.
    + vm_compute. reflexivity.
    + apply energy_exact_of_test. vm_compute. reflexivity.
  - apply (energy_registers_hold_the_sum example_with_energy).
    + vm_compute. reflexivity.
    + vm_compute. reflexivity.
    + apply energy_exact_of_test. vm_compute. reflexivity.
Defined.

(** ** The sensors of a source *)


(** X27. The online sensor of a source is on exactly when the source is
    valid and its last successful poll is less than
    3000 * (poll_interval_ms_ / 1000) milliseconds old (the quotient is
    an integer division, so with an interval below one second the
    source is never online).  The status text is "Stale" from
    3000 * (poll_interval_ms_ / 1000) + 1000 milliseconds on, and
    nothing is published as status for a source that is not valid. *)
Theorem source_online_and_stale now idx st s :
  sources_ st !! idx = Some s ->
  0 <= poll_interval_ms_ st < 4294967296 ->
  let age_ms := u32 (now - last_poll_ms s) in
  let limit_ms := 3000 * (poll_interval_ms_ st / 1000) in
  exists r,
    publish_source_sensors_ now idx st = Some r
    /\ pub_online r = data_valid s && (age_ms <? limit_ms)
    /\ pub_status r
       = if data_valid s
         then Some (if limit_ms + 1000 <=? age_ms then Stale (age_ms / 1000)
                    else if producing s then Producing (power_w s) else Idle)
         else None.
Proof.
  intros Hs Hint age_ms limit_ms.
  unfold publish_source_sensors_, update_source_status_. rewrite Hs. cbv zeta.
  eexists. split; [reflexivity |]. cbn [pub_online pub_status].
  assert (Hk : 0 <= poll_interval_ms_ st / 1000 < 4294968).
  { split; [apply Z.div_pos; lia | apply Z.div_lt_upper_bound; lia]. }
  assert (Hu : u32 (poll_interval_ms_ st / 1000 * 3) = 3 * (poll_interval_ms_ st / 1000)).
  { unfold u32. rewrite Z.mod_small; lia. }
  rewrite Hu. fold age_ms.
  assert (Hage : 0 <= age_ms) by (unfold age_ms, u32; apply Z.mod_pos_bound; lia).
  pose proof (Z.div_mod age_ms 1000 ltac:(lia)) as Hdm.
  pose proof (Z.mod_pos_bound age_ms 1000 ltac:(lia)) as Hm.
  destruct (data_valid s); cbn [negb andb]; [| split; reflexivity].
  split.
  - destruct (Z.ltb_spec (age_ms / 1000) (3 * (poll_interval_ms_ st / 1000))),
      (Z.ltb_spec age_ms limit_ms); try reflexivity; unfold limit_ms in *; lia.
  - destruct (Z.ltb_spec (3 * (poll_interval_ms_ st / 1000)) (age_ms / 1000)),
      (Z.leb_spec (limit_ms + 1000) age_ms); try reflexivity; unfold limit_ms in *; lia.
Qed.

(** The source of the example 14 s and 999 ms after its poll. *)
Lemma source_online_and_stale_witness :
  exists r,
    publish_source_sensors_ 20099 0 (poll_rtu_sources_ 5100 example_response_arrived)
    = Some r
    /\ pub_online r = true
    /\ pub_status r = Some Idle.
Proof.
  destruct (source_online_and_stale 20099 0
              (poll_rtu_sources_ 5100 example_response_arrived)
              (nth 0 (sources_ (poll_rtu_sources_ 5100 example_response_arrived))
                 (new_source 0 0 0 0 0 "" "" "")))
    as (r & Hr & Honline & Hstatus).
  - vm_compute. reflexivity.
  - vm_compute. split; [discriminate | reflexivity].
  - exists r. split; [exact Hr |]. split.
    + rewrite Honline. vm_compute. reflexivity.
    + rewrite Hstatus. vm_compute. reflexivity.
Defined.



(** ** Client connections *)

(** X29. A new connection takes the first slot that holds a negative
    descriptor and leaves the other slots alone; when every slot holds
    a descriptor it is not taken in. *)
Theorem new_client_takes_the_first_free_slot nfd client_fds :
  match place_client nfd client_fds with
  | Some placed =>
      exists i fd,
        client_fds !! i = Some fd /\ fd < 0
        /\ Forall (fun fd => 0 <= fd) (take i client_fds)
        /\ placed = <[i := nfd]> client_fds
  | None => Forall (fun fd => 0 <= fd) client_fds
  end.
Proof.
  induction client_fds as [| fd rest IH]; cbn [place_client]; [constructor |].
  destruct (Z.ltb_spec fd 0) as [Hfree | Htaken].
  - exists 0%nat, fd. repeat split; [exact Hfree | constructor].
  - destruct (place_client nfd rest) as [placed |]; cbn [option_map].
    + destruct IH as (i & fd' & Hi & Hneg & Hbefore & ->).
      exists (S i), fd'. repeat split; [exact Hi | exact Hneg |].
      cbn [take]. constructor; assumption.
    + constructor; assumption.
Qed.

(** A request is answered on the socket it came from, if at all. *)
Lemma process_tcp_request_sends now client_fd buf st :
  exists evs,
    trace_ (process_tcp_request_ now client_fd buf st) = trace_ st ++ evs
    /\ (tcp_sent evs = [] \/ exists f, tcp_sent evs = [(client_fd, f)]).
Proof.
  unfold process_tcp_request_. cbv zeta.
  set (st1 := set_tcp_activity_ now (u32 (tcp_request_count_ st + 1)) st).
  assert (Hnone : exists evs,
             trace_ st = trace_ st ++ evs
             /\ (tcp_sent evs = [] \/ exists f, tcp_sent evs = [(client_fd, f)])).
  { exists []. rewrite app_nil_r. split; [reflexivity | left; reflexivity]. }
  assert (Hsend : forall unit fc data evs regs,
             tcp_sent evs = [] ->
             exists evs',
               trace_ (send_tcp_response_ client_fd (be16 buf 0) unit fc data
                         (emit evs (set_register_map_ regs st1)))
               = trace_ st ++ evs'
               /\ (tcp_sent evs' = [] \/ exists f, tcp_sent evs' = [(client_fd, f)])).
  { intros unit fc data evs regs Hevs. unfold_tcp_updates.
    eexists. rewrite <- app_assoc. split; [reflexivity |].
    right. rewrite tcp_sent_app, Hevs. eexists. reflexivity. }
  assert (Hst1 : forall unit fc data,
             exists evs',
               trace_ (send_tcp_response_ client_fd (be16 buf 0) unit fc data st1)
               = trace_ st ++ evs'
               /\ (tcp_sent evs' = [] \/ exists f, tcp_sent evs' = [(client_fd, f)])).
  { intros unit fc data. unfold_tcp_updates.
    eexists. split; [reflexivity |]. right. eexists. reflexivity. }
  destruct (_ <? 8); [exact Hnone |].
  destruct (negb _); [exact Hnone |].
  destruct (negb _); [exact Hnone |].
  destruct (_ =? 3).
  { destruct (_ <? 12); [exact Hnone |].
    destruct (125 <? _); [apply Hst1 |].
    destruct (read_sunspec_registers_ _ _ _); apply Hst1. }
  destruct (_ =? 6).
  { destruct (_ <? 12); [exact Hnone |].
    destruct (write_sunspec_registers_frame (be16 buf 8) 1 [be16 buf 10] st1)
      as (evs & regs & Hst & Hevs & _).
    destruct (write_sunspec_registers_ _ _ _ _) as [[|] st2]; cbn [snd] in Hst; subst st2;
      apply Hsend; exact Hevs. }
  destruct (_ =? 16).
  { destruct (_ <? 13); [exact Hnone |].
    destruct (_ || _); [apply Hst1 |].
    destruct (write_sunspec_registers_frame (be16 buf 8) (be16 buf 10)
                (map (fun i => be16 buf (13 + i * 2)) (seq 0 (Z.to_nat (be16 buf 10)))) st1)
      as (evs & regs & Hst & Hevs & _).
    destruct (write_sunspec_registers_ _ _ _ _) as [[|] st2]; cbn [snd] in Hst; subst st2;
      apply Hsend; exact Hevs. }
  apply Hst1.
Qed.

(** The loop over the slots, from the slot after [pre] on: the slots
    that hang up are freed, and the frames go, in the order of the
    slots and at most one for each, to slots with data. *)
Lemma serve_slots now recv (post : list Z) : forall pre st,
  exists evs st',
    fold_left (serve_client now recv) (seq (length pre) (length post)) (pre ++ post, st)
    = (pre ++ map (fun fd => if hangs_up recv fd then -1 else fd) post, st')
    /\ trace_ st' = trace_ st ++ evs
    /\ sublist (map fst (tcp_sent evs)) (List.filter (has_data recv) post).
Proof.
  induction post as [| fd rest IH]; intros pre st.
  - exists [], st. cbn [length seq fold_left map List.filter tcp_sent].
    rewrite !app_nil_r. repeat split. constructor.
  - cbn [length seq fold_left map List.filter].
    assert (Hnth : nth (length pre) (pre ++ fd :: rest) (-1) = fd)
      by (rewrite app_nth2, Nat.sub_diag by lia; reflexivity).
    assert (Hseq : seq (S (length pre)) (length rest)
                   = seq (length (pre ++ [fd])) (length rest))
      by (rewrite length_app; cbn [length]; f_equal; lia).
    assert (Hkeep : forall st0,
               hangs_up recv fd = false -> has_data recv fd = false ->
               serve_client now recv (pre ++ fd :: rest, st) (length pre)
               = (pre ++ fd :: rest, st0) -> st0 = st ->
               exists evs st',
                 fold_left (serve_client now recv) (seq (S (length pre)) (length rest))
                   (serve_client now recv (pre ++ fd :: rest, st) (length pre))
                 = (pre ++ (if hangs_up recv fd then -1 else fd)
                          :: map (fun fd => if hangs_up recv fd then -1 else fd) rest, st')
                 /\ trace_ st' = trace_ st ++ evs
                 /\ sublist (map fst (tcp_sent evs))
                      (if has_data recv fd then fd :: List.filter (has_data recv) rest
                       else List.filter (has_data recv) rest)).
    { intros st0 Hh Hd E ->. rewrite E, Hh, Hd, Hseq.
      destruct (IH (pre ++ [fd]) st) as (evs & st' & H1 & H2 & H3).
      rewrite <- !app_assoc in H1. cbn [app] in H1.
      exists evs, st'. repeat split; assumption. }
    unfold hangs_up, has_data in *.
    destruct (Z.leb_spec 0 fd) as [Hfd | Hneg]; cbn [andb] in *.
    2:{ apply (Hkeep st); try reflexivity.
        unfold serve_client. rewrite Hnth.
        destruct (Z.ltb_spec fd 0); [reflexivity | lia]. }
    assert (E : serve_client now recv (pre ++ fd :: rest, st) (length pre)
                = match recv fd with
                  | Received buf => (pre ++ fd :: rest, process_tcp_request_ now fd buf st)
                  | Closed | Failed => (<[length pre := -1]> (pre ++ fd :: rest), st)
                  | WouldBlock => (pre ++ fd :: rest, st)
                  end).
    { unfold serve_client. rewrite Hnth.
      destruct (Z.ltb_spec fd 0); [lia | reflexivity]. }
    assert (Hins : <[length pre := -1]> (pre ++ fd :: rest) = pre ++ -1 :: rest).
    { rewrite insert_app_r_alt, Nat.sub_diag by lia. reflexivity. }
    destruct (recv fd) as [buf | | |] eqn:Hrecv.
    + rewrite E, Hseq.
      destruct (process_tcp_request_sends now fd buf st) as (evs1 & Ht1 & Hs1).
      destruct (IH (pre ++ [fd]) (process_tcp_request_ now fd buf st))
        as (evs & st' & H1 & H2 & H3).
      rewrite <- !app_assoc in H1. cbn [app] in H1.
      exists (evs1 ++ evs), st'. split; [exact H1 |].
      split; [rewrite H2, Ht1, app_assoc; reflexivity |].
      rewrite tcp_sent_app, map_app.
      destruct Hs1 as [-> | [f ->]]; cbn [map fst app].
      * apply sublist_cons_r. left. exact H3.
      * apply sublist_skip. exact H3.
    + rewrite E, Hins, Hseq.
      destruct (IH (pre ++ [-1]) st) as (evs & st' & H1 & H2 & H3).
      rewrite length_app in H1. cbn [length] in H1.
      rewrite length_app in *. cbn [length] in *.
      rewrite <- !app_assoc in H1. cbn [app] in H1.
      exists evs, st'. repeat split; assumption.
    + apply (Hkeep st); try reflexivity. exact E.
    + rewrite E, Hins, Hseq.
      destruct (IH (pre ++ [-1]) st) as (evs & st' & H1 & H2 & H3).
      rewrite length_app in *. cbn [length] in *.
      rewrite <- !app_assoc in H1. cbn [app] in H1.
      exists evs, st'. repeat split; assumption.
Qed.

Lemma place_client_length nfd client_fds placed :
  place_client nfd client_fds = Some placed -> length placed = length client_fds.
Proof.
  revert placed. induction client_fds as [| fd rest IH]; intros placed; cbn [place_client];
    [discriminate |].
  destruct (fd <? 0); [intros H; injection H as <-; reflexivity |].
  destruct (place_client nfd rest) as [p |]; cbn [option_map]; [| discriminate].
  intros H. injection H as <-. cbn [length]. rewrite (IH p eq_refl). reflexivity.
Qed.

(** X30. One call of [handle_tcp_clients_].  With no listening socket it
    does nothing.  Otherwise a pending connection is placed if a slot is
    free; then the slots of clients that have closed or failed are set
    to -1 and no other slot changes, and the frames go, in the order of
    the slots and at most one for each slot, to clients for which
    [recv()] has returned data. *)
Theorem responses_go_to_clients_with_data now server_fd accepted recv client_fds st :
  length client_fds = MAX_TCP_CLIENTS ->
  let result := handle_tcp_clients_ now server_fd accepted recv client_fds st in
  if server_fd <? 0 then result = (client_fds, st)
  else
    exists slots evs,
      ((0 <= accepted /\ place_client accepted client_fds = Some slots)
       \/ ((accepted < 0 \/ place_client accepted client_fds = None)
           /\ slots = client_fds))
      /\ fst result = map (fun fd => if hangs_up recv fd then -1 else fd) slots
      /\ trace_ (snd result) = trace_ st ++ evs
      /\ sublist (map fst (tcp_sent evs)) (List.filter (has_data recv) slots).
Proof.
  intros Hlen result. subst result. unfold handle_tcp_clients_.
  destruct (server_fd <? 0); [reflexivity |].
  assert (Hrun : forall slots,
             length slots = MAX_TCP_CLIENTS ->
             exists evs,
               fst (fold_left (serve_client now recv) (seq 0 MAX_TCP_CLIENTS) (slots, st))
               = map (fun fd => if hangs_up recv fd then -1 else fd) slots
               /\ trace_ (snd (fold_left (serve_client now recv) (seq 0 MAX_TCP_CLIENTS)
                                 (slots, st)))
                  = trace_ st ++ evs
               /\ sublist (map fst (tcp_sent evs)) (List.filter (has_data recv) slots)).
  { intros slots Hs.
    destruct (serve_slots now recv slots [] st) as (evs & st' & H1 & H2 & H3).
    cbn [length app] in H1. rewrite Hs in H1. rewrite H1.
    exists evs. repeat split; assumption. }
  destruct (Z.leb_spec 0 accepted) as [Hacc | Hno].
  - destruct (place_client accepted client_fds) as [placed |] eqn:Hp.
    + destruct (Hrun placed) as (evs & H1 & H2 & H3).
      { rewrite (place_client_length accepted client_fds placed Hp). exact Hlen. }
      exists placed, evs. split; [left; split; [exact Hacc | reflexivity] |].
      repeat split; assumption.
    + destruct (Hrun client_fds Hlen) as (evs & H1 & H2 & H3).
      exists client_fds, evs. split; [right; split; [right |]; reflexivity |].
      repeat split; assumption.
  - destruct (Hrun client_fds Hlen) as (evs & H1 & H2 & H3).
    exists client_fds, evs. split; [right; split; [left; exact Hno | reflexivity] |].
    repeat split; assumption.
Qed.

(** Slots 5, free, 7, free; a connection 9 is pending, the client on 5
    sends a read request and the one on 7 has closed: 9 takes the
    second slot, the third is freed, and the one frame goes to 5. *)
Lemma responses_go_to_clients_with_data_witness :
  handle_tcp_clients_ 1000 3 9 example_recv [5; -1; 7; -1] example_one_source
  = ([5; 9; -1; -1], process_tcp_request_ 1000 5 read_suns_request example_one_source)
  /\ tcp_sent (trace_ (process_tcp_request_ 1000 5 read_suns_request example_one_source))
     = [(5, [0; 1; 0; 0; 0; 7; 126; 3; 4; 83; 117; 110; 83])]
  /\ let result :=
       handle_tcp_clients_ 1000 3 9 example_recv [5; -1; 7; -1] example_one_source in
     if 3 <? 0 then result = ([5; -1; 7; -1], example_one_source)
     else
       exists slots evs,
         ((0 <= 9 /\ place_client 9 [5; -1; 7; -1] = Some slots)
          \/ ((9 < 0 \/ place_client 9 [5; -1; 7; -1] = None)
              /\ slots = [5; -1; 7; -1]))
         /\ fst result = map (fun fd => if hangs_up example_recv fd then -1 else fd) slots
         /\ trace_ (snd result) = trace_ example_one_source ++ evs
         /\ sublist (map fst (tcp_sent evs)) (List.filter (has_data example_recv) slots).
Proof.
  split; [vm_compute; reflexivity |].
  split; [vm_compute; reflexivity |].
  apply (responses_go_to_clients_with_data 1000 3 9 example_recv [5; -1; 7; -1]
           example_one_source).
  reflexivity.
Defined.
